(** * Portfolio risk and diversification analytics: a shallow embedding

    The development embeds the two analytics call sites of the repository,
    [AnalyticsService] (analytics.service.ts) and [AiService]
    (ai/ai.service.ts), and settles the properties the specification states
    about them.  It goes on to the news service (news/news.service.ts) and
    its controller: the sentiment classification, the articles fetched from
    Finnhub, the news of a portfolio and the alerts table.

    Numbers.  A JavaScript [number] is an IEEE 754 double.  The main
    embedding of the two services ([Analytics], [Ai]) takes it as an exact
    rational [Q]: [+], [-], [*], [/], comparisons, [Math.min] and
    [Math.round] are the exact operations.  An exact sum does not depend
    on the order of its terms and an exact product is not rounded before
    [Math.round] sees it, while the sums and products of the source are;
    so the results stated over this embedding are those that are the same
    on doubles:
    comparisons of given numbers, counts, which holding or class is
    selected, the shape of the results, one rounding of one value, and
    bounds with room for the rounding error.  Values that the code obtains
    from [Math.round] or from [.length] are integers and are typed [Z],
    resp. [nat].  [Double] is the same arithmetic in binary64, operation
    by operation; it evaluates the services on concrete holdings, among
    them holdings for which the order of a sum decides the result.

    Absent fields.  A field read through [??] in the source is an [option];
    [x ?? d] is [from_option x d].  [Js] is the embedding of the services
    over the values a JavaScript expression can take on such input, with
    [undefined], [NaN] and exceptions.

    Arrays.  [getSummary] sorts its array in place before its helpers read
    it; in the main embedding the helpers are therefore applied to the
    sorted list.  [Store] is the embedding with the arrays in a store,
    passed by reference, from which this is derived. *)

From Stdlib Require Import List String Ascii ZArith QArith Qround Qabs.
From Stdlib Require Import Lia Lqa Permutation Bool DecimalString.
From Stdlib Require PrimFloat FloatOps SpecFloat Uint63.
Import ListNotations.

Open Scope string_scope.
Open Scope Q_scope.

(** ** JavaScript primitives used by the two services *)

(** [x ?? d]: the nullish-coalescing operator. *)
Definition from_option {A : Type} (x : option A) (d : A) : A :=
  match x with
  | Some v => v
  | None => d
  end.

Notation "x ?? d" := (from_option x d) (at level 45, left associativity).

(** [a ?? b ?? d] on two optional operands ([top.name ?? top.symbol ?? '']). *)
Definition or_else {A : Type} (x y : option A) : option A :=
  match x with
  | Some _ => x
  | None => y
  end.

(** [Math.round]: nearest integer, ties towards +infinity. *)
Definition Math_round (x : Q) : Z := Qfloor (x + (1 # 2)).

(** [Math.min]. *)
Definition Math_min (a b : Q) : Q := if Qle_bool a b then a else b.

(** [a > b] and [a < b] on numbers. *)
Definition gtb (a b : Q) : bool := negb (Qle_bool a b).
Definition ltb (a b : Q) : bool := negb (Qle_bool b a).

(** [Math.round(x * 10000) / 10000], [Math.round(x * 100) / 100] and
    [Math.round(x * 10000) / 100]. *)
Definition round4 (x : Q) : Q := inject_Z (Math_round (x * 10000)) / 10000.
Definition round2 (x : Q) : Q := inject_Z (Math_round (x * 100)) / 100.
Definition round_pct (x : Q) : Q := inject_Z (Math_round (x * 10000)) / 100.

(** Decimal rendering of a non-negative integer ([String(n)]). *)
Definition string_of_N (n : Z) : string :=
  NilZero.string_of_uint (N.to_uint (Z.to_N n)).

(** Rendering of an integer inside a template literal. *)
Definition string_of_Z (n : Z) : string :=
  if (n <? 0)%Z then "-" ++ string_of_N (- n) else string_of_N n.

Definition string_of_nat (n : nat) : string := string_of_N (Z.of_nat n).

(** Left padding with ["0"] up to [w] characters. *)
Fixpoint zeros (n : nat) : string :=
  match n with
  | O => ""
  | S n' => "0" ++ zeros n'
  end.

Definition pad0 (w : nat) (s : string) : string :=
  zeros (w - String.length s) ++ s.

(** [Number.prototype.toFixed(f)]: with [n] the integer closest to
    [|x| * 10^f] (the larger one on a tie), the digits of [n] with a point
    before the last [f] of them, and a leading ["-"] when [x < 0].  (The
    exponent notation that JavaScript switches to from 1e21 on is left
    out.) *)
Definition toFixed (f : nat) (x : Q) : string :=
  let p := (10 ^ Z.of_nat f)%Z in
  let n := Math_round (Qabs x * inject_Z p) in
  let body :=
    match f with
    | O => string_of_N n
    | _ => string_of_N (n / p) ++ "." ++ pad0 f (string_of_N (n mod p))
    end in
  if ltb x 0 then "-" ++ body else body.

(** [Array.prototype.sort] with a comparator [cmp a b = key b - key a]:
    a stable sort by descending key.  [insert_desc] puts [x] in front of the
    first element whose key is not greater, so an element keeps its place
    relative to later elements of equal key. *)
Section Sort.
Context {A : Type} (key : A -> Q).

Fixpoint insert_desc (x : A) (l : list A) : list A :=
  match l with
  | [] => [x]
  | y :: l' =>
      if gtb (key y) (key x) then y :: insert_desc x l' else x :: y :: l'
  end.

Fixpoint sort_desc (l : list A) : list A :=
  match l with
  | [] => []
  | x :: l' => insert_desc x (sort_desc l')
  end.
End Sort.

(** [Map<string, V>]: keys in insertion order; [set] on a present key
    replaces the value in place. *)
Section JsMap.
Context {V : Type}.

Fixpoint Map_get (k : string) (m : list (string * V)) : option V :=
  match m with
  | [] => None
  | (k', v) :: m' => if String.eqb k' k then Some v else Map_get k m'
  end.

Fixpoint Map_set (k : string) (v : V) (m : list (string * V))
  : list (string * V) :=
  match m with
  | [] => [(k, v)]
  | (k', v') :: m' =>
      if String.eqb k' k then (k', v) :: m' else (k', v') :: Map_set k v m'
  end.
End JsMap.

(** [Array.prototype.find]. *)
Definition Array_find {A : Type} (f : A -> bool) (l : list A) : option A :=
  List.find f l.

(** [s !== t] on strings. *)
Definition strneq (s t : string) : bool := negb (String.eqb s t).

(** ** The input: [PortfolioPosition] *)

Record PortfolioPosition : Type := mkPosition {
  symbol : option string;
  name : option string;
  assetClass : option string;
  assetSubClass : option string;
  currency : option string;
  allocationInPercentage : option Q;
  valueInBaseCurrency : option Q;
  marketPrice : option Q
}.

(** [p.allocationInPercentage ?? 0] *)
Definition alloc (p : PortfolioPosition) : Q := allocationInPercentage p ?? 0.

(** [positions.filter((p) => p.assetClass !== AssetClass.LIQUIDITY).length] *)
Definition notLiquidity (p : PortfolioPosition) : bool :=
  match assetClass p with
  | Some c => strneq c "LIQUIDITY"
  | None => true
  end.

(** [positions.reduce((sum, p) => { const w = ...; return sum + w * w }, 0)] *)
Definition hhi (positions : list PortfolioPosition) : Q :=
  fold_left (fun sum p => let w := alloc p in sum + w * w) positions 0.

(** The [for (const p of positions)] loop over [classMap]. *)
Definition classMap_step (m : list (string * (Q * Q))) (p : PortfolioPosition)
  : list (string * (Q * Q)) :=
  let cls := assetClass p ?? "UNKNOWN" in
  let existing := Map_get cls m ?? (0, 0) in
  let existing' :=
    (fst existing + alloc p, snd existing + (valueInBaseCurrency p ?? 0)) in
  Map_set cls existing' m.

Definition classMap (positions : list PortfolioPosition)
  : list (string * (Q * Q)) :=
  fold_left classMap_step positions [].

(** [(a) => a.assetClass !== 'LIQUIDITY' && a.assetClass !== 'UNKNOWN'] *)
Definition countedClass (c : string) : bool :=
  strneq c "LIQUIDITY" && strneq c "UNKNOWN".

(** ** analytics.service.ts *)

Module Analytics.

Record ConcentrationRisk : Type := mkConcentrationRisk {
  topHoldingSymbol : string;
  topHoldingName : string;
  topHoldingWeight : Q;
  herfindahlIndex : Q;
  isHighlyConcentrated : bool
}.

Record DiversificationScore : Type := mkDiversificationScore {
  score : Z;
  assetClassCount : nat;
  holdingsCount : nat;
  topAssetClass : string;
  topAssetClassWeight : Q
}.

Record AssetAllocationEntry : Type := mkAssetAllocationEntry {
  entryAssetClass : string;
  weight : Q;
  entryValueInBaseCurrency : Q
}.

Record PortfolioAnalyticsResponse : Type := mkPortfolioAnalyticsResponse {
  assetAllocation : list AssetAllocationEntry;
  concentrationRisk : ConcentrationRisk;
  diversification : DiversificationScore;
  insights : list string;
  computedAt : string
}.

(** [sorted[0]] is read only when [positions] is not empty; [p0], the
    first position, stands in for the out-of-range read that cannot
    happen. *)
Definition computeConcentrationRisk (positions : list PortfolioPosition)
  : ConcentrationRisk :=
  match positions with
  | [] => mkConcentrationRisk "" "" 0 0 false
  | p0 :: _ =>
      let sorted := sort_desc alloc positions in
      let top := hd p0 sorted in
      mkConcentrationRisk
        (symbol top ?? "")
        (or_else (name top) (symbol top) ?? "")
        (alloc top)
        (round4 (hhi positions))
        (gtb (hhi positions) (25 # 100))
  end.

Definition toEntry (kv : string * (Q * Q)) : AssetAllocationEntry :=
  let '(cls, (w, v)) := kv in
  mkAssetAllocationEntry cls (round4 w) (round2 v).

Definition computeAssetAllocation (positions : list PortfolioPosition)
  : list AssetAllocationEntry :=
  sort_desc weight (map toEntry (classMap positions)).

Definition counted (a : AssetAllocationEntry) : bool :=
  countedClass (entryAssetClass a).

Definition holdingsScore (holdingsCount : nat) : Q :=
  Math_min (inject_Z (Z.of_nat holdingsCount) / 20) 1 * 40.

Definition classScore (assetClassCount : nat) : Q :=
  Math_min (inject_Z (Z.of_nat assetClassCount) / 5) 1 * 30.

Definition classHhi (allocation : list AssetAllocationEntry) : Q :=
  fold_left (fun sum a => sum + weight a * weight a)
    (filter counted allocation) 0.

Definition evennessScore (allocation : list AssetAllocationEntry) : Q :=
  (1 - classHhi allocation) * 30.

Definition computeDiversification (positions : list PortfolioPosition)
  (allocation : list AssetAllocationEntry) : DiversificationScore :=
  let holdingsCount := List.length (filter notLiquidity positions) in
  let assetClassCount := List.length (filter counted allocation) in
  let topAssetClass := option_map entryAssetClass (hd_error allocation)
                         ?? "UNKNOWN" in
  let topAssetClassWeight := option_map weight (hd_error allocation) ?? 0 in
  let score :=
    Math_round
      (Math_min (holdingsScore holdingsCount + classScore assetClassCount
                 + evennessScore allocation) 100) in
  mkDiversificationScore score assetClassCount holdingsCount topAssetClass
    (round4 topAssetClassWeight).

Definition pct1 (x : Q) : string := toFixed 1 (x * 100).

Definition concentrationInsight (c : ConcentrationRisk) : list string :=
  if isHighlyConcentrated c then
    ["High concentration risk: " ++ topHoldingName c ++ " "
     ++ "(" ++ topHoldingSymbol c ++ ") represents "
     ++ pct1 (topHoldingWeight c) ++ "% of the portfolio. "
     ++ "HHI is " ++ toFixed 4 (herfindahlIndex c)
     ++ ", which exceeds 0.25 threshold."]
  else if gtb (topHoldingWeight c) (15 # 100) then
    ["Moderate concentration: " ++ topHoldingName c ++ " "
     ++ "is the largest position at " ++ pct1 (topHoldingWeight c) ++ "%."]
  else [].

Definition diversificationInsight (d : DiversificationScore)
  : list string :=
  if (score d >=? 70)%Z then
    ["Good diversification (score: " ++ string_of_Z (score d)
     ++ "/100) across " ++ string_of_nat (holdingsCount d)
     ++ " holdings and " ++ string_of_nat (assetClassCount d)
     ++ " asset classes."]
  else if (score d >=? 40)%Z then
    ["Moderate diversification (score: " ++ string_of_Z (score d)
     ++ "/100). " ++ "Consider adding more asset classes or holdings."]
  else
    ["Low diversification (score: " ++ string_of_Z (score d) ++ "/100). "
     ++ "Portfolio is heavily weighted in " ++ topAssetClass d ++ " "
     ++ "(" ++ pct1 (topAssetClassWeight d) ++ "%)."].

Definition equityInsight (allocation : list AssetAllocationEntry)
  : list string :=
  match Array_find (fun a => String.eqb (entryAssetClass a) "EQUITY")
          allocation with
  | Some equityAlloc =>
      if gtb (weight equityAlloc) (8 # 10) then
        ["Portfolio is " ++ pct1 (weight equityAlloc) ++ "% equities — "
         ++ "consider adding bonds or fixed income for stability."]
      else []
  | None => []
  end.

Definition fixedIncomeInsight (allocation : list AssetAllocationEntry)
  : list string :=
  match Array_find (fun a => String.eqb (entryAssetClass a) "FIXED_INCOME")
          allocation with
  | Some fixedIncomeAlloc =>
      if ltb (weight fixedIncomeAlloc) (5 # 100) then
        ["No significant fixed income allocation detected."]
      else []
  | None => ["No significant fixed income allocation detected."]
  end.

(** [insights] starts empty and each rule pushes at most one string, in
    this order. *)
Definition generateInsights (concentration : ConcentrationRisk)
  (diversification : DiversificationScore)
  (allocation : list AssetAllocationEntry) : list string :=
  concentrationInsight concentration
  ++ diversificationInsight diversification
  ++ equityInsight allocation
  ++ fixedIncomeInsight allocation.

(** [getAnalytics] after [portfolioService.getDetails] has delivered the
    holdings; [now] is what [new Date().toISOString()] reads off the
    clock at the time of the call. *)
Definition getAnalytics (now : string) (positions : list PortfolioPosition)
  : PortfolioAnalyticsResponse :=
  let concentrationRisk := computeConcentrationRisk positions in
  let assetAllocation := computeAssetAllocation positions in
  let diversification := computeDiversification positions assetAllocation in
  let insights :=
    generateInsights concentrationRisk diversification assetAllocation in
  mkPortfolioAnalyticsResponse assetAllocation concentrationRisk
    diversification insights now.

End Analytics.

(** ** ai/ai.service.ts *)

Module Ai.

Record AiSummaryHolding : Type := mkAiSummaryHolding {
  holdingSymbol : string;
  holdingName : string;
  holdingAssetClass : string;
  holdingAssetSubClass : string;
  holdingCurrency : string;
  allocationPercentage : Q;
  holdingValueInBaseCurrency : Q;
  holdingMarketPrice : Q
}.

Record AiSummaryConcentration : Type := mkAiSummaryConcentration {
  topHoldingSymbol : string;
  topHoldingName : string;
  topHoldingWeight : Q;
  herfindahlIndex : Q;
  isHighlyConcentrated : bool
}.

Record AiSummaryDiversification : Type := mkAiSummaryDiversification {
  score : Z;
  assetClassCount : nat;
  holdingsCount : nat;
  topAssetClass : string;
  topAssetClassWeight : Q
}.

Record AiSummaryAssetAllocation : Type := mkAiSummaryAssetAllocation {
  entryAssetClass : string;
  weight : Q;
  entryValueInBaseCurrency : Q
}.

Record AiSummaryResponse : Type := mkAiSummaryResponse {
  baseCurrency : string;
  holdings : list AiSummaryHolding;
  concentration : AiSummaryConcentration;
  diversification : AiSummaryDiversification;
  assetAllocation : list AiSummaryAssetAllocation;
  insights : list string;
  computedAt : string
}.

(** The [.map((p) => ({ ... }))] callback of [getSummary]. *)
Definition toHolding (userCurrency : string) (p : PortfolioPosition)
  : AiSummaryHolding :=
  mkAiSummaryHolding
    (symbol p ?? "")
    (or_else (name p) (symbol p) ?? "")
    (assetClass p ?? "UNKNOWN")
    (assetSubClass p ?? "UNKNOWN")
    (currency p ?? userCurrency)
    (round_pct (alloc p))
    (round2 (valueInBaseCurrency p ?? 0))
    (marketPrice p ?? 0).

Definition computeConcentration (positions : list PortfolioPosition)
  : AiSummaryConcentration :=
  match positions with
  | [] => mkAiSummaryConcentration "" "" 0 0 false
  | p0 :: _ =>
      let sorted := sort_desc alloc positions in
      let top := hd p0 sorted in
      mkAiSummaryConcentration
        (symbol top ?? "")
        (or_else (name top) (symbol top) ?? "")
        (round_pct (alloc top))
        (round4 (hhi positions))
        (gtb (hhi positions) (25 # 100))
  end.

Definition toEntry (kv : string * (Q * Q)) : AiSummaryAssetAllocation :=
  let '(cls, (w, v)) := kv in
  mkAiSummaryAssetAllocation cls (round_pct w) (round2 v).

Definition computeAssetAllocation (positions : list PortfolioPosition)
  : list AiSummaryAssetAllocation :=
  sort_desc weight (map toEntry (classMap positions)).

Definition counted (a : AiSummaryAssetAllocation) : bool :=
  countedClass (entryAssetClass a).

Definition holdingsScore (holdingsCount : nat) : Q :=
  Math_min (inject_Z (Z.of_nat holdingsCount) / 20) 1 * 40.

Definition classScore (assetClassCount : nat) : Q :=
  Math_min (inject_Z (Z.of_nat assetClassCount) / 5) 1 * 30.

Definition classWeightsAsFraction
  (allocation : list AiSummaryAssetAllocation) : list Q :=
  map (fun a => weight a / 100) (filter counted allocation).

Definition classHhi (allocation : list AiSummaryAssetAllocation) : Q :=
  fold_left (fun sum w => sum + w * w) (classWeightsAsFraction allocation) 0.

Definition evennessScore (allocation : list AiSummaryAssetAllocation) : Q :=
  (1 - classHhi allocation) * 30.

Definition computeDiversification (positions : list PortfolioPosition)
  (allocation : list AiSummaryAssetAllocation) : AiSummaryDiversification :=
  let holdingsCount := List.length (filter notLiquidity positions) in
  let assetClassCount := List.length (filter counted allocation) in
  let topAssetClass := option_map entryAssetClass (hd_error allocation)
                         ?? "UNKNOWN" in
  let topAssetClassWeight := option_map weight (hd_error allocation) ?? 0 in
  let score :=
    Math_round
      (Math_min (holdingsScore holdingsCount + classScore assetClassCount
                 + evennessScore allocation) 100) in
  mkAiSummaryDiversification score assetClassCount holdingsCount
    topAssetClass topAssetClassWeight.

Definition concentrationInsight (c : AiSummaryConcentration)
  : list string :=
  if isHighlyConcentrated c then
    ["High concentration risk: " ++ topHoldingName c ++ " "
     ++ "represents " ++ toFixed 1 (topHoldingWeight c)
     ++ "% of the portfolio. "
     ++ "HHI of " ++ toFixed 4 (herfindahlIndex c)
     ++ " exceeds the 0.25 threshold."]
  else if gtb (topHoldingWeight c) 15 then
    ["Moderate concentration: " ++ topHoldingName c ++ " "
     ++ "is the largest position at " ++ toFixed 1 (topHoldingWeight c)
     ++ "%."]
  else [].

Definition diversificationInsight (d : AiSummaryDiversification)
  : list string :=
  if (score d >=? 70)%Z then
    ["Good diversification (score: " ++ string_of_Z (score d)
     ++ "/100) across " ++ string_of_nat (holdingsCount d)
     ++ " holdings and " ++ string_of_nat (assetClassCount d)
     ++ " asset classes."]
  else if (score d >=? 40)%Z then
    ["Moderate diversification (score: " ++ string_of_Z (score d)
     ++ "/100). " ++ "Consider adding more asset classes or holdings."]
  else
    ["Low diversification (score: " ++ string_of_Z (score d) ++ "/100). "
     ++ "Portfolio is heavily weighted in " ++ topAssetClass d ++ " "
     ++ "(" ++ toFixed 1 (topAssetClassWeight d) ++ "%)."].

Definition equityInsight (allocation : list AiSummaryAssetAllocation)
  : list string :=
  match Array_find (fun a => String.eqb (entryAssetClass a) "EQUITY")
          allocation with
  | Some equityAlloc =>
      if gtb (weight equityAlloc) 80 then
        ["Portfolio is " ++ toFixed 1 (weight equityAlloc)
         ++ "% equities — "
         ++ "consider adding bonds or fixed income for stability."]
      else []
  | None => []
  end.

Definition fixedIncomeInsight (allocation : list AiSummaryAssetAllocation)
  : list string :=
  match Array_find (fun a => String.eqb (entryAssetClass a) "FIXED_INCOME")
          allocation with
  | Some fixedIncome =>
      if ltb (weight fixedIncome) 5 then
        ["No significant fixed income allocation detected."]
      else []
  | None => ["No significant fixed income allocation detected."]
  end.

Definition generateInsights (concentration : AiSummaryConcentration)
  (diversification : AiSummaryDiversification)
  (allocation : list AiSummaryAssetAllocation) : list string :=
  concentrationInsight concentration
  ++ diversificationInsight diversification
  ++ equityInsight allocation
  ++ fixedIncomeInsight allocation.

(** [getSummary] after [portfolioService.getDetails].  [positions.sort]
    sorts the array in place, so every later helper receives the sorted
    array. *)
Definition getSummary (now : string) (userCurrency : string)
  (positions0 : list PortfolioPosition) : AiSummaryResponse :=
  let positions := sort_desc alloc positions0 in
  let holdingsList := map (toHolding userCurrency) positions in
  let concentration := computeConcentration positions in
  let assetAllocation := computeAssetAllocation positions in
  let diversification := computeDiversification positions assetAllocation in
  let insights :=
    generateInsights concentration diversification assetAllocation in
  mkAiSummaryResponse userCurrency holdingsList concentration
    diversification assetAllocation insights now.

End Ai.

(** ** Auxiliary notions for the proofs *)

(** The sum of a list of numbers. *)
Definition sumQ (l : list Q) : Q := fold_right Qplus 0 l.

(** Sorted by descending key: each element's key bounds those after it. *)
Inductive sorted_desc {A : Type} (key : A -> Q) : list A -> Prop :=
| sorted_nil : sorted_desc key []
| sorted_cons x l :
    Forall (fun y => key y <= key x) l -> sorted_desc key l ->
    sorted_desc key (x :: l).

(** Equality of numbers up to their representation as fractions, on the
    values of the class map and on the results of [Map.get]. *)
Definition veq (a b : Q * Q) : Prop := fst a == fst b /\ snd a == snd b.

Definition oeq (a b : option (Q * Q)) : Prop :=
  match a, b with
  | Some x, Some y => veq x y
  | None, None => True
  | _, _ => False
  end.

(** The key under which the aggregation loop files a position. *)
Definition classOf (p : PortfolioPosition) : string :=
  assetClass p ?? "UNKNOWN".

(** What one loop iteration does to the entry of class [c]. *)
Definition upd (c : string) (o : option (Q * Q)) (p : PortfolioPosition)
  : option (Q * Q) :=
  if String.eqb (classOf p) c then
    Some (fst (o ?? (0, 0)) + alloc p,
          snd (o ?? (0, 0)) + (valueInBaseCurrency p ?? 0))
  else o.



(** The class HHI and the class count in terms of the class map: what both
    services compute from their rounded allocation entries. *)
Definition countedKey (kv : string * (Q * Q)) : bool := countedClass (fst kv).

Definition mapHhi (m : list (string * (Q * Q))) : Q :=
  sumQ (map (fun kv => round4 (fst (snd kv)) * round4 (fst (snd kv)))
          (filter countedKey m)).

Definition mapCount (m : list (string * (Q * Q))) : nat :=
  List.length (filter countedKey m).

(** The score of either service, written over the class map. *)
Definition scoreOf (positions : list PortfolioPosition) : Z :=
  Math_round
    (Math_min
       (Analytics.holdingsScore (List.length (filter notLiquidity positions))
        + Analytics.classScore (mapCount (classMap positions))
        + (1 - mapHhi (classMap positions)) * 30) 100).

(** A position with every absent field filled in the way the services'
    [??] chains do. *)
Definition withDefaults (userCurrency : string) (p : PortfolioPosition)
  : PortfolioPosition :=
  mkPosition
    (Some (symbol p ?? ""))
    (Some (or_else (name p) (symbol p) ?? ""))
    (Some (assetClass p ?? "UNKNOWN"))
    (Some (assetSubClass p ?? "UNKNOWN"))
    (Some (currency p ?? userCurrency))
    (Some (allocationInPercentage p ?? 0))
    (Some (valueInBaseCurrency p ?? 0))
    (Some (marketPrice p ?? 0)).

(** ** Sample inputs *)

(** A holding that carries a symbol, an asset class and an allocation, and
    nothing else. *)
Definition holding (sym cls : string) (w : Q) : PortfolioPosition :=
  mkPosition (Some sym) None (Some cls) None None (Some w) None None.

(** Scenario B with the unspecified fields left open. *)
Definition aapl_full (nm sub cur : option string) (val price : option Q)
  : PortfolioPosition :=
  mkPosition (Some "AAPL") nm (Some "EQUITY") sub cur (Some 1) val price.

(** One holding whose squared weight lies just above a quarter. *)
Definition just_above_quarter : list PortfolioPosition :=
  [holding "AAPL" "EQUITY" (50001 # 100000)].

(** Two holdings at full weight each. *)
Definition two_full : list PortfolioPosition :=
  [holding "AAPL" "EQUITY" 1; holding "MSFT" "EQUITY" 1].

(** A two-holding portfolio at 60% and 40%. *)
Definition sixty_forty : list PortfolioPosition :=
  [holding "AAPL" "EQUITY" (6 # 10); holding "BND" "FIXED_INCOME" (4 # 10)].


(** Three equity holdings at full weight each. *)
Definition three_full : list PortfolioPosition :=
  [holding "AAPL" "EQUITY" 1; holding "MSFT" "EQUITY" 1;
   holding "NVDA" "EQUITY" 1].

(** One holding whose allocation has six decimals. *)
Definition six_decimals : list PortfolioPosition :=
  [holding "AAPL" "EQUITY" (123456 # 1000000)].

(** Two classes of equal weight, the second one holding the largest
    position. *)
Definition tied_classes : list PortfolioPosition :=
  [holding "VT" "EQUITY" (1 # 10); holding "BND" "FIXED_INCOME" (2 # 10);
   holding "VTI" "EQUITY" (1 # 10)].

(** A holding of which only the symbol is known. *)
Definition symbol_only : PortfolioPosition :=
  mkPosition (Some "AAPL") None None None None None None None.

(** ** Notions for the further properties *)

(** The positions that the aggregation loop files under class [c], and the
    sums it accumulates for them. *)
Definition inClass (c : string) (p : PortfolioPosition) : bool :=
  String.eqb (classOf p) c.

Definition classWeight (c : string) (positions : list PortfolioPosition) : Q :=
  sumQ (map alloc (filter (inClass c) positions)).

Definition classValue (c : string) (positions : list PortfolioPosition) : Q :=
  sumQ (map (fun p => valueInBaseCurrency p ?? 0)
          (filter (inClass c) positions)).

(** ** news/news.service.ts and news/news.controller.ts

    Strings are byte strings.  [toLowerCase] below changes the ASCII
    letters only; the keywords that [classifySentiment] looks for are
    ASCII, and no non-ASCII character lower-cases to a text that contains
    one of them, so the classification is the one of the source.  The
    database is the list of the rows of a table, in storage order; what
    the SQL statements of the source do to it is written out.  What comes
    from outside the service is an input of its operation: the clock
    ([NOW()], [new Date()]), the generated row id ([gen_random_uuid()]),
    the outcome of [fetch], and [String.prototype.toUpperCase]. *)

Module News.

(** [x || d] on an optional string: the empty string counts as absent. *)
Definition truthy (x : option string) : option string :=
  match x with
  | Some EmptyString => None
  | _ => x
  end.

Definition lowerAscii (c : ascii) : ascii :=
  let n := nat_of_ascii c in
  if ((65 <=? n) && (n <=? 90))%nat then ascii_of_nat (n + 32) else c.

Fixpoint toLowerCase (s : string) : string :=
  match s with
  | EmptyString => EmptyString
  | String c s' => String (lowerAscii c) (toLowerCase s')
  end.

(** [text.includes(w)] *)
Fixpoint includes (text w : string) : bool :=
  String.prefix w text
  || match text with
     | EmptyString => false
     | String _ text' => includes text' w
     end.

Definition positive : list string :=
  ["surge"; "gain"; "rise"; "up"; "high"; "growth";
   "profit"; "beat"; "upgrade"; "rally"; "bullish"; "record"].

Definition negative : list string :=
  ["drop"; "fall"; "decline"; "down"; "low"; "loss";
   "miss"; "downgrade"; "crash"; "bearish"; "cut"; "warning"].

Definition sentimentText (headline : string) (summary : option string)
  : string :=
  toLowerCase (headline ++ " " ++ (truthy summary ?? "")).

Definition posCount (text : string) : nat :=
  List.length (filter (fun w => includes text w) positive).

Definition negCount (text : string) : nat :=
  List.length (filter (fun w => includes text w) negative).

Definition classifySentiment (headline : string) (summary : option string)
  : string :=
  let text := sentimentText headline summary in
  if (negCount text <? posCount text)%nat then "positive"
  else if (posCount text <? negCount text)%nat then "negative"
  else "neutral".

Record NewsArticle : Type := mkNewsArticle {
  id : string;
  symbol : string;
  headline : string;
  summary : option string;
  sentiment : option string;
  source : string;
  url : string;
  published_at : string;
  fetched_at : string
}.

Record NewsResponse : Type := mkNewsResponse {
  articles : list NewsArticle;
  responseSymbol : option string;
  fetchedAt : string
}.

Record PortfolioNewsResponse : Type := mkPortfolioNewsResponse {
  portfolioArticles : list NewsArticle;
  symbols : list string;
  portfolioFetchedAt : string
}.

(** One element of the JSON array that Finnhub answers with. *)
Record FinnhubItem : Type := mkFinnhubItem {
  itemHeadline : option string;
  itemSummary : option string;
  itemSource : option string;
  itemUrl : option string;
  itemDatetime : option Q
}.

(** What [await fetch(url)] and [await response.json()] come to: [fetch]
    rejects, or answers with [response.ok], and then [json()] rejects
    ([None]) or delivers the array. *)
Inductive FetchOutcome : Type :=
| FetchRejected
| FetchResponse (ok : bool) (body : option (list FinnhubItem)).

(** [new Date(ms)]: the time value of a date made from a number, [None]
    for an invalid date (beyond 8.64e15 ms either way); a fraction is cut
    off towards zero. *)
Definition timeValue (ms : Q) : option Z :=
  if Qle_bool (- (8640000000000000)) ms && Qle_bool ms 8640000000000000
  then Some (if Qle_bool 0 ms then Qfloor ms else Qceiling ms)
  else None.

(** The [.map((item) => ({ ... }))] callback of [fetchFromFinnhub];
    [toISOString] renders a time value, and [fetchedAt] is the clock
    reading taken for this item.  [None] is the [RangeError] that
    [toISOString] raises on an invalid date. *)
Definition toArticle (toISOString : Z -> string) (sym fetchedAt : string)
  (item : FinnhubItem) : option NewsArticle :=
  let datetime :=
    match itemDatetime item with
    | Some d => if Qeq_bool d 0 then 0 else d
    | None => 0
    end in
  match timeValue (datetime * 1000) with
  | Some t =>
      Some (mkNewsArticle ""
              sym
              (truthy (itemHeadline item) ?? "")
              (truthy (itemSummary item))
              (Some (classifySentiment (truthy (itemHeadline item) ?? "")
                       (itemSummary item)))
              (truthy (itemSource item) ?? "Unknown")
              (truthy (itemUrl item) ?? "")
              (toISOString t)
              fetchedAt)
  | None => None
  end.

(** [Array.prototype.map] with a callback that can raise: the articles of
    all items, or [None] as soon as one raises; the [i]-th item reads the
    clock at [clock i]. *)
Fixpoint toArticles (toISOString : Z -> string) (sym : string)
  (clock : nat -> string) (i : nat) (items : list FinnhubItem)
  : option (list NewsArticle) :=
  match items with
  | [] => Some []
  | item :: items' =>
      match toArticle toISOString sym (clock i) item with
      | Some a =>
          match toArticles toISOString sym clock (S i) items' with
          | Some l => Some (a :: l)
          | None => None
          end
      | None => None
      end
  end.

(** [fetchFromFinnhub]: every failure ends in the empty array. *)
Definition fetchFromFinnhub (finnhubApiKey : string)
  (toISOString : Z -> string) (clock : nat -> string)
  (outcome : FetchOutcome) (sym : string) : list NewsArticle :=
  if String.eqb finnhubApiKey "" then []
  else
    match outcome with
    | FetchRejected => []
    | FetchResponse false _ => []
    | FetchResponse true None => []
    | FetchResponse true (Some data) =>
        toArticles toISOString sym clock 0 (firstn 20 data) ?? []
    end.

(** [[...new Set(xs)]]: the distinct elements in order of first
    occurrence. *)
Fixpoint distinct (xs : list string) : list string :=
  match xs with
  | [] => []
  | x :: xs' =>
      x :: filter (fun y => negb (String.eqb y x)) (distinct xs')
  end.

(** [.filter((s) => Boolean(s))] on the symbols of the orders. *)
Fixpoint truthySymbols (xs : list (option string)) : list string :=
  match xs with
  | [] => []
  | x :: xs' =>
      match truthy x with
      | Some s => s :: truthySymbols xs'
      | None => truthySymbols xs'
      end
  end.

(** The loop of [getNewsForPortfolio]; [getNewsForSymbol sym] is [None]
    when the call raises. *)
Fixpoint collectArticles (getNewsForSymbol : string -> option NewsResponse)
  (syms : list string) : list NewsArticle :=
  match syms with
  | [] => []
  | sym :: syms' =>
      match getNewsForSymbol sym with
      | Some result =>
          firstn 5 (articles result)
          ++ collectArticles getNewsForSymbol syms'
      | None => collectArticles getNewsForSymbol syms'
      end
  end.

(** [getNewsForPortfolio] after [prisma.order.findMany]: [orderSymbols]
    are the [o.SymbolProfile?.symbol] of the orders found, [getTime] is
    [new Date(s).getTime()], and [now] the clock reading at the end. *)
Definition getNewsForPortfolio
  (getNewsForSymbol : string -> option NewsResponse)
  (getTime : string -> Q) (now : string)
  (orderSymbols : list (option string)) : PortfolioNewsResponse :=
  let symbols := distinct (truthySymbols orderSymbols) in
  let allArticles := collectArticles getNewsForSymbol (firstn 10 symbols) in
  let sorted := sort_desc (fun a => getTime (published_at a)) allArticles in
  mkPortfolioNewsResponse (firstn 30 sorted) symbols now.

(** *** The alerts table *)

Record NewsAlert : Type := mkNewsAlert {
  alertId : string;
  user_id : string;
  alertSymbol : string;
  keywords : option string;
  is_active : bool;
  created_at : Z;
  updated_at : Z
}.

(** [WHERE id = $1 AND user_id = $2] *)
Definition matches (aid uid : string) (row : NewsAlert) : bool :=
  String.eqb (alertId row) aid && String.eqb (user_id row) uid.

(** [createAlert]: the [INSERT ... RETURNING *] and [rows[0]].  The row
    gets the generated id [newId] and the time [now] of the statement.
    [None]: the insert raises because the primary key is taken; the table
    stays as it is. *)
Definition createAlert (toUpperCase : string -> string) (newId : string)
  (now : Z) (userId sym : string) (kw : option string)
  (table : list NewsAlert) : option (NewsAlert * list NewsAlert) :=
  if existsb (fun row => String.eqb (alertId row) newId) table
  then None
  else
    let row :=
      mkNewsAlert newId userId (toUpperCase sym) (truthy kw) true now now in
    Some (row, (table ++ [row])%list).

(** [listAlerts]: [WHERE user_id = $1 ORDER BY created_at DESC]; rows
    created at the same time come in storage order. *)
Definition listAlerts (userId : string) (table : list NewsAlert)
  : list NewsAlert :=
  sort_desc (fun row => inject_Z (created_at row))
    (filter (fun row => String.eqb (user_id row) userId) table).

(** The body of an update request: [{ keywords?, isActive? }]. *)
Record UpdateAlertDto : Type := mkUpdateAlertDto {
  dtoKeywords : option string;
  dtoIsActive : option bool
}.

(** [updateAlert]: the [SELECT], the choice of the new values and the
    [UPDATE ... RETURNING *]. *)
Definition updateAlert (now : Z) (aid userId : string)
  (data : UpdateAlertDto) (table : list NewsAlert)
  : option NewsAlert * list NewsAlert :=
  let existing := filter (matches aid userId) table in
  match existing with
  | [] => (None, table)
  | current :: _ =>
      let newKeywords :=
        match dtoKeywords data with
        | Some k => Some k
        | None => keywords current
        end in
      let newIsActive :=
        match dtoIsActive data with
        | Some b => b
        | None => is_active current
        end in
      let set row :=
        mkNewsAlert (alertId row) (user_id row) (alertSymbol row)
          newKeywords newIsActive (created_at row) now in
      let table' :=
        map (fun row => if matches aid userId row then set row else row)
          table in
      let updated := map set (filter (matches aid userId) table) in
      (hd_error updated, table')
  end.

(** [deleteAlert]: the [DELETE] and its row count. *)
Definition deleteAlert (aid userId : string) (table : list NewsAlert)
  : bool * list NewsAlert :=
  let count := List.length (filter (matches aid userId) table) in
  ((0 <? count)%nat,
   filter (fun row => negb (matches aid userId row)) table).

(** *** The controller *)

Inductive HttpResult (A : Type) : Type :=
| Ok (value : A)
| HttpException (message : string) (status : Z).

Arguments Ok {A} value.
Arguments HttpException {A} message status.

Definition BAD_REQUEST : Z := 400.
Definition NOT_FOUND : Z := 404.

Record CreateAlertDto : Type := mkCreateAlertDto {
  dtoSymbol : option string;
  dtoCreateKeywords : option string
}.

(** [POST /news/alerts].  [None]: the insert raised, which the controller
    does not catch. *)
Definition controllerCreateAlert (toUpperCase : string -> string)
  (newId : string) (now : Z) (requestUserId : string) (dto : CreateAlertDto)
  (table : list NewsAlert)
  : option (HttpResult NewsAlert * list NewsAlert) :=
  match truthy (dtoSymbol dto) with
  | None => Some (HttpException "symbol is required" BAD_REQUEST, table)
  | Some sym =>
      match createAlert toUpperCase newId now requestUserId sym
              (dtoCreateKeywords dto) table with
      | Some (row, table') => Some (Ok row, table')
      | None => None
      end
  end.

(** [PATCH /news/alerts/:id] *)
Definition controllerUpdateAlert (now : Z) (requestUserId aid : string)
  (dto : UpdateAlertDto) (table : list NewsAlert)
  : HttpResult NewsAlert * list NewsAlert :=
  let '(result, table') := updateAlert now aid requestUserId dto table in
  match result with
  | None => (HttpException "Alert not found" NOT_FOUND, table')
  | Some row => (Ok row, table')
  end.

(** [DELETE /news/alerts/:id]; [Ok true] is [{ deleted: true }]. *)
Definition controllerDeleteAlert (requestUserId aid : string)
  (table : list NewsAlert) : HttpResult bool * list NewsAlert :=
  let '(deleted, table') := deleteAlert aid requestUserId table in
  if deleted then (Ok true, table')
  else (HttpException "Alert not found" NOT_FOUND, table').

End News.

(** ** Notions for the properties of the news service *)

(** A word without a blank in it. *)
Fixpoint noSpace (w : string) : bool :=
  match w with
  | EmptyString => true
  | String c w' => negb (Ascii.eqb c " ") && noSpace w'
  end.

(** The date of an item, in milliseconds, as [toArticle] computes it. *)
Definition itemMs (item : News.FinnhubItem) : Q :=
  match News.itemDatetime item with
  | Some d => if Qeq_bool d 0 then 0 else d
  | None => 0
  end * 1000.

(** What every article made by [fetchFromFinnhub] satisfies. *)
Definition fetchedArticle (sym : string) (a : News.NewsArticle) : Prop :=
  News.id a = ""
  /\ News.symbol a = sym
  /\ News.summary a <> Some ""
  /\ News.source a <> ""
  /\ News.sentiment a
     = Some (News.classifySentiment (News.headline a) (News.summary a))
  /\ In (News.sentiment a)
       [Some "positive"; Some "negative"; Some "neutral"].

(** The primary key of the alerts table: no two rows share an id. *)
Definition primaryKey (table : list News.NewsAlert) : Prop :=
  NoDup (map News.alertId table).

(** A small alerts table: two alerts of user u1, one of user u2. *)
Definition sampleAlerts : list News.NewsAlert :=
  [News.mkNewsAlert "a1" "u1" "AAPL" None true 10 10;
   News.mkNewsAlert "a2" "u2" "MSFT" (Some "earnings") true 20 20;
   News.mkNewsAlert "a3" "u1" "NVDA" None false 30 35].

(** ** The arithmetic of the two services in binary64

    The same computations over IEEE 754 doubles, the numbers of
    JavaScript: every operation is the processor's, rounded to nearest,
    and a decimal constant of the source or of the input is the double
    nearest to it.  The module carries what the metrics are computed from
    (symbol, asset class and allocation of a holding; the weight column of
    the class map) and is evaluated on concrete holdings. *)

Module Double.
Import PrimFloat FloatOps SpecFloat.
Local Open Scope float_scope.

(** An integer as a double (exact below 2^53). *)
Definition of_Z (n : Z) : float :=
  if (n <? 0)%Z then - of_uint63 (Uint63.of_Z (- n))
  else of_uint63 (Uint63.of_Z n).

Definition of_nat (n : nat) : float := of_Z (Z.of_nat n).

(** The double nearest to the decimal [n / d] (for integers below 2^53). *)
Definition decimal (n d : Z) : float := of_Z n / of_Z d.

(** [Math.round]: a double with a non-negative exponent is an integer
    already; otherwise [m * 2^e + 1/2] is floored exactly. *)
Definition Math_round (x : float) : float :=
  match Prim2SF x with
  | S754_finite s m e =>
      if (0 <=? e)%Z then x
      else
        let sm := if s then Z.neg m else Z.pos m in
        of_Z ((2 * sm + 2 ^ (- e)) / 2 ^ (1 - e))
  | _ => x
  end.

Definition Math_min (a b : float) : float := if a <=? b then a else b.

Definition round4 (x : float) : float := Math_round (x * 10000) / 10000.
Definition round_pct (x : float) : float := Math_round (x * 10000) / 100.

(** [Array.prototype.sort] with the comparator [(a, b) => key b - key a]. *)
Section Sort.
Context {A : Type} (key : A -> float).

Fixpoint insert_desc (x : A) (l : list A) : list A :=
  match l with
  | [] => [x]
  | y :: l' =>
      if 0 <? key y - key x then y :: insert_desc x l' else x :: y :: l'
  end.

Fixpoint sort_desc (l : list A) : list A :=
  match l with
  | [] => []
  | x :: l' => insert_desc x (sort_desc l')
  end.
End Sort.

Record Position : Type := mkPosition {
  symbol : option string;
  assetClass : option string;
  allocationInPercentage : option float
}.

Definition alloc (p : Position) : float := allocationInPercentage p ?? 0.

Definition notLiquidity (p : Position) : bool :=
  match assetClass p with
  | Some c => strneq c "LIQUIDITY"
  | None => true
  end.

Definition hhi (positions : list Position) : float :=
  fold_left (fun sum p => let w := alloc p in sum + w * w) positions 0.

(** The weight column of [classMap]. *)
Definition classMap_step (m : list (string * float)) (p : Position)
  : list (string * float) :=
  let cls := assetClass p ?? "UNKNOWN" in
  let existing := Map_get cls m ?? 0 in
  Map_set cls (existing + alloc p) m.

Definition classMap (positions : list Position) : list (string * float) :=
  fold_left classMap_step positions [].

Record Concentration : Type := mkConcentration {
  topHoldingSymbol : string;
  topHoldingWeight : float;
  herfindahlIndex : float;
  isHighlyConcentrated : bool
}.

Record Entry : Type := mkEntry {
  entryAssetClass : string;
  weight : float
}.

Record Diversification : Type := mkDiversification {
  score : float;
  assetClassCount : nat;
  holdingsCount : nat;
  topAssetClass : string;
  topAssetClassWeight : float
}.

Record Response : Type := mkResponse {
  concentration : Concentration;
  diversification : Diversification;
  assetAllocation : list Entry
}.

Definition counted (a : Entry) : bool := countedClass (entryAssetClass a).

Definition holdingsScore (holdingsCount : nat) : float :=
  Math_min (of_nat holdingsCount / 20) 1 * 40.

Definition classScore (assetClassCount : nat) : float :=
  Math_min (of_nat assetClassCount / 5) 1 * 30.

(** analytics.service.ts *)
Module Analytics.

Definition computeConcentrationRisk (positions : list Position)
  : Concentration :=
  match positions with
  | [] => mkConcentration "" 0 0 false
  | p0 :: _ =>
      let sorted := sort_desc alloc positions in
      let top := hd p0 sorted in
      mkConcentration (symbol top ?? "") (alloc top)
        (round4 (hhi positions)) (0.25 <? hhi positions)
  end.

Definition computeAssetAllocation (positions : list Position)
  : list Entry :=
  sort_desc weight
    (map (fun kv => mkEntry (fst kv) (round4 (snd kv))) (classMap positions)).

Definition classHhi (allocation : list Entry) : float :=
  fold_left (fun sum a => sum + weight a * weight a)
    (filter counted allocation) 0.

Definition computeDiversification (positions : list Position)
  (allocation : list Entry) : Diversification :=
  let holdingsCount := List.length (filter notLiquidity positions) in
  let assetClassCount := List.length (filter counted allocation) in
  let topAssetClass := option_map entryAssetClass (hd_error allocation)
                         ?? "UNKNOWN" in
  let topAssetClassWeight := option_map weight (hd_error allocation) ?? 0 in
  let evennessScore := (1 - classHhi allocation) * 30 in
  let score :=
    Math_round
      (Math_min (holdingsScore holdingsCount + classScore assetClassCount
                 + evennessScore) 100) in
  mkDiversification score assetClassCount holdingsCount topAssetClass
    (round4 topAssetClassWeight).

Definition getAnalytics (positions : list Position) : Response :=
  let concentrationRisk := computeConcentrationRisk positions in
  let assetAllocation := computeAssetAllocation positions in
  let diversification := computeDiversification positions assetAllocation in
  mkResponse concentrationRisk diversification assetAllocation.

End Analytics.

(** ai/ai.service.ts *)
Module Ai.

Definition computeConcentration (positions : list Position)
  : Concentration :=
  match positions with
  | [] => mkConcentration "" 0 0 false
  | p0 :: _ =>
      let sorted := sort_desc alloc positions in
      let top := hd p0 sorted in
      mkConcentration (symbol top ?? "") (round_pct (alloc top))
        (round4 (hhi positions)) (0.25 <? hhi positions)
  end.

Definition computeAssetAllocation (positions : list Position)
  : list Entry :=
  sort_desc weight
    (map (fun kv => mkEntry (fst kv) (round_pct (snd kv)))
       (classMap positions)).

Definition classHhi (allocation : list Entry) : float :=
  fold_left (fun sum w => sum + w * w)
    (map (fun a => weight a / 100) (filter counted allocation)) 0.

Definition computeDiversification (positions : list Position)
  (allocation : list Entry) : Diversification :=
  let holdingsCount := List.length (filter notLiquidity positions) in
  let assetClassCount := List.length (filter counted allocation) in
  let topAssetClass := option_map entryAssetClass (hd_error allocation)
                         ?? "UNKNOWN" in
  let topAssetClassWeight := option_map weight (hd_error allocation) ?? 0 in
  let evennessScore := (1 - classHhi allocation) * 30 in
  let score :=
    Math_round
      (Math_min (holdingsScore holdingsCount + classScore assetClassCount
                 + evennessScore) 100) in
  mkDiversification score assetClassCount holdingsCount topAssetClass
    topAssetClassWeight.

(** [positions.sort] is in place: the helpers receive the sorted array. *)
Definition getSummary (positions0 : list Position) : Response :=
  let positions := sort_desc alloc positions0 in
  let concentration := computeConcentration positions in
  let assetAllocation := computeAssetAllocation positions in
  let diversification := computeDiversification positions assetAllocation in
  mkResponse concentration diversification assetAllocation.

End Ai.

(** A holding with a symbol, an asset class and the allocation [n / d]. *)
Definition holding (sym cls : string) (n d : Z) : Position :=
  mkPosition (Some sym) (Some cls) (Some (decimal n d)).

(** Four equity holdings at 0.04, 0.2, 0.22 and 0.4. *)
Definition four_equities : list Position :=
  [holding "VT" "EQUITY" 4 100; holding "VTI" "EQUITY" 2 10;
   holding "VXUS" "EQUITY" 22 100; holding "VOO" "EQUITY" 4 10].

(** Four bond holdings at 0.3, 0.014, 0.165 and 0.423. *)
Definition four_bonds : list Position :=
  [holding "BND" "FIXED_INCOME" 300 1000;
   holding "TIP" "FIXED_INCOME" 14 1000;
   holding "AGG" "FIXED_INCOME" 165 1000;
   holding "BNDX" "FIXED_INCOME" 423 1000].

(** Four equity holdings at 0.372514, 0.08607, 0.124817 and 0.008249. *)
Definition six_digit_equities : list Position :=
  [holding "VT" "EQUITY" 372514 1000000;
   holding "VTI" "EQUITY" 86070 1000000;
   holding "VXUS" "EQUITY" 124817 1000000;
   holding "VOO" "EQUITY" 8249 1000000].

(** Two, and three, equity holdings at allocation 1 each. *)
Definition two_full : list Position :=
  [holding "AAPL" "EQUITY" 1 1; holding "MSFT" "EQUITY" 1 1].

Definition three_full : list Position :=
  [holding "AAPL" "EQUITY" 1 1; holding "MSFT" "EQUITY" 1 1;
   holding "NVDA" "EQUITY" 1 1].

End Double.

(** ** The two services over JavaScript values

    The services once more, this time with the values a JavaScript
    expression can have when a field is missing: a field of a holding may
    be absent ([undefined]), a numeric field may also hold [NaN];
    arithmetic on anything but two numbers gives [NaN]; a comparison with
    [NaN] is false; reading a property of [undefined], or calling
    [toFixed] on it, throws a [TypeError].  Every [??] of the source is
    written out, so that a missing default would show as an [Undefined],
    a [NaN] or a [Throw] in the result. *)

Module Js.

(** The value of a numeric expression. *)
Inductive value : Type :=
| Num (q : Q)
| NaN
| Undefined.

(** How a call ends: with a result, or with an exception. *)
Inductive Outcome (A : Type) : Type :=
| Return (a : A)
| Throw (e : string).

Arguments Return {A} a.
Arguments Throw {A} e.

Definition bind {A B : Type} (m : Outcome A) (f : A -> Outcome B)
  : Outcome B :=
  match m with
  | Return a => f a
  | Throw e => Throw e
  end.

Notation "x <- m ;; k" := (bind m (fun x => k))
  (at level 61, m at next level, right associativity).

Definition TypeError : string := "TypeError".

(** [x ?? d] on a numeric expression. *)
Definition nullish (x d : value) : value :=
  match x with
  | Undefined => d
  | _ => x
  end.

Definition lift2 (f : Q -> Q -> Q) (a b : value) : value :=
  match a, b with
  | Num x, Num y => Num (f x y)
  | _, _ => NaN
  end.

Definition add : value -> value -> value := lift2 Qplus.
Definition sub : value -> value -> value := lift2 Qminus.
Definition mul : value -> value -> value := lift2 Qmult.
Definition div : value -> value -> value := lift2 Qdiv.

Definition Math_round (a : value) : value :=
  match a with
  | Num x => Num (inject_Z (Math_round x))
  | _ => NaN
  end.

Definition Math_min : value -> value -> value := lift2 Math_min.

Definition gt (a b : value) : bool :=
  match a, b with
  | Num x, Num y => gtb x y
  | _, _ => false
  end.

Definition lt (a b : value) : bool :=
  match a, b with
  | Num x, Num y => ltb x y
  | _, _ => false
  end.

Definition ge (a b : value) : bool :=
  match a, b with
  | Num x, Num y => Qle_bool y x
  | _, _ => false
  end.

(** [x.toFixed(f)] *)
Definition toFixed (f : nat) (a : value) : Outcome string :=
  match a with
  | Num x => Return (toFixed f x)
  | NaN => Return "NaN"
  | Undefined => Throw TypeError
  end.

(** A value inside a template literal; the numbers that the source puts
    there are integers. *)
Definition render (a : value) : string :=
  match a with
  | Num x => string_of_Z (Qfloor x)
  | NaN => "NaN"
  | Undefined => "undefined"
  end.

Definition renderString (s : option string) : string := s ?? "undefined".

(** A number of elements as a value. *)
Definition of_nat (n : nat) : value := Num (inject_Z (Z.of_nat n)).

(** [Array.prototype.sort] with a comparator: [y] stays in front of [x]
    when [cmp x y > 0]; a comparator result of [NaN] counts as 0. *)
Section Sort.
Context {A : Type} (cmp : A -> A -> value).

Fixpoint insert (x : A) (l : list A) : list A :=
  match l with
  | [] => [x]
  | y :: l' => if gt (cmp x y) (Num 0) then y :: insert x l' else x :: y :: l'
  end.

Fixpoint sort (l : list A) : list A :=
  match l with
  | [] => []
  | x :: l' => insert x (sort l')
  end.
End Sort.

Record PortfolioPosition : Type := mkPosition {
  symbol : option string;
  name : option string;
  assetClass : option string;
  assetSubClass : option string;
  currency : option string;
  allocationInPercentage : value;
  valueInBaseCurrency : value;
  marketPrice : value
}.

(** [(a, b) => (b.allocationInPercentage ?? 0) -
    (a.allocationInPercentage ?? 0)] *)
Definition byAllocation (a b : PortfolioPosition) : value :=
  sub (nullish (allocationInPercentage b) (Num 0))
      (nullish (allocationInPercentage a) (Num 0)).

Definition notLiquidity (p : PortfolioPosition) : bool :=
  match assetClass p with
  | Some c => strneq c "LIQUIDITY"
  | None => true
  end.

Definition hhi (positions : list PortfolioPosition) : value :=
  fold_left
    (fun sum p =>
       let w := nullish (allocationInPercentage p) (Num 0) in
       add sum (mul w w))
    positions (Num 0).

Definition classMap_step (m : list (string * (value * value)))
  (p : PortfolioPosition) : list (string * (value * value)) :=
  let cls := assetClass p ?? "UNKNOWN" in
  let existing := Map_get cls m ?? (Num 0, Num 0) in
  let existing' :=
    (add (fst existing) (nullish (allocationInPercentage p) (Num 0)),
     add (snd existing) (nullish (valueInBaseCurrency p) (Num 0))) in
  Map_set cls existing' m.

Definition classMap (positions : list PortfolioPosition)
  : list (string * (value * value)) :=
  fold_left classMap_step positions [].

Definition round4 (x : value) : value :=
  div (Math_round (mul x (Num 10000))) (Num 10000).
Definition round2 (x : value) : value :=
  div (Math_round (mul x (Num 100))) (Num 100).
Definition round_pct (x : value) : value :=
  div (Math_round (mul x (Num 10000))) (Num 100).

Definition holdingsScore (holdingsCount : nat) : value :=
  mul (Math_min (div (of_nat holdingsCount) (Num 20)) (Num 1)) (Num 40).

Definition classScore (assetClassCount : nat) : value :=
  mul (Math_min (div (of_nat assetClassCount) (Num 5)) (Num 1)) (Num 30).

(** analytics.service.ts *)
Module Analytics.

Record ConcentrationRisk : Type := mkConcentrationRisk {
  topHoldingSymbol : option string;
  topHoldingName : option string;
  topHoldingWeight : value;
  herfindahlIndex : value;
  isHighlyConcentrated : bool
}.

Record DiversificationScore : Type := mkDiversificationScore {
  score : value;
  assetClassCount : nat;
  holdingsCount : nat;
  topAssetClass : option string;
  topAssetClassWeight : value
}.

Record AssetAllocationEntry : Type := mkAssetAllocationEntry {
  entryAssetClass : string;
  weight : value;
  entryValueInBaseCurrency : value
}.

Record PortfolioAnalyticsResponse : Type := mkPortfolioAnalyticsResponse {
  assetAllocation : list AssetAllocationEntry;
  concentrationRisk : ConcentrationRisk;
  diversification : DiversificationScore;
  insights : list string;
  computedAt : string
}.

(** [top.symbol] on [sorted[0]] throws when the array is empty. *)
Definition computeConcentrationRisk (positions : list PortfolioPosition)
  : Outcome ConcentrationRisk :=
  match positions with
  | [] =>
      Return (mkConcentrationRisk (Some "") (Some "") (Num 0) (Num 0) false)
  | _ :: _ =>
      let sorted := sort byAllocation positions in
      match hd_error sorted with
      | None => Throw TypeError
      | Some top =>
          Return
            (mkConcentrationRisk
               (Some (symbol top ?? ""))
               (Some (or_else (name top) (symbol top) ?? ""))
               (nullish (allocationInPercentage top) (Num 0))
               (round4 (hhi positions))
               (gt (hhi positions) (Num (25 # 100))))
      end
  end.

Definition toEntry (kv : string * (value * value)) : AssetAllocationEntry :=
  let '(cls, (w, v)) := kv in
  mkAssetAllocationEntry cls (round4 w) (round2 v).

Definition computeAssetAllocation (positions : list PortfolioPosition)
  : list AssetAllocationEntry :=
  sort (fun a b => sub (weight b) (weight a))
    (map toEntry (classMap positions)).

Definition counted (a : AssetAllocationEntry) : bool :=
  countedClass (entryAssetClass a).

Definition classHhi (allocation : list AssetAllocationEntry) : value :=
  fold_left (fun sum a => add sum (mul (weight a) (weight a)))
    (filter counted allocation) (Num 0).

(** [allocation[0]?.weight] *)
Definition firstWeight (allocation : list AssetAllocationEntry) : value :=
  match hd_error allocation with
  | Some a => weight a
  | None => Undefined
  end.

Definition computeDiversification (positions : list PortfolioPosition)
  (allocation : list AssetAllocationEntry) : DiversificationScore :=
  let holdingsCount := List.length (filter notLiquidity positions) in
  let assetClassCount := List.length (filter counted allocation) in
  let topAssetClass := option_map entryAssetClass (hd_error allocation)
                         ?? "UNKNOWN" in
  let topAssetClassWeight := nullish (firstWeight allocation) (Num 0) in
  let evennessScore := mul (sub (Num 1) (classHhi allocation)) (Num 30) in
  let score :=
    Math_round
      (Math_min (add (add (holdingsScore holdingsCount)
                          (classScore assetClassCount)) evennessScore)
         (Num 100)) in
  mkDiversificationScore score assetClassCount holdingsCount
    (Some topAssetClass) (round4 topAssetClassWeight).

Definition pct1 (x : value) : Outcome string := toFixed 1 (mul x (Num 100)).

Definition concentrationInsight (c : ConcentrationRisk)
  : Outcome (list string) :=
  if isHighlyConcentrated c then
    w <- pct1 (topHoldingWeight c) ;;
    h <- toFixed 4 (herfindahlIndex c) ;;
    Return
      ["High concentration risk: " ++ renderString (topHoldingName c) ++ " "
       ++ "(" ++ renderString (topHoldingSymbol c) ++ ") represents "
       ++ w ++ "% of the portfolio. "
       ++ "HHI is " ++ h ++ ", which exceeds 0.25 threshold."]
  else if gt (topHoldingWeight c) (Num (15 # 100)) then
    w <- pct1 (topHoldingWeight c) ;;
    Return
      ["Moderate concentration: " ++ renderString (topHoldingName c) ++ " "
       ++ "is the largest position at " ++ w ++ "%."]
  else Return [].

Definition diversificationInsight (d : DiversificationScore)
  : Outcome (list string) :=
  if ge (score d) (Num 70) then
    Return
      ["Good diversification (score: " ++ render (score d)
       ++ "/100) across " ++ string_of_nat (holdingsCount d)
       ++ " holdings and " ++ string_of_nat (assetClassCount d)
       ++ " asset classes."]
  else if ge (score d) (Num 40) then
    Return
      ["Moderate diversification (score: " ++ render (score d)
       ++ "/100). " ++ "Consider adding more asset classes or holdings."]
  else
    w <- pct1 (topAssetClassWeight d) ;;
    Return
      ["Low diversification (score: " ++ render (score d) ++ "/100). "
       ++ "Portfolio is heavily weighted in "
       ++ renderString (topAssetClass d) ++ " "
       ++ "(" ++ w ++ "%)."].

Definition equityInsight (allocation : list AssetAllocationEntry)
  : Outcome (list string) :=
  match Array_find (fun a => String.eqb (entryAssetClass a) "EQUITY")
          allocation with
  | Some equityAlloc =>
      if gt (weight equityAlloc) (Num (8 # 10)) then
        w <- pct1 (weight equityAlloc) ;;
        Return
          ["Portfolio is " ++ w ++ "% equities — "
           ++ "consider adding bonds or fixed income for stability."]
      else Return []
  | None => Return []
  end.

Definition fixedIncomeInsight (allocation : list AssetAllocationEntry)
  : Outcome (list string) :=
  match Array_find (fun a => String.eqb (entryAssetClass a) "FIXED_INCOME")
          allocation with
  | Some fixedIncomeAlloc =>
      if lt (weight fixedIncomeAlloc) (Num (5 # 100)) then
        Return ["No significant fixed income allocation detected."]
      else Return []
  | None => Return ["No significant fixed income allocation detected."]
  end.

Definition generateInsights (concentration : ConcentrationRisk)
  (diversification : DiversificationScore)
  (allocation : list AssetAllocationEntry) : Outcome (list string) :=
  i1 <- concentrationInsight concentration ;;
  i2 <- diversificationInsight diversification ;;
  i3 <- equityInsight allocation ;;
  i4 <- fixedIncomeInsight allocation ;;
  Return (i1 ++ i2 ++ i3 ++ i4)%list.

Definition getAnalytics (now : string) (positions : list PortfolioPosition)
  : Outcome PortfolioAnalyticsResponse :=
  concentrationRisk <- computeConcentrationRisk positions ;;
  let assetAllocation := computeAssetAllocation positions in
  let diversification := computeDiversification positions assetAllocation in
  insights <-
    generateInsights concentrationRisk diversification assetAllocation ;;
  Return
    (mkPortfolioAnalyticsResponse assetAllocation concentrationRisk
       diversification insights now).

End Analytics.

(** ai/ai.service.ts *)
Module Ai.

Record AiSummaryHolding : Type := mkAiSummaryHolding {
  holdingSymbol : option string;
  holdingName : option string;
  holdingAssetClass : option string;
  holdingAssetSubClass : option string;
  holdingCurrency : option string;
  allocationPercentage : value;
  holdingValueInBaseCurrency : value;
  holdingMarketPrice : value
}.

Record AiSummaryConcentration : Type := mkAiSummaryConcentration {
  topHoldingSymbol : option string;
  topHoldingName : option string;
  topHoldingWeight : value;
  herfindahlIndex : value;
  isHighlyConcentrated : bool
}.

Record AiSummaryDiversification : Type := mkAiSummaryDiversification {
  score : value;
  assetClassCount : nat;
  holdingsCount : nat;
  topAssetClass : option string;
  topAssetClassWeight : value
}.

Record AiSummaryAssetAllocation : Type := mkAiSummaryAssetAllocation {
  entryAssetClass : string;
  weight : value;
  entryValueInBaseCurrency : value
}.

Record AiSummaryResponse : Type := mkAiSummaryResponse {
  baseCurrency : string;
  holdings : list AiSummaryHolding;
  concentration : AiSummaryConcentration;
  diversification : AiSummaryDiversification;
  assetAllocation : list AiSummaryAssetAllocation;
  insights : list string;
  computedAt : string
}.

Definition toHolding (userCurrency : string) (p : PortfolioPosition)
  : AiSummaryHolding :=
  mkAiSummaryHolding
    (Some (symbol p ?? ""))
    (Some (or_else (name p) (symbol p) ?? ""))
    (Some (assetClass p ?? "UNKNOWN"))
    (Some (assetSubClass p ?? "UNKNOWN"))
    (Some (currency p ?? userCurrency))
    (round_pct (nullish (allocationInPercentage p) (Num 0)))
    (round2 (nullish (valueInBaseCurrency p) (Num 0)))
    (nullish (marketPrice p) (Num 0)).

Definition computeConcentration (positions : list PortfolioPosition)
  : Outcome AiSummaryConcentration :=
  match positions with
  | [] =>
      Return
        (mkAiSummaryConcentration (Some "") (Some "") (Num 0) (Num 0) false)
  | _ :: _ =>
      let sorted := sort byAllocation positions in
      match hd_error sorted with
      | None => Throw TypeError
      | Some top =>
          Return
            (mkAiSummaryConcentration
               (Some (symbol top ?? ""))
               (Some (or_else (name top) (symbol top) ?? ""))
               (round_pct (nullish (allocationInPercentage top) (Num 0)))
               (round4 (hhi positions))
               (gt (hhi positions) (Num (25 # 100))))
      end
  end.

Definition toEntry (kv : string * (value * value))
  : AiSummaryAssetAllocation :=
  let '(cls, (w, v)) := kv in
  mkAiSummaryAssetAllocation cls (round_pct w) (round2 v).

Definition computeAssetAllocation (positions : list PortfolioPosition)
  : list AiSummaryAssetAllocation :=
  sort (fun a b => sub (weight b) (weight a))
    (map toEntry (classMap positions)).

Definition counted (a : AiSummaryAssetAllocation) : bool :=
  countedClass (entryAssetClass a).

Definition classWeightsAsFraction
  (allocation : list AiSummaryAssetAllocation) : list value :=
  map (fun a => div (weight a) (Num 100)) (filter counted allocation).

Definition classHhi (allocation : list AiSummaryAssetAllocation) : value :=
  fold_left (fun sum w => add sum (mul w w))
    (classWeightsAsFraction allocation) (Num 0).

Definition firstWeight (allocation : list AiSummaryAssetAllocation)
  : value :=
  match hd_error allocation with
  | Some a => weight a
  | None => Undefined
  end.

Definition computeDiversification (positions : list PortfolioPosition)
  (allocation : list AiSummaryAssetAllocation) : AiSummaryDiversification :=
  let holdingsCount := List.length (filter notLiquidity positions) in
  let assetClassCount := List.length (filter counted allocation) in
  let topAssetClass := option_map entryAssetClass (hd_error allocation)
                         ?? "UNKNOWN" in
  let topAssetClassWeight := nullish (firstWeight allocation) (Num 0) in
  let evennessScore := mul (sub (Num 1) (classHhi allocation)) (Num 30) in
  let score :=
    Math_round
      (Math_min (add (add (holdingsScore holdingsCount)
                          (classScore assetClassCount)) evennessScore)
         (Num 100)) in
  mkAiSummaryDiversification score assetClassCount holdingsCount
    (Some topAssetClass) topAssetClassWeight.

Definition concentrationInsight (c : AiSummaryConcentration)
  : Outcome (list string) :=
  if isHighlyConcentrated c then
    w <- toFixed 1 (topHoldingWeight c) ;;
    h <- toFixed 4 (herfindahlIndex c) ;;
    Return
      ["High concentration risk: " ++ renderString (topHoldingName c) ++ " "
       ++ "represents " ++ w ++ "% of the portfolio. "
       ++ "HHI of " ++ h ++ " exceeds the 0.25 threshold."]
  else if gt (topHoldingWeight c) (Num 15) then
    w <- toFixed 1 (topHoldingWeight c) ;;
    Return
      ["Moderate concentration: " ++ renderString (topHoldingName c) ++ " "
       ++ "is the largest position at " ++ w ++ "%."]
  else Return [].

Definition diversificationInsight (d : AiSummaryDiversification)
  : Outcome (list string) :=
  if ge (score d) (Num 70) then
    Return
      ["Good diversification (score: " ++ render (score d)
       ++ "/100) across " ++ string_of_nat (holdingsCount d)
       ++ " holdings and " ++ string_of_nat (assetClassCount d)
       ++ " asset classes."]
  else if ge (score d) (Num 40) then
    Return
      ["Moderate diversification (score: " ++ render (score d)
       ++ "/100). " ++ "Consider adding more asset classes or holdings."]
  else
    w <- toFixed 1 (topAssetClassWeight d) ;;
    Return
      ["Low diversification (score: " ++ render (score d) ++ "/100). "
       ++ "Portfolio is heavily weighted in "
       ++ renderString (topAssetClass d) ++ " "
       ++ "(" ++ w ++ "%)."].

Definition equityInsight (allocation : list AiSummaryAssetAllocation)
  : Outcome (list string) :=
  match Array_find (fun a => String.eqb (entryAssetClass a) "EQUITY")
          allocation with
  | Some equityAlloc =>
      if gt (weight equityAlloc) (Num 80) then
        w <- toFixed 1 (weight equityAlloc) ;;
        Return
          ["Portfolio is " ++ w ++ "% equities — "
           ++ "consider adding bonds or fixed income for stability."]
      else Return []
  | None => Return []
  end.

Definition fixedIncomeInsight (allocation : list AiSummaryAssetAllocation)
  : Outcome (list string) :=
  match Array_find (fun a => String.eqb (entryAssetClass a) "FIXED_INCOME")
          allocation with
  | Some fixedIncome =>
      if lt (weight fixedIncome) (Num 5) then
        Return ["No significant fixed income allocation detected."]
      else Return []
  | None => Return ["No significant fixed income allocation detected."]
  end.

Definition generateInsights (concentration : AiSummaryConcentration)
  (diversification : AiSummaryDiversification)
  (allocation : list AiSummaryAssetAllocation) : Outcome (list string) :=
  i1 <- concentrationInsight concentration ;;
  i2 <- diversificationInsight diversification ;;
  i3 <- equityInsight allocation ;;
  i4 <- fixedIncomeInsight allocation ;;
  Return (i1 ++ i2 ++ i3 ++ i4)%list.

(** [positions.sort] sorts in place; the later helpers see the sorted
    array. *)
Definition getSummary (now : string) (userCurrency : string)
  (positions0 : list PortfolioPosition) : Outcome AiSummaryResponse :=
  let positions := sort byAllocation positions0 in
  let holdingsList := map (toHolding userCurrency) positions in
  concentration <- computeConcentration positions ;;
  let assetAllocation := computeAssetAllocation positions in
  let diversification := computeDiversification positions assetAllocation in
  insights <- generateInsights concentration diversification assetAllocation ;;
  Return
    (mkAiSummaryResponse userCurrency holdingsList concentration
       diversification assetAllocation insights now).

End Ai.

End Js.

(** A holding as the services receive it: an absent field is
    [undefined]. *)
Definition field (x : option Q) : Js.value :=
  match x with
  | Some q => Js.Num q
  | None => Js.Undefined
  end.

Definition received (p : PortfolioPosition) : Js.PortfolioPosition :=
  Js.mkPosition (symbol p) (name p) (assetClass p) (assetSubClass p)
    (currency p) (field (allocationInPercentage p))
    (field (valueInBaseCurrency p)) (field (marketPrice p)).

(** A response in which every field is present: every string is there and
    every number is a number. *)
Definition presentConcentration (c : Analytics.ConcentrationRisk)
  : Js.Analytics.ConcentrationRisk :=
  Js.Analytics.mkConcentrationRisk
    (Some (Analytics.topHoldingSymbol c)) (Some (Analytics.topHoldingName c))
    (Js.Num (Analytics.topHoldingWeight c))
    (Js.Num (Analytics.herfindahlIndex c))
    (Analytics.isHighlyConcentrated c).

Definition presentDiversification (d : Analytics.DiversificationScore)
  : Js.Analytics.DiversificationScore :=
  Js.Analytics.mkDiversificationScore
    (Js.Num (inject_Z (Analytics.score d)))
    (Analytics.assetClassCount d) (Analytics.holdingsCount d)
    (Some (Analytics.topAssetClass d))
    (Js.Num (Analytics.topAssetClassWeight d)).

Definition presentEntry (a : Analytics.AssetAllocationEntry)
  : Js.Analytics.AssetAllocationEntry :=
  Js.Analytics.mkAssetAllocationEntry (Analytics.entryAssetClass a)
    (Js.Num (Analytics.weight a))
    (Js.Num (Analytics.entryValueInBaseCurrency a)).

Definition presentAnalytics (r : Analytics.PortfolioAnalyticsResponse)
  : Js.Analytics.PortfolioAnalyticsResponse :=
  Js.Analytics.mkPortfolioAnalyticsResponse
    (map presentEntry (Analytics.assetAllocation r))
    (presentConcentration (Analytics.concentrationRisk r))
    (presentDiversification (Analytics.diversification r))
    (Analytics.insights r) (Analytics.computedAt r).

Definition presentHolding (h : Ai.AiSummaryHolding)
  : Js.Ai.AiSummaryHolding :=
  Js.Ai.mkAiSummaryHolding
    (Some (Ai.holdingSymbol h)) (Some (Ai.holdingName h))
    (Some (Ai.holdingAssetClass h)) (Some (Ai.holdingAssetSubClass h))
    (Some (Ai.holdingCurrency h))
    (Js.Num (Ai.allocationPercentage h))
    (Js.Num (Ai.holdingValueInBaseCurrency h))
    (Js.Num (Ai.holdingMarketPrice h)).

Definition presentAiConcentration (c : Ai.AiSummaryConcentration)
  : Js.Ai.AiSummaryConcentration :=
  Js.Ai.mkAiSummaryConcentration
    (Some (Ai.topHoldingSymbol c)) (Some (Ai.topHoldingName c))
    (Js.Num (Ai.topHoldingWeight c)) (Js.Num (Ai.herfindahlIndex c))
    (Ai.isHighlyConcentrated c).

Definition presentAiDiversification (d : Ai.AiSummaryDiversification)
  : Js.Ai.AiSummaryDiversification :=
  Js.Ai.mkAiSummaryDiversification
    (Js.Num (inject_Z (Ai.score d)))
    (Ai.assetClassCount d) (Ai.holdingsCount d)
    (Some (Ai.topAssetClass d)) (Js.Num (Ai.topAssetClassWeight d)).

Definition presentAiEntry (a : Ai.AiSummaryAssetAllocation)
  : Js.Ai.AiSummaryAssetAllocation :=
  Js.Ai.mkAiSummaryAssetAllocation (Ai.entryAssetClass a)
    (Js.Num (Ai.weight a)) (Js.Num (Ai.entryValueInBaseCurrency a)).

Definition presentSummary (s : Ai.AiSummaryResponse)
  : Js.Ai.AiSummaryResponse :=
  Js.Ai.mkAiSummaryResponse (Ai.baseCurrency s)
    (map presentHolding (Ai.holdings s))
    (presentAiConcentration (Ai.concentration s))
    (presentAiDiversification (Ai.diversification s))
    (map presentAiEntry (Ai.assetAllocation s))
    (Ai.insights s) (Ai.computedAt s).

(** A holding whose allocation is [NaN]. *)
Definition nan_holding : Js.PortfolioPosition :=
  Js.mkPosition (Some "AAPL") None (Some "EQUITY") None None
    Js.NaN Js.Undefined Js.Undefined.

(** A class map whose sums are numbers. *)
Definition presentSums (kv : string * (Q * Q))
  : string * (Js.value * Js.value) :=
  (fst kv, (Js.Num (fst (snd kv)), Js.Num (snd (snd kv)))).

(** ** The arrays of a call

    Arrays are objects: [positions.sort] in [getSummary] sorts the array
    it is called on, and the helpers that receive [positions] afterwards
    receive that same array; [[...positions].sort] in the helpers sorts a
    copy.  Here the arrays of holdings live in a store and are passed by
    reference, and a call is a function of the store that returns the
    store it leaves behind.  [holdings], the object that
    [portfolioService.getDetails] delivers, is the array of its values. *)

Module Store.

Definition ref : Type := nat.
Definition store : Type := list (list PortfolioPosition).
Definition M (A : Type) : Type := store -> A * store.

Definition ret {A : Type} (a : A) : M A := fun s => (a, s).

Definition bind {A B : Type} (m : M A) (f : A -> M B) : M B :=
  fun s => let (a, s') := m s in f a s'.

Notation "x <- m ;; k" := (bind m (fun x => k))
  (at level 61, m at next level, right associativity).

(** The elements of the array at [a], as an iteration over it reads
    them. *)
Definition elements (a : ref) : M (list PortfolioPosition) :=
  fun s => (nth a s [], s).

(** A new array. *)
Definition newArray (v : list PortfolioPosition) : M ref :=
  fun s => (List.length s, (s ++ [v])%list).

Fixpoint assign (a : ref) (v : list PortfolioPosition) (s : store) : store :=
  match s, a with
  | [], _ => []
  | _ :: s', O => v :: s'
  | x :: s', S a' => x :: assign a' v s'
  end.

(** [a.sort((x, y) => (y.allocationInPercentage ?? 0) -
    (x.allocationInPercentage ?? 0))]: sorts [a] in place and returns
    it. *)
Definition sort (a : ref) : M ref :=
  fun s => (a, assign a (sort_desc alloc (nth a s [])) s).

(** [[...a]] *)
Definition spread (a : ref) : M ref := v <- elements a ;; newArray v.

(** [Object.values(holdings)] *)
Definition Object_values (holdings : ref) : M ref :=
  v <- elements holdings ;; newArray v.

(** analytics.service.ts *)
Module AnalyticsService.

Definition computeConcentrationRisk (positions : ref)
  : M Analytics.ConcentrationRisk :=
  ps <- elements positions ;;
  match ps with
  | [] => ret (Analytics.mkConcentrationRisk "" "" 0 0 false)
  | p0 :: _ =>
      copy <- spread positions ;;
      sorted <- sort copy ;;
      first <- elements sorted ;;
      let top := hd p0 first in
      reduced <- elements positions ;;
      ret (Analytics.mkConcentrationRisk
             (symbol top ?? "")
             (or_else (name top) (symbol top) ?? "")
             (alloc top)
             (round4 (hhi reduced))
             (gtb (hhi reduced) (25 # 100)))
  end.

Definition computeAssetAllocation (positions : ref)
  : M (list Analytics.AssetAllocationEntry) :=
  ps <- elements positions ;;
  ret (sort_desc Analytics.weight (map Analytics.toEntry (classMap ps))).

Definition computeDiversification (positions : ref)
  (allocation : list Analytics.AssetAllocationEntry)
  : M Analytics.DiversificationScore :=
  ps <- elements positions ;;
  ret (Analytics.computeDiversification ps allocation).

Definition getAnalytics (now : string) (holdings : ref)
  : M Analytics.PortfolioAnalyticsResponse :=
  positions <- Object_values holdings ;;
  concentrationRisk <- computeConcentrationRisk positions ;;
  assetAllocation <- computeAssetAllocation positions ;;
  diversification <- computeDiversification positions assetAllocation ;;
  let insights :=
    Analytics.generateInsights concentrationRisk diversification
      assetAllocation in
  ret (Analytics.mkPortfolioAnalyticsResponse assetAllocation
         concentrationRisk diversification insights now).

End AnalyticsService.

(** ai/ai.service.ts *)
Module AiService.

Definition computeConcentration (positions : ref)
  : M Ai.AiSummaryConcentration :=
  ps <- elements positions ;;
  match ps with
  | [] => ret (Ai.mkAiSummaryConcentration "" "" 0 0 false)
  | p0 :: _ =>
      copy <- spread positions ;;
      sorted <- sort copy ;;
      first <- elements sorted ;;
      let top := hd p0 first in
      reduced <- elements positions ;;
      ret (Ai.mkAiSummaryConcentration
             (symbol top ?? "")
             (or_else (name top) (symbol top) ?? "")
             (round_pct (alloc top))
             (round4 (hhi reduced))
             (gtb (hhi reduced) (25 # 100)))
  end.

Definition computeAssetAllocation (positions : ref)
  : M (list Ai.AiSummaryAssetAllocation) :=
  ps <- elements positions ;;
  ret (sort_desc Ai.weight (map Ai.toEntry (classMap ps))).

Definition computeDiversification (positions : ref)
  (allocation : list Ai.AiSummaryAssetAllocation)
  : M Ai.AiSummaryDiversification :=
  ps <- elements positions ;;
  ret (Ai.computeDiversification ps allocation).

Definition getSummary (now : string) (userCurrency : string)
  (holdings : ref) : M Ai.AiSummaryResponse :=
  positions <- Object_values holdings ;;
  sorted <- sort positions ;;
  rows <- elements sorted ;;
  let holdingsList := map (Ai.toHolding userCurrency) rows in
  concentration <- computeConcentration positions ;;
  assetAllocation <- computeAssetAllocation positions ;;
  diversification <- computeDiversification positions assetAllocation ;;
  let insights :=
    Ai.generateInsights concentration diversification assetAllocation in
  ret (Ai.mkAiSummaryResponse userCurrency holdingsList concentration
         diversification assetAllocation insights now).

End AiService.

End Store.

(** What a call leaves behind: the store it found, followed by the arrays
    it made. *)
Definition grows (s s' : Store.store) : Prop :=
  exists made, s' = (s ++ made)%list.

(** A store with one array, the holdings at 60% and 40%. *)
Definition sixty_forty_store : Store.store := [sixty_forty].

(** * Properties *)

(** ** Numbers and rounding *)



Lemma Math_round_comp (x y : Q) : x == y -> Math_round x = Math_round y.
Proof. intros E. unfold Math_round. now rewrite E. Qed.

Lemma Math_round_mono (x y : Q) : x <= y -> (Math_round x <= Math_round y)%Z.
Proof. intros H. unfold Math_round. apply Qfloor_resp_le. lra. Qed.

Lemma Math_round_inject (z : Z) : Math_round (inject_Z z) = z.
Proof.
  unfold Math_round.
  assert (Hl : (z <= Qfloor (inject_Z z + (1 # 2)))%Z).
  { rewrite <- (Qfloor_Z z) at 1. apply Qfloor_resp_le. lra. }
  assert (Hu : (Qfloor (inject_Z z + (1 # 2)) < z + 1)%Z).
  { rewrite Zlt_Qlt. rewrite inject_Z_plus. change (inject_Z 1) with 1.
    pose proof (Qfloor_le (inject_Z z + (1 # 2))). lra. }
  lia.
Qed.

Lemma gtb_true (a b : Q) : gtb a b = true <-> b < a.
Proof.
  unfold gtb. rewrite negb_true_iff. split; intros H.
  - apply Qnot_le_lt. intros L. apply Qle_bool_iff in L. congruence.
  - destruct (Qle_bool a b) eqn:E; [|reflexivity].
    apply Qle_bool_iff in E. lra.
Qed.

Lemma gtb_false (a b : Q) : gtb a b = false <-> a <= b.
Proof.
  unfold gtb. rewrite negb_false_iff. apply Qle_bool_iff.
Qed.

Lemma Math_min_comp (a a' b b' : Q) :
  a == a' -> b == b' -> Math_min a b == Math_min a' b'.
Proof.
  intros Ea Eb. unfold Math_min.
  destruct (Qle_bool a b) eqn:E, (Qle_bool a' b') eqn:E'; try lra.
  - apply Qle_bool_iff in E.
    assert (H : gtb a' b' = true) by (unfold gtb; now rewrite E').
    apply gtb_true in H. lra.
  - apply Qle_bool_iff in E'.
    assert (H : gtb a b = true) by (unfold gtb; now rewrite E).
    apply gtb_true in H. lra.
Qed.

(** ** The stable descending sort *)

Section SortFacts.
Context {A : Type} (key : A -> Q).

Lemma insert_desc_perm (x : A) (l : list A) :
  Permutation (insert_desc key x l) (x :: l).
Proof.
  induction l as [|y l IH]; simpl; [reflexivity|].
  destruct (gtb (key y) (key x)); [|reflexivity].
  rewrite IH. apply perm_swap.
Qed.

Lemma sort_desc_perm (l : list A) : Permutation (sort_desc key l) l.
Proof.
  induction l as [|x l IH]; simpl; [reflexivity|].
  rewrite insert_desc_perm. now constructor.
Qed.

Lemma insert_desc_sorted (x : A) (l : list A) :
  sorted_desc key l -> sorted_desc key (insert_desc key x l).
Proof.
  induction 1 as [|y l Hall Hs IH]; simpl.
  - repeat constructor.
  - destruct (gtb (key y) (key x)) eqn:E.
    + constructor; [|exact IH].
      apply gtb_true in E.
      eapply Permutation_Forall; [symmetry; apply insert_desc_perm|].
      constructor; [lra|exact Hall].
    + apply gtb_false in E. constructor.
      * constructor; [exact E|].
        eapply Forall_impl; [|exact Hall]. simpl. intros z Hz. lra.
      * now constructor.
Qed.

Lemma sort_desc_sorted (l : list A) : sorted_desc key (sort_desc key l).
Proof.
  induction l as [|x l IH]; simpl; [constructor|].
  now apply insert_desc_sorted.
Qed.

(** Sorting a sorted array leaves it as it is (the sort is stable). *)
Lemma sort_desc_id (l : list A) : sorted_desc key l -> sort_desc key l = l.
Proof.
  induction 1 as [|x l Hall Hs IH]; simpl; [reflexivity|].
  rewrite IH. destruct l as [|y l']; simpl; [reflexivity|].
  inversion Hall as [|? ? Hy _]; subst.
  apply gtb_false in Hy. now rewrite Hy.
Qed.

Lemma sort_desc_idem (l : list A) :
  sort_desc key (sort_desc key l) = sort_desc key l.
Proof. apply sort_desc_id, sort_desc_sorted. Qed.

Lemma sort_desc_length (l : list A) :
  List.length (sort_desc key l) = List.length l.
Proof. apply Permutation_length, sort_desc_perm. Qed.

Lemma sort_desc_nil_inv (l : list A) : sort_desc key l = [] -> l = [].
Proof.
  intros E. apply length_zero_iff_nil.
  rewrite <- sort_desc_length, E. reflexivity.
Qed.
End SortFacts.

(** ** Sums *)

Lemma fold_left_sumQ {A : Type} (f : A -> Q) (l : list A) (a : Q) :
  fold_left (fun s x => s + f x) l a == a + sumQ (map f l).
Proof.
  revert a. induction l as [|x l IH]; intros a; simpl.
  - lra.
  - rewrite IH. lra.
Qed.

Lemma sumQ_perm (l l' : list Q) : Permutation l l' -> sumQ l == sumQ l'.
Proof.
  induction 1; simpl; lra.
Qed.

Lemma sumQ_nonneg (l : list Q) : Forall (fun x => 0 <= x) l -> 0 <= sumQ l.
Proof. induction 1; simpl; lra. Qed.

Lemma sumQ_map_ext {A : Type} (f g : A -> Q) (l : list A) :
  Forall (fun x => f x == g x) l -> sumQ (map f l) == sumQ (map g l).
Proof. induction 1; simpl; lra. Qed.

Lemma sumQ_squares_nonneg {A : Type} (f : A -> Q) (l : list A) :
  0 <= sumQ (map (fun x => f x * f x) l).
Proof.
  induction l as [|x l IH]; simpl; [lra|]. nra.
Qed.

(** ** [Map] get and set *)

Section MapFacts.
Context {V : Type}.
Implicit Types (m : list (string * V)) (k : string) (v : V).

Lemma Map_get_set_same k v m : Map_get k (Map_set k v m) = Some v.
Proof.
  induction m as [|[k' v'] m IH]; simpl.
  - now rewrite String.eqb_refl.
  - destruct (String.eqb k' k) eqn:E; simpl; now rewrite E.
Qed.

Lemma Map_get_set_other k k' v m :
  k <> k' -> Map_get k' (Map_set k v m) = Map_get k' m.
Proof.
  intros N. induction m as [|[k0 v0] m IH]; simpl.
  - apply String.eqb_neq in N. now rewrite N.
  - destruct (String.eqb k0 k) eqn:E; simpl.
    + apply String.eqb_eq in E. subst k0.
      apply String.eqb_neq in N. now rewrite N.
    + now rewrite IH.
Qed.

Lemma Map_get_In k v m : Map_get k m = Some v -> In (k, v) m.
Proof.
  induction m as [|[k' v'] m IH]; simpl; [discriminate|].
  destruct (String.eqb k' k) eqn:E.
  - apply String.eqb_eq in E. intros [= ->]. left. now subst.
  - intros H. right. now apply IH.
Qed.

Lemma In_Map_get k v m :
  NoDup (map fst m) -> In (k, v) m -> Map_get k m = Some v.
Proof.
  induction m as [|[k' v'] m IH]; simpl; [tauto|].
  intros ND [E|I].
  - injection E as -> ->. now rewrite String.eqb_refl.
  - inversion ND as [|? ? Hn ND']; subst.
    destruct (String.eqb k' k) eqn:E.
    + apply String.eqb_eq in E. subst. exfalso. apply Hn.
      now apply (in_map fst) in I.
    + now apply IH.
Qed.

Lemma Map_set_keys k v m k' :
  In k' (map fst (Map_set k v m)) <-> k' = k \/ In k' (map fst m).
Proof.
  induction m as [|[k0 v0] m IH]; simpl.
  - intuition.
  - destruct (String.eqb k0 k) eqn:E; simpl.
    + apply String.eqb_eq in E. subst. intuition.
    + rewrite IH. intuition.
Qed.

Lemma Map_set_NoDup k v m :
  NoDup (map fst m) -> NoDup (map fst (Map_set k v m)).
Proof.
  induction m as [|[k0 v0] m IH]; simpl; intros ND.
  - repeat constructor. simpl. tauto.
  - inversion ND as [|? ? Hn ND']; subst.
    destruct (String.eqb k0 k) eqn:E; simpl.
    + now constructor.
    + constructor; [|now apply IH].
      rewrite Map_set_keys. apply String.eqb_neq in E. intuition.
Qed.
End MapFacts.

(** ** The class map built by the aggregation loop *)

Lemma oeq_refl a : oeq a a.
Proof. destruct a as [[]|]; simpl; unfold veq; simpl; intuition lra. Qed.

Lemma oeq_sym a b : oeq a b -> oeq b a.
Proof.
  destruct a as [[]|], b as [[]|]; simpl; unfold veq; simpl; intuition lra.
Qed.

Lemma oeq_trans a b c : oeq a b -> oeq b c -> oeq a c.
Proof.
  destruct a as [[]|], b as [[]|], c as [[]|]; simpl; unfold veq; simpl;
    intuition lra.
Qed.

Lemma Map_get_classMap_step c m p :
  Map_get c (classMap_step m p) = upd c (Map_get c m) p.
Proof.
  unfold classMap_step, upd. fold (classOf p).
  destruct (String.eqb (classOf p) c) eqn:E.
  - apply String.eqb_eq in E. subst. apply Map_get_set_same.
  - apply String.eqb_neq in E. now apply Map_get_set_other.
Qed.

Lemma Map_get_fold c positions m :
  Map_get c (fold_left classMap_step positions m)
  = fold_left (upd c) positions (Map_get c m).
Proof.
  revert m. induction positions as [|p l IH]; intros m; simpl.
  - reflexivity.
  - now rewrite IH, Map_get_classMap_step.
Qed.

Lemma upd_oeq c o o' p : oeq o o' -> oeq (upd c o p) (upd c o' p).
Proof.
  unfold upd. destruct (String.eqb (classOf p) c); [|auto].
  destruct o as [[]|], o' as [[]|]; simpl; unfold veq; simpl;
    intuition; lra.
Qed.

Lemma upd_comm c o p q : oeq (upd c (upd c o p) q) (upd c (upd c o q) p).
Proof.
  unfold upd.
  destruct (String.eqb (classOf p) c), (String.eqb (classOf q) c);
    try apply oeq_refl.
  destruct o as [[]|]; simpl; unfold veq; simpl; split; lra.
Qed.

Lemma fold_upd_oeq c l o o' :
  oeq o o' -> oeq (fold_left (upd c) l o) (fold_left (upd c) l o').
Proof.
  revert o o'. induction l as [|p l IH]; intros o o' E; simpl; [exact E|].
  apply IH. now apply upd_oeq.
Qed.

Lemma fold_upd_perm c l l' :
  Permutation l l' ->
  forall o, oeq (fold_left (upd c) l o) (fold_left (upd c) l' o).
Proof.
  induction 1 as [|x l l' _ IH|x y l|l l' l'' _ IH1 _ IH2]; intros o; simpl.
  - apply oeq_refl.
  - apply IH.
  - apply fold_upd_oeq, upd_comm.
  - eapply oeq_trans; [apply IH1|apply IH2].
Qed.

(** With exact sums, the entry of a class does not depend on the order of
    the positions. *)
Lemma classMap_perm c l l' :
  Permutation l l' -> oeq (Map_get c (classMap l)) (Map_get c (classMap l')).
Proof.
  intros P. unfold classMap. rewrite !Map_get_fold. now apply fold_upd_perm.
Qed.

Lemma classMap_step_NoDup m p :
  NoDup (map fst m) -> NoDup (map fst (classMap_step m p)).
Proof. apply Map_set_NoDup. Qed.

Lemma classMap_NoDup positions : NoDup (map fst (classMap positions)).
Proof.
  unfold classMap.
  assert (G : forall m, NoDup (map fst m) ->
                        NoDup (map fst (fold_left classMap_step positions m))).
  { induction positions as [|p l IH]; intros m ND; simpl; [exact ND|].
    apply IH. now apply classMap_step_NoDup. }
  apply G. constructor.
Qed.

(** Two class maps with the same entries up to representation give, entry
    by entry, the same output records whenever the output rounds the two
    sums. *)
Section Entries.
Context {B : Type} (f : string * (Q * Q) -> B) (g : B -> string).
Hypothesis g_f : forall kv, g (f kv) = fst kv.
Hypothesis f_veq : forall k v v', veq v v' -> f (k, v) = f (k, v').

Lemma entries_NoDup m : NoDup (map fst m) -> NoDup (map f m).
Proof.
  intros ND. apply (NoDup_map_inv g). rewrite map_map.
  now rewrite (map_ext _ fst g_f).
Qed.

Lemma entries_incl m1 m2 :
  NoDup (map fst m1) ->
  (forall c, oeq (Map_get c m1) (Map_get c m2)) ->
  forall x, In x (map f m1) -> In x (map f m2).
Proof.
  intros ND E x Hx. apply in_map_iff in Hx as [[k v] [<- Hin]].
  apply (In_Map_get _ _ _ ND) in Hin.
  specialize (E k). rewrite Hin in E.
  destruct (Map_get k m2) as [v'|] eqn:G; [|contradiction].
  simpl in E. rewrite (f_veq k v v' E).
  apply in_map. now apply Map_get_In.
Qed.

Lemma entries_perm m1 m2 :
  NoDup (map fst m1) -> NoDup (map fst m2) ->
  (forall c, oeq (Map_get c m1) (Map_get c m2)) ->
  Permutation (map f m1) (map f m2).
Proof.
  intros ND1 ND2 E.
  apply NoDup_Permutation; try now apply entries_NoDup.
  intros x. split; apply entries_incl; trivial.
  intros c. apply oeq_sym, E.
Qed.
End Entries.




(** ** Rounded values *)

Lemma div_10000 (z : Q) : z / 10000 == z * (1 # 10000).
Proof. reflexivity. Qed.

Lemma div_100 (z : Q) : z / 100 == z * (1 # 100).
Proof. reflexivity. Qed.


Lemma round_pct_round4 (x : Q) : round_pct x == 100 * round4 x.
Proof. unfold round_pct, round4. rewrite div_100, div_10000. lra. Qed.

Lemma hhi_sumQ (positions : list PortfolioPosition) :
  hhi positions == sumQ (map (fun p => alloc p * alloc p) positions).
Proof.
  unfold hhi. rewrite (fold_left_sumQ (fun p => alloc p * alloc p)). lra.
Qed.

(** ** Insight generation *)

Lemma Analytics_insights_parts c d a :
  (List.length (Analytics.concentrationInsight c) <= 1)%nat
  /\ List.length (Analytics.diversificationInsight d) = 1%nat
  /\ (List.length (Analytics.equityInsight a) <= 1)%nat
  /\ (List.length (Analytics.fixedIncomeInsight a) <= 1)%nat.
Proof.
  unfold Analytics.concentrationInsight, Analytics.diversificationInsight,
    Analytics.equityInsight, Analytics.fixedIncomeInsight.
  repeat split.
  - destruct (Analytics.isHighlyConcentrated c); [simpl; lia|].
    destruct (gtb _ _); simpl; lia.
  - destruct (_ >=? 70)%Z; [reflexivity|]. now destruct (_ >=? 40)%Z.
  - destruct (Array_find _ a); [|simpl; lia].
    destruct (gtb _ _); simpl; lia.
  - destruct (Array_find _ a); [|simpl; lia].
    destruct (ltb _ _); simpl; lia.
Qed.

Lemma Ai_insights_parts c d a :
  (List.length (Ai.concentrationInsight c) <= 1)%nat
  /\ List.length (Ai.diversificationInsight d) = 1%nat
  /\ (List.length (Ai.equityInsight a) <= 1)%nat
  /\ (List.length (Ai.fixedIncomeInsight a) <= 1)%nat.
Proof.
  unfold Ai.concentrationInsight, Ai.diversificationInsight,
    Ai.equityInsight, Ai.fixedIncomeInsight.
  repeat split.
  - destruct (Ai.isHighlyConcentrated c); [simpl; lia|].
    destruct (gtb _ _); simpl; lia.
  - destruct (_ >=? 70)%Z; [reflexivity|]. now destruct (_ >=? 40)%Z.
  - destruct (Array_find _ a); [|simpl; lia].
    destruct (gtb _ _); simpl; lia.
  - destruct (Array_find _ a); [|simpl; lia].
    destruct (ltb _ _); simpl; lia.
Qed.

(** C10.  For every concentration, diversification and allocation list,
    [generateInsights] of either service returns between one and four
    strings: the diversification rule gives exactly one, and the
    concentration, equity-overweight and fixed-income rules give at most one
    each. *)
Theorem generateInsights_between_1_and_4 :
  (forall c d a,
     Analytics.generateInsights c d a
     = (Analytics.concentrationInsight c ++ Analytics.diversificationInsight d
        ++ Analytics.equityInsight a ++ Analytics.fixedIncomeInsight a)%list
     /\ (List.length (Analytics.concentrationInsight c) <= 1)%nat
     /\ List.length (Analytics.diversificationInsight d) = 1%nat
     /\ (List.length (Analytics.equityInsight a) <= 1)%nat
     /\ (List.length (Analytics.fixedIncomeInsight a) <= 1)%nat
     /\ (1 <= List.length (Analytics.generateInsights c d a) <= 4)%nat)
  /\ (forall c d a,
     Ai.generateInsights c d a
     = (Ai.concentrationInsight c ++ Ai.diversificationInsight d
        ++ Ai.equityInsight a ++ Ai.fixedIncomeInsight a)%list
     /\ (List.length (Ai.concentrationInsight c) <= 1)%nat
     /\ List.length (Ai.diversificationInsight d) = 1%nat
     /\ (List.length (Ai.equityInsight a) <= 1)%nat
     /\ (List.length (Ai.fixedIncomeInsight a) <= 1)%nat
     /\ (1 <= List.length (Ai.generateInsights c d a) <= 4)%nat).
Proof.
  split; intros c d a.
  - destruct (Analytics_insights_parts c d a) as (H1 & H2 & H3 & H4).
    unfold Analytics.generateInsights. rewrite !length_app.
    repeat split; trivial; lia.
  - destruct (Ai_insights_parts c d a) as (H1 & H2 & H3 & H4).
    unfold Ai.generateInsights. rewrite !length_app.
    repeat split; trivial; lia.
Qed.

(** ** Scenarios *)

(** C2, as stated, fails: the diversification score of the empty portfolio
    is not 0. *)
Lemma empty_score_is_not_0 :
  Analytics.score (Analytics.diversification (Analytics.getAnalytics "" []))
  <> 0%Z
  /\ Ai.score (Ai.diversification (Ai.getSummary "" "USD" [])) <> 0%Z.
Proof. split; vm_compute; discriminate. Qed.

(** C2, amended.  For the empty holdings list both services return the
    neutral concentration value, an empty allocation list and the
    diversification score 30 (no holdings, no classes, full evenness term);
    the insight list is the "low" diversification message followed by the
    fixed-income message, with no concentration message. *)
Theorem scenario_empty_portfolio (now userCurrency : string) :
  let r := Analytics.getAnalytics now [] in
  let s := Ai.getSummary now userCurrency [] in
  Analytics.concentrationRisk r
  = Analytics.mkConcentrationRisk "" "" 0 0 false
  /\ Analytics.assetAllocation r = []
  /\ Analytics.score (Analytics.diversification r) = 30%Z
  /\ Analytics.concentrationInsight (Analytics.concentrationRisk r) = []
  /\ Analytics.insights r
     = ["Low diversification (score: 30/100). "
        ++ "Portfolio is heavily weighted in UNKNOWN (0.0%).";
        "No significant fixed income allocation detected."]
  /\ Ai.concentration s = Ai.mkAiSummaryConcentration "" "" 0 0 false
  /\ Ai.assetAllocation s = []
  /\ Ai.score (Ai.diversification s) = 30%Z
  /\ Ai.concentrationInsight (Ai.concentration s) = []
  /\ Ai.insights s
     = ["Low diversification (score: 30/100). "
        ++ "Portfolio is heavily weighted in UNKNOWN (0.0%).";
        "No significant fixed income allocation detected."].
Proof. repeat split. Qed.

(** C6.  For the single holding AAPL of asset class EQUITY at allocation 1,
    whatever its other fields, both services return a Herfindahl index of 1
    (printed 1.0000) with the concentration flag set, one counted holding,
    a holdings term of 2, a class term of 6, a class HHI of 1, hence an
    evenness term of 0, and the score 8. *)
Theorem scenario_single_full_weight_holding
  (now userCurrency : string) (nm sub cur : option string)
  (val price : option Q) :
  let r := Analytics.getAnalytics now [aapl_full nm sub cur val price] in
  let s := Ai.getSummary now userCurrency [aapl_full nm sub cur val price] in
  (Analytics.herfindahlIndex (Analytics.concentrationRisk r) == 1
   /\ toFixed 4 (Analytics.herfindahlIndex (Analytics.concentrationRisk r))
      = "1.0000"
   /\ Analytics.isHighlyConcentrated (Analytics.concentrationRisk r) = true
   /\ Analytics.holdingsCount (Analytics.diversification r) = 1%nat
   /\ Analytics.holdingsScore
        (Analytics.holdingsCount (Analytics.diversification r)) == 2
   /\ Analytics.classScore
        (Analytics.assetClassCount (Analytics.diversification r)) == 6
   /\ Analytics.classHhi (Analytics.assetAllocation r) == 1
   /\ Analytics.evennessScore (Analytics.assetAllocation r) == 0
   /\ Analytics.score (Analytics.diversification r) = 8%Z)
  /\ (Ai.herfindahlIndex (Ai.concentration s) == 1
   /\ toFixed 4 (Ai.herfindahlIndex (Ai.concentration s)) = "1.0000"
   /\ Ai.isHighlyConcentrated (Ai.concentration s) = true
   /\ Ai.holdingsCount (Ai.diversification s) = 1%nat
   /\ Ai.holdingsScore (Ai.holdingsCount (Ai.diversification s)) == 2
   /\ Ai.classScore (Ai.assetClassCount (Ai.diversification s)) == 6
   /\ Ai.classHhi (Ai.assetAllocation s) == 1
   /\ Ai.evennessScore (Ai.assetAllocation s) == 0
   /\ Ai.score (Ai.diversification s) = 8%Z).
Proof. repeat split. Qed.


(** ** The concentration flag and the Herfindahl index *)

Lemma Analytics_concentration_fields (positions : list PortfolioPosition) :
  let c := Analytics.computeConcentrationRisk positions in
  Analytics.herfindahlIndex c == round4 (hhi positions)
  /\ Analytics.isHighlyConcentrated c = gtb (hhi positions) (25 # 100).
Proof.
  destruct positions as [|p l]; simpl; split; reflexivity.
Qed.

Lemma Ai_concentration_fields (positions : list PortfolioPosition) :
  let c := Ai.computeConcentration positions in
  Ai.herfindahlIndex c == round4 (hhi positions)
  /\ Ai.isHighlyConcentrated c = gtb (hhi positions) (25 # 100).
Proof.
  destruct positions as [|p l]; simpl; split; reflexivity.
Qed.

Lemma flag_vs_rounded_index (x : Q) :
  (round4 x > 25 # 100 -> gtb x (25 # 100) = true)
  /\ (gtb x (25 # 100) = true -> 25 # 100 <= round4 x).
Proof.
  split.
  - intros H. apply gtb_true.
    destruct (Qlt_le_dec (25 # 100) x) as [L|L]; [exact L|exfalso].
    assert (Hz : (Math_round (x * 10000) <= 2500)%Z).
    { rewrite <- (Math_round_inject 2500).
      apply Math_round_mono. change (inject_Z 2500) with 2500. lra. }
    rewrite Zle_Qle in Hz. change (inject_Z 2500) with 2500 in Hz.
    unfold round4 in H. rewrite div_10000 in H. lra.
  - intros H. apply gtb_true in H.
    assert (Hz : (2500 <= Math_round (x * 10000))%Z).
    { rewrite <- (Math_round_inject 2500) at 1.
      apply Math_round_mono. change (inject_Z 2500) with 2500. lra. }
    rewrite Zle_Qle in Hz. change (inject_Z 2500) with 2500 in Hz.
    unfold round4. rewrite div_10000. lra.
Qed.

(** C4, as stated, fails: for one holding of weight 0.50001 the flag is set
    although the returned index, 0.2500, does not exceed 0.25. *)
Lemma flag_set_at_returned_quarter :
  let c := Analytics.computeConcentrationRisk just_above_quarter in
  Analytics.isHighlyConcentrated c = true
  /\ Analytics.herfindahlIndex c == 25 # 100
  /\ Analytics.isHighlyConcentrated c
     <> gtb (Analytics.herfindahlIndex c) (25 # 100).
Proof. vm_compute. repeat split; discriminate. Qed.

(** C4, amended.  In both services the flag compares the unrounded sum of
    squared weights with 0.25, while the returned index is that sum rounded
    to four decimals.  Hence a returned index above 0.25 implies the flag,
    and the flag implies a returned index of at least 0.25. *)
Theorem flag_consistency (positions : list PortfolioPosition) :
  let c := Analytics.computeConcentrationRisk positions in
  let c' := Ai.computeConcentration positions in
  (Analytics.isHighlyConcentrated c = gtb (hhi positions) (25 # 100)
   /\ Analytics.herfindahlIndex c == round4 (hhi positions)
   /\ (Analytics.herfindahlIndex c > 25 # 100 ->
       Analytics.isHighlyConcentrated c = true)
   /\ (Analytics.isHighlyConcentrated c = true ->
       25 # 100 <= Analytics.herfindahlIndex c))
  /\ (Ai.isHighlyConcentrated c' = gtb (hhi positions) (25 # 100)
   /\ Ai.herfindahlIndex c' == round4 (hhi positions)
   /\ (Ai.herfindahlIndex c' > 25 # 100 -> Ai.isHighlyConcentrated c' = true)
   /\ (Ai.isHighlyConcentrated c' = true ->
       25 # 100 <= Ai.herfindahlIndex c')).
Proof.
  cbv zeta.
  destruct (Analytics_concentration_fields positions) as [E1 E2].
  destruct (Ai_concentration_fields positions) as [E3 E4].
  destruct (flag_vs_rounded_index (hhi positions)) as [F1 F2].
  rewrite E2, E4. repeat split; trivial.
  - intros H. apply F1. now rewrite <- E1.
  - intros H. rewrite E1. now apply F2.
  - intros H. apply F1. now rewrite <- E3.
  - intros H. rewrite E3. now apply F2.
Qed.

Lemma flag_consistency_witness :
  Analytics.isHighlyConcentrated
    (Analytics.computeConcentrationRisk just_above_quarter) = true
  /\ 25 # 100 <= Analytics.herfindahlIndex
                   (Analytics.computeConcentrationRisk just_above_quarter).
Proof.
  assert (H : Analytics.isHighlyConcentrated
                (Analytics.computeConcentrationRisk just_above_quarter)
              = true) by reflexivity.
  split; [exact H|].
  exact (proj2 (proj2 (proj2 (proj1 (flag_consistency just_above_quarter))))
           H).
Defined.

(** C5.  Two equity holdings at allocation 1 each: every allocation lies
    in [0,1], and the Herfindahl index that either service returns is 2,
    outside the range 0-1 that the interface documents for it.  The same
    value comes out in binary64. *)
Lemma index_above_one :
  Forall (fun p => 0 <= alloc p /\ alloc p <= 1) two_full
  /\ Analytics.herfindahlIndex (Analytics.computeConcentrationRisk two_full)
     == 2
  /\ Ai.herfindahlIndex (Ai.computeConcentration two_full) == 2
  /\ ~ (Analytics.herfindahlIndex (Analytics.computeConcentrationRisk two_full)
        <= 1)
  /\ Double.herfindahlIndex
       (Double.concentration (Double.Analytics.getAnalytics Double.two_full))
     = Double.of_Z 2
  /\ Double.herfindahlIndex
       (Double.concentration (Double.Ai.getSummary Double.two_full))
     = Double.of_Z 2.
Proof.
  split; [|split; [|split; [|split; [|split]]]].
  - repeat constructor; vm_compute; discriminate.
  - reflexivity.
  - reflexivity.
  - vm_compute. intros H. now apply H.
  - vm_compute. reflexivity.
  - vm_compute. reflexivity.
Qed.

(** ** Allocation conservation *)





Lemma Analytics_allocation_length (positions : list PortfolioPosition) :
  List.length (Analytics.computeAssetAllocation positions)
  = List.length (classMap positions).
Proof.
  unfold Analytics.computeAssetAllocation.
  now rewrite sort_desc_length, length_map.
Qed.

Lemma Ai_allocation_length (positions : list PortfolioPosition) :
  List.length (Ai.computeAssetAllocation positions)
  = List.length (classMap positions).
Proof.
  unfold Ai.computeAssetAllocation.
  now rewrite sort_desc_length, length_map.
Qed.




(** ** The diversification score in terms of the class map *)

Lemma filter_perm {A : Type} (t : A -> bool) (l l' : list A) :
  Permutation l l' -> Permutation (filter t l) (filter t l').
Proof.
  induction 1 as [|x l l' _ IH|x y l|l l' l'' _ IH1 _ IH2]; simpl.
  - constructor.
  - destruct (t x); [now constructor|exact IH].
  - destruct (t x), (t y); try reflexivity. apply perm_swap.
  - now transitivity (filter t l').
Qed.

Lemma filter_map_comm {A B : Type} (f : A -> B) (t : B -> bool)
  (l : list A) :
  filter t (map f l) = map f (filter (fun x => t (f x)) l).
Proof.
  induction l as [|x l IH]; simpl; [reflexivity|].
  destruct (t (f x)); simpl; now rewrite IH.
Qed.

Lemma Analytics_classHhi_sumQ a :
  Analytics.classHhi a
  == sumQ (map (fun e => Analytics.weight e * Analytics.weight e)
             (filter Analytics.counted a)).
Proof.
  unfold Analytics.classHhi.
  rewrite (fold_left_sumQ
             (fun e => Analytics.weight e * Analytics.weight e)). lra.
Qed.

Lemma Analytics_classHhi_perm a a' :
  Permutation a a' -> Analytics.classHhi a == Analytics.classHhi a'.
Proof.
  intros P. rewrite !Analytics_classHhi_sumQ.
  apply sumQ_perm, Permutation_map, filter_perm, P.
Qed.

Lemma Analytics_classHhi_entries m :
  Analytics.classHhi (map Analytics.toEntry m) == mapHhi m.
Proof.
  rewrite Analytics_classHhi_sumQ. unfold mapHhi.
  rewrite filter_map_comm, map_map.
  assert (E : forall l : list (string * (Q * Q)),
    filter (fun x => Analytics.counted (Analytics.toEntry x)) l
    = filter countedKey l).
  { intros l. apply filter_ext. now intros [k [w v]]. }
  rewrite E. apply sumQ_map_ext, Forall_forall.
  intros [k [w v]] _. reflexivity.
Qed.

Lemma Analytics_count_entries m :
  List.length (filter Analytics.counted (map Analytics.toEntry m))
  = mapCount m.
Proof.
  unfold mapCount. rewrite filter_map_comm, length_map.
  f_equal. apply filter_ext. now intros [k [w v]].
Qed.

Lemma Ai_classHhi_sumQ a :
  Ai.classHhi a
  == sumQ (map (fun e => (Ai.weight e / 100) * (Ai.weight e / 100))
             (filter Ai.counted a)).
Proof.
  unfold Ai.classHhi, Ai.classWeightsAsFraction.
  rewrite (fold_left_sumQ (fun w => w * w)), map_map. lra.
Qed.

Lemma Ai_classHhi_perm a a' :
  Permutation a a' -> Ai.classHhi a == Ai.classHhi a'.
Proof.
  intros P. rewrite !Ai_classHhi_sumQ.
  apply sumQ_perm, Permutation_map, filter_perm, P.
Qed.

Lemma Ai_classHhi_entries m : Ai.classHhi (map Ai.toEntry m) == mapHhi m.
Proof.
  rewrite Ai_classHhi_sumQ. unfold mapHhi.
  rewrite filter_map_comm, map_map.
  assert (E : forall l : list (string * (Q * Q)),
    filter (fun x => Ai.counted (Ai.toEntry x)) l = filter countedKey l).
  { intros l. apply filter_ext. now intros [k [w v]]. }
  rewrite E. apply sumQ_map_ext, Forall_forall.
  intros [k [w v]] _. simpl. rewrite round_pct_round4, !div_100. lra.
Qed.

Lemma Ai_count_entries m :
  List.length (filter Ai.counted (map Ai.toEntry m)) = mapCount m.
Proof.
  unfold mapCount. rewrite filter_map_comm, length_map.
  f_equal. apply filter_ext. now intros [k [w v]].
Qed.

Lemma Analytics_toEntry_veq k v v' :
  veq v v' -> Analytics.toEntry (k, v) = Analytics.toEntry (k, v').
Proof.
  destruct v as [w x], v' as [w' x']. intros [Ew Ex]. simpl in *.
  unfold round4, round2.
  rewrite (Math_round_comp (w * 10000) (w' * 10000)) by now rewrite Ew.
  rewrite (Math_round_comp (x * 100) (x' * 100)) by now rewrite Ex.
  reflexivity.
Qed.

(** With exact sums, the entries of either service do not depend, up to
    their order, on the order of the positions. *)
Lemma Analytics_entries_perm l l' :
  Permutation l l' ->
  Permutation (map Analytics.toEntry (classMap l))
    (map Analytics.toEntry (classMap l')).
Proof.
  intros P.
  apply (entries_perm Analytics.toEntry Analytics.entryAssetClass).
  - now intros [k [w v]].
  - apply Analytics_toEntry_veq.
  - apply classMap_NoDup.
  - apply classMap_NoDup.
  - intros c. now apply classMap_perm.
Qed.

Lemma mapHhi_perm l l' :
  Permutation l l' -> mapHhi (classMap l) == mapHhi (classMap l').
Proof.
  intros P. rewrite <- !Analytics_classHhi_entries.
  now apply Analytics_classHhi_perm, Analytics_entries_perm.
Qed.

Lemma mapCount_perm l l' :
  Permutation l l' -> mapCount (classMap l) = mapCount (classMap l').
Proof.
  intros P. rewrite <- !Analytics_count_entries.
  now apply Permutation_length, filter_perm, Analytics_entries_perm.
Qed.

Lemma Analytics_classHhi_allocation positions :
  Analytics.classHhi (Analytics.computeAssetAllocation positions)
  == mapHhi (classMap positions).
Proof.
  unfold Analytics.computeAssetAllocation.
  rewrite (Analytics_classHhi_perm _ _ (sort_desc_perm _ _)).
  apply Analytics_classHhi_entries.
Qed.

Lemma Analytics_count_allocation positions :
  List.length (filter Analytics.counted
                 (Analytics.computeAssetAllocation positions))
  = mapCount (classMap positions).
Proof.
  unfold Analytics.computeAssetAllocation.
  rewrite (Permutation_length (filter_perm _ _ _ (sort_desc_perm _ _))).
  apply Analytics_count_entries.
Qed.

Lemma Ai_classHhi_allocation positions :
  Ai.classHhi (Ai.computeAssetAllocation positions)
  == mapHhi (classMap positions).
Proof.
  unfold Ai.computeAssetAllocation.
  rewrite (Ai_classHhi_perm _ _ (sort_desc_perm _ _)).
  apply Ai_classHhi_entries.
Qed.

Lemma Ai_count_allocation positions :
  List.length (filter Ai.counted (Ai.computeAssetAllocation positions))
  = mapCount (classMap positions).
Proof.
  unfold Ai.computeAssetAllocation.
  rewrite (Permutation_length (filter_perm _ _ _ (sort_desc_perm _ _))).
  apply Ai_count_entries.
Qed.

Lemma Analytics_score positions :
  Analytics.score
    (Analytics.computeDiversification positions
       (Analytics.computeAssetAllocation positions))
  = scoreOf positions.
Proof.
  unfold Analytics.computeDiversification, scoreOf. simpl Analytics.score.
  rewrite Analytics_count_allocation.
  apply Math_round_comp, Math_min_comp; [|reflexivity].
  unfold Analytics.evennessScore.
  now rewrite Analytics_classHhi_allocation.
Qed.

Lemma Ai_score positions :
  Ai.score
    (Ai.computeDiversification positions
       (Ai.computeAssetAllocation positions))
  = scoreOf positions.
Proof.
  unfold Ai.computeDiversification, scoreOf. simpl Ai.score.
  rewrite Ai_count_allocation.
  apply Math_round_comp, Math_min_comp; [|reflexivity].
  unfold Ai.evennessScore.
  now rewrite Ai_classHhi_allocation.
Qed.

Lemma scoreOf_perm l l' : Permutation l l' -> scoreOf l = scoreOf l'.
Proof.
  intros P. unfold scoreOf.
  rewrite (Permutation_length (filter_perm notLiquidity _ _ P)).
  rewrite (mapCount_perm _ _ P).
  apply Math_round_comp, Math_min_comp; [|reflexivity].
  now rewrite (mapHhi_perm _ _ P).
Qed.

(** ** The score outside its range *)

(** C3.  Three equity holdings at allocation 1 each: every allocation lies
    in [0,1], the class HHI is 9, the evenness term is [(1 - 9) * 30],
    that is -240, where a term clamped at 0 would be 0, and the score
    that either service returns is -228, below the range 0-100 that the
    interface documents for it.  The same value comes out in binary64. *)
Lemma negative_score :
  Forall (fun p => 0 <= alloc p /\ alloc p <= 1) three_full
  /\ Analytics.classHhi (Analytics.computeAssetAllocation three_full) == 9
  /\ Analytics.evennessScore (Analytics.computeAssetAllocation three_full)
     == - (240)
  /\ Analytics.score
       (Analytics.diversification (Analytics.getAnalytics "" three_full))
     = (-228)%Z
  /\ Ai.score (Ai.diversification (Ai.getSummary "" "USD" three_full))
     = (-228)%Z
  /\ ~ (0 <= Analytics.score
              (Analytics.diversification
                 (Analytics.getAnalytics "" three_full)))%Z
  /\ Double.score
       (Double.diversification
          (Double.Analytics.getAnalytics Double.three_full))
     = Double.of_Z (-228)
  /\ Double.score
       (Double.diversification (Double.Ai.getSummary Double.three_full))
     = Double.of_Z (-228).
Proof.
  split; [|split; [|split; [|split; [|split; [|split; [|split]]]]]].
  - repeat constructor; vm_compute; discriminate.
  - reflexivity.
  - reflexivity.
  - reflexivity.
  - reflexivity.
  - vm_compute. intros H. now apply H.
  - vm_compute. reflexivity.
  - vm_compute. reflexivity.
Qed.

(** ** Agreement of the two services *)

Lemma NoDup_map_inj {A B : Type} (g : A -> B) (l : list A) (a b : A) :
  NoDup (map g l) -> In a l -> In b l -> g a = g b -> a = b.
Proof.
  induction l as [|x l IH]; simpl; [tauto|].
  intros ND Ha Hb E. inversion ND as [|? ? Hn ND']; subst.
  destruct Ha as [->|Ha], Hb as [->|Hb]; trivial.
  - exfalso. apply Hn. rewrite E. now apply in_map.
  - exfalso. apply Hn. rewrite <- E. now apply in_map.
  - now apply IH.
Qed.

Lemma Analytics_entries_keys m :
  map Analytics.entryAssetClass (map Analytics.toEntry m) = map fst m.
Proof. rewrite map_map. apply map_ext. now intros [k [w v]]. Qed.

Lemma Ai_entries_keys m :
  map Ai.entryAssetClass (map Ai.toEntry m) = map fst m.
Proof. rewrite map_map. apply map_ext. now intros [k [w v]]. Qed.

Lemma Analytics_top positions :
  Analytics.computeConcentrationRisk positions
  = match sort_desc alloc positions with
    | [] => Analytics.mkConcentrationRisk "" "" 0 0 false
    | top :: _ =>
        Analytics.mkConcentrationRisk (symbol top ?? "")
          (or_else (name top) (symbol top) ?? "") (alloc top)
          (round4 (hhi positions)) (gtb (hhi positions) (25 # 100))
    end.
Proof.
  destruct positions as [|p l]; [reflexivity|].
  unfold Analytics.computeConcentrationRisk.
  destruct (sort_desc alloc (p :: l)) eqn:E; [|reflexivity].
  apply sort_desc_nil_inv in E. discriminate.
Qed.

Lemma Ai_top positions :
  Ai.computeConcentration positions
  = match sort_desc alloc positions with
    | [] => Ai.mkAiSummaryConcentration "" "" 0 0 false
    | top :: _ =>
        Ai.mkAiSummaryConcentration (symbol top ?? "")
          (or_else (name top) (symbol top) ?? "") (round_pct (alloc top))
          (round4 (hhi positions)) (gtb (hhi positions) (25 # 100))
    end.
Proof.
  destruct positions as [|p l]; [reflexivity|].
  unfold Ai.computeConcentration.
  destruct (sort_desc alloc (p :: l)) eqn:E; [|reflexivity].
  apply sort_desc_nil_inv in E. discriminate.
Qed.

(** C1, as stated, fails.  For one holding at 0.123456 the dashboard
    returns the top-holding weight 0.123456 and the summary returns 12.35,
    which is not a hundred times the former; and the two allocation lists
    can come in different orders.  In binary64 the sums depend on the
    order of their terms, and the summary adds the holdings in the order
    of its in-place sort: for four equity holdings at 0.04, 0.2, 0.22 and
    0.4 the dashboard does not set the concentration flag and the summary
    does; for four bond holdings at 0.3, 0.014, 0.165 and 0.423 the
    dashboard returns the index 0.2964 and the summary 0.2963; for four
    equity holdings at 0.372514, 0.08607, 0.124817 and 0.008249 the
    dashboard returns the score 34 and the equity weight 0.5916, the
    summary the score 33 and the equity weight 59.17. *)
Lemma services_disagree :
  ~ (Ai.topHoldingWeight
       (Ai.concentration (Ai.getSummary "" "USD" six_decimals))
     == 100 * Analytics.topHoldingWeight
                (Analytics.concentrationRisk
                   (Analytics.getAnalytics "" six_decimals)))
  /\ map Ai.entryAssetClass
       (Ai.assetAllocation (Ai.getSummary "" "USD" tied_classes))
     <> map Analytics.entryAssetClass
          (Analytics.assetAllocation (Analytics.getAnalytics "" tied_classes))
  /\ (Double.isHighlyConcentrated
        (Double.concentration
           (Double.Analytics.getAnalytics Double.four_equities)) = false
      /\ Double.isHighlyConcentrated
           (Double.concentration (Double.Ai.getSummary Double.four_equities))
         = true)
  /\ (Double.herfindahlIndex
        (Double.concentration
           (Double.Analytics.getAnalytics Double.four_bonds))
      = Double.decimal 2964 10000
      /\ Double.herfindahlIndex
           (Double.concentration (Double.Ai.getSummary Double.four_bonds))
         = Double.decimal 2963 10000)
  /\ (Double.score
        (Double.diversification
           (Double.Analytics.getAnalytics Double.six_digit_equities))
      = Double.of_Z 34
      /\ Double.score
           (Double.diversification
              (Double.Ai.getSummary Double.six_digit_equities))
         = Double.of_Z 33)
  /\ (map Double.weight
        (Double.assetAllocation
           (Double.Analytics.getAnalytics Double.six_digit_equities))
      = [Double.decimal 5916 10000]
      /\ map Double.weight
           (Double.assetAllocation
              (Double.Ai.getSummary Double.six_digit_equities))
         = [Double.decimal 5917 100]).
Proof.
  split; [|split; [|split; [|split; [|split]]]].
  - vm_compute. discriminate.
  - vm_compute. discriminate.
  - split; vm_compute; reflexivity.
  - split; vm_compute; reflexivity.
  - split; vm_compute; reflexivity.
  - split; vm_compute; reflexivity.
Qed.

(** C1, amended.  Each service computes its metrics itself, the summary
    after sorting the holdings by allocation.  For every holdings list the
    two return the same holdings count and asset-class count, name the same
    top holding, and list the same asset classes, in as many allocation
    entries.  The summary's top-holding weight is the dashboard's, turned
    into a percentage and rounded to two decimals by
    [Math.round(w * 10000) / 100].  Nothing is stated of the score, the
    Herfindahl index, the concentration flag and the allocation weights:
    they come from sums that the two services take over the holdings in
    different orders. *)
Theorem services_agree (now now' userCurrency : string)
  (positions : list PortfolioPosition) :
  let r := Analytics.getAnalytics now positions in
  let s := Ai.getSummary now' userCurrency positions in
  Ai.assetClassCount (Ai.diversification s)
  = Analytics.assetClassCount (Analytics.diversification r)
  /\ Ai.holdingsCount (Ai.diversification s)
     = Analytics.holdingsCount (Analytics.diversification r)
  /\ Ai.topHoldingSymbol (Ai.concentration s)
     = Analytics.topHoldingSymbol (Analytics.concentrationRisk r)
  /\ Ai.topHoldingName (Ai.concentration s)
     = Analytics.topHoldingName (Analytics.concentrationRisk r)
  /\ Ai.topHoldingWeight (Ai.concentration s)
     == round_pct (Analytics.topHoldingWeight (Analytics.concentrationRisk r))
  /\ List.length (Ai.assetAllocation s)
     = List.length (Analytics.assetAllocation r)
  /\ forall c,
       In c (map Ai.entryAssetClass (Ai.assetAllocation s))
       <-> In c (map Analytics.entryAssetClass (Analytics.assetAllocation r)).
Proof.
  cbv zeta. unfold Analytics.getAnalytics, Ai.getSummary.
  cbn [Analytics.diversification Analytics.concentrationRisk
       Analytics.assetAllocation Ai.diversification Ai.concentration
       Ai.assetAllocation].
  pose proof (sort_desc_perm alloc positions) as P.
  assert (K : forall c,
    In c (map fst (classMap (sort_desc alloc positions)))
    <-> In c (map fst (classMap positions))).
  { intros c. rewrite <- !Analytics_entries_keys.
    split; apply Permutation_in, Permutation_map, Analytics_entries_perm.
    - exact P.
    - now symmetry. }
  split; [|split].
  - cbn [Ai.computeDiversification Analytics.computeDiversification
         Ai.assetClassCount Analytics.assetClassCount].
    rewrite Analytics_count_allocation, Ai_count_allocation.
    now apply mapCount_perm.
  - cbn [Ai.computeDiversification Analytics.computeDiversification
         Ai.holdingsCount Analytics.holdingsCount].
    apply Permutation_length, filter_perm, P.
  - rewrite Analytics_top, Ai_top, sort_desc_idem.
    repeat split.
    + destruct (sort_desc alloc positions); reflexivity.
    + destruct (sort_desc alloc positions); reflexivity.
    + destruct (sort_desc alloc positions); reflexivity.
    + rewrite Ai_allocation_length, Analytics_allocation_length.
      rewrite <- !(length_map fst).
      apply Permutation_length.
      apply NoDup_Permutation; try apply classMap_NoDup. exact K.
    + unfold Ai.computeAssetAllocation.
      intros I. apply (Permutation_in c
                         (Permutation_map _ (sort_desc_perm _ _))) in I.
      rewrite Ai_entries_keys in I. apply K in I.
      rewrite <- Analytics_entries_keys in I.
      unfold Analytics.computeAssetAllocation.
      exact (Permutation_in c
               (Permutation_sym (Permutation_map _ (sort_desc_perm _ _))) I).
    + unfold Analytics.computeAssetAllocation.
      intros I. apply (Permutation_in c
                         (Permutation_map _ (sort_desc_perm _ _))) in I.
      rewrite Analytics_entries_keys in I. apply K in I.
      rewrite <- Ai_entries_keys in I.
      unfold Ai.computeAssetAllocation.
      exact (Permutation_in c
               (Permutation_sym (Permutation_map _ (sort_desc_perm _ _))) I).
Qed.

(** ** Absent fields *)

Section Defaults.
Variable userCurrency : string.
Let fill := withDefaults userCurrency.

Lemma sort_desc_map {A : Type} (key : A -> Q) (f : A -> A) (l : list A) :
  (forall x, key (f x) = key x) ->
  sort_desc key (map f l) = map f (sort_desc key l).
Proof.
  intros Hk.
  assert (Hi : forall x l, insert_desc key (f x) (map f l)
                           = map f (insert_desc key x l)).
  { intros x l0. induction l0 as [|y l0 IH]; simpl; [reflexivity|].
    rewrite !Hk. destruct (gtb (key y) (key x)); simpl; [|reflexivity].
    now rewrite IH. }
  induction l as [|x l IH]; simpl; [reflexivity|].
  now rewrite IH, Hi.
Qed.

Lemma fold_left_map_eq {A B : Type} (step : B -> A -> B) (f : A -> A)
  (l : list A) (b : B) :
  (forall b x, step b (f x) = step b x) ->
  fold_left step (map f l) b = fold_left step l b.
Proof.
  intros Hs. revert b. induction l as [|x l IH]; intros b; simpl.
  - reflexivity.
  - now rewrite Hs, IH.
Qed.

Lemma hhi_fill l : hhi (map fill l) = hhi l.
Proof. unfold hhi. now apply fold_left_map_eq. Qed.

Lemma classMap_fill l : classMap (map fill l) = classMap l.
Proof. unfold classMap. now apply fold_left_map_eq. Qed.

Lemma notLiquidity_fill p : notLiquidity (fill p) = notLiquidity p.
Proof. unfold notLiquidity. simpl. now destruct (assetClass p). Qed.

Lemma holdingsCount_fill l :
  List.length (filter notLiquidity (map fill l))
  = List.length (filter notLiquidity l).
Proof.
  rewrite filter_map_comm, length_map.
  f_equal. apply filter_ext, notLiquidity_fill.
Qed.

Lemma sort_fill l :
  sort_desc alloc (map fill l) = map fill (sort_desc alloc l).
Proof. now apply sort_desc_map. Qed.

Lemma Analytics_concentration_fill l :
  Analytics.computeConcentrationRisk (map fill l)
  = Analytics.computeConcentrationRisk l.
Proof.
  rewrite !Analytics_top, sort_fill, hhi_fill.
  destruct (sort_desc alloc l) as [|top rest]; reflexivity.
Qed.

Lemma Ai_concentration_fill l :
  Ai.computeConcentration (map fill l) = Ai.computeConcentration l.
Proof.
  rewrite !Ai_top, sort_fill, hhi_fill.
  destruct (sort_desc alloc l) as [|top rest]; reflexivity.
Qed.

Lemma Analytics_allocation_fill l :
  Analytics.computeAssetAllocation (map fill l)
  = Analytics.computeAssetAllocation l.
Proof. unfold Analytics.computeAssetAllocation. now rewrite classMap_fill. Qed.

Lemma Ai_allocation_fill l :
  Ai.computeAssetAllocation (map fill l) = Ai.computeAssetAllocation l.
Proof. unfold Ai.computeAssetAllocation. now rewrite classMap_fill. Qed.

Lemma Analytics_diversification_fill l a :
  Analytics.computeDiversification (map fill l) a
  = Analytics.computeDiversification l a.
Proof.
  unfold Analytics.computeDiversification. now rewrite holdingsCount_fill.
Qed.

Lemma Ai_diversification_fill l a :
  Ai.computeDiversification (map fill l) a = Ai.computeDiversification l a.
Proof. unfold Ai.computeDiversification. now rewrite holdingsCount_fill. Qed.

Lemma Analytics_getAnalytics_fill now l :
  Analytics.getAnalytics now (map fill l) = Analytics.getAnalytics now l.
Proof.
  unfold Analytics.getAnalytics.
  now rewrite Analytics_concentration_fill, Analytics_allocation_fill,
    Analytics_diversification_fill.
Qed.

Lemma Ai_getSummary_fill now l :
  Ai.getSummary now userCurrency (map fill l)
  = Ai.getSummary now userCurrency l.
Proof.
  unfold Ai.getSummary.
  rewrite sort_fill, Ai_concentration_fill, Ai_allocation_fill,
    Ai_diversification_fill, map_map.
  reflexivity.
Qed.
End Defaults.

(** ** The services over JavaScript values *)

(** *** Values *)

Lemma nullish_field (x : option Q) :
  Js.nullish (field x) (Js.Num 0) = Js.Num (x ?? 0).
Proof. now destruct x. Qed.

Lemma gt_sub (x y : Q) :
  Js.gt (Js.sub (Js.Num y) (Js.Num x)) (Js.Num 0) = gtb y x.
Proof.
  simpl. destruct (gtb y x) eqn:E.
  - apply gtb_true in E. apply gtb_true. lra.
  - apply gtb_false in E. apply gtb_false. lra.
Qed.

Lemma ge_integer (z k : Z) :
  Js.ge (Js.Num (inject_Z z)) (Js.Num (inject_Z k)) = (z >=? k)%Z.
Proof.
  simpl. destruct (z >=? k)%Z eqn:E.
  - apply Qle_bool_iff. rewrite <- Zle_Qle. lia.
  - destruct (Qle_bool (inject_Z k) (inject_Z z)) eqn:L; [|reflexivity].
    apply Qle_bool_iff in L. rewrite <- Zle_Qle in L. lia.
Qed.

Lemma render_integer (z : Z) : Js.render (Js.Num (inject_Z z)) = string_of_Z z.
Proof. unfold Js.render. now rewrite Qfloor_Z. Qed.

(** Arithmetic never yields [undefined]. *)
Lemma lift2_defined (f : Q -> Q -> Q) (a b : Js.value) :
  Js.lift2 f a b <> Js.Undefined.
Proof. destruct a, b; discriminate. Qed.

Lemma nullish_defined (x d : Js.value) :
  d <> Js.Undefined -> Js.nullish x d <> Js.Undefined.
Proof. destruct x; simpl; trivial; discriminate. Qed.

Lemma toFixed_returns (f : nat) (x : Js.value) :
  x <> Js.Undefined -> exists s, Js.toFixed f x = Js.Return s.
Proof. destruct x; simpl; eauto. congruence. Qed.

(** *** The sort *)

Section JsSort.
Context {A : Type} (cmp : A -> A -> Js.value).

Lemma Js_insert_In (x y : A) (l : list A) :
  In y (Js.insert cmp x l) <-> y = x \/ In y l.
Proof.
  induction l as [|z l IH]; simpl; [intuition|].
  destruct (Js.gt (cmp x z) (Js.Num 0)); simpl; [rewrite IH|]; intuition.
Qed.

Lemma Js_sort_In (y : A) (l : list A) : In y (Js.sort cmp l) <-> In y l.
Proof.
  induction l as [|x l IH]; simpl; [tauto|].
  rewrite Js_insert_In, IH. intuition.
Qed.

Lemma Js_sort_hd (l : list A) :
  l <> [] -> exists top, hd_error (Js.sort cmp l) = Some top.
Proof.
  intros N. destruct (Js.sort cmp l) as [|t r] eqn:E; [|simpl; eauto].
  destruct l as [|x l]; [contradiction|]. exfalso.
  assert (I : In x (Js.sort cmp (x :: l))) by (apply Js_sort_In; now left).
  rewrite E in I. exact I.
Qed.
End JsSort.

Lemma Js_sort_map {A B : Type} (cmp : B -> B -> Js.value) (key : A -> Q)
  (f : A -> B) (l : list A) :
  (forall x y, Js.gt (cmp (f x) (f y)) (Js.Num 0) = gtb (key y) (key x)) ->
  Js.sort cmp (map f l) = map f (sort_desc key l).
Proof.
  intros H.
  assert (I : forall x l0, Js.insert cmp (f x) (map f l0)
                           = map f (insert_desc key x l0)).
  { intros x l0. induction l0 as [|y l0 IH]; simpl; [reflexivity|].
    rewrite H. destruct (gtb (key y) (key x)); simpl; [|reflexivity].
    now rewrite IH. }
  induction l as [|x l IH]; simpl; [reflexivity|].
  now rewrite IH, I.
Qed.

Lemma sort_received (l : list PortfolioPosition) :
  Js.sort Js.byAllocation (map received l) = map received (sort_desc alloc l).
Proof.
  apply Js_sort_map. intros x y. unfold Js.byAllocation, received.
  cbn [Js.allocationInPercentage]. rewrite !nullish_field. apply gt_sub.
Qed.

(** *** The sums *)

Lemma hhi_received (l : list PortfolioPosition) :
  Js.hhi (map received l) = Js.Num (hhi l).
Proof.
  unfold Js.hhi, hhi.
  assert (G : forall a,
    fold_left
      (fun sum p =>
         let w := Js.nullish (Js.allocationInPercentage p) (Js.Num 0) in
         Js.add sum (Js.mul w w))
      (map received l) (Js.Num a)
    = Js.Num (fold_left (fun sum p => let w := alloc p in sum + w * w) l a)).
  { induction l as [|p l IH]; intros a; simpl; [reflexivity|].
    rewrite nullish_field. apply IH. }
  apply G.
Qed.

Lemma Map_get_present k m :
  Map_get k (map presentSums m)
  = option_map (fun v => (Js.Num (fst v), Js.Num (snd v))) (Map_get k m).
Proof.
  induction m as [|[k' v] m IH]; simpl; [reflexivity|].
  now destruct (String.eqb k' k).
Qed.

Lemma Map_set_present k v m :
  Map_set k (Js.Num (fst v), Js.Num (snd v)) (map presentSums m)
  = map presentSums (Map_set k v m).
Proof.
  induction m as [|[k' v'] m IH]; simpl; [reflexivity|].
  destruct (String.eqb k' k); simpl; [reflexivity|]. now rewrite IH.
Qed.

Lemma classMap_step_received m p :
  Js.classMap_step (map presentSums m) (received p)
  = map presentSums (classMap_step m p).
Proof.
  unfold Js.classMap_step, classMap_step, received.
  cbn [Js.assetClass Js.allocationInPercentage Js.valueInBaseCurrency].
  rewrite Map_get_present, !nullish_field.
  rewrite <- Map_set_present. f_equal.
  destruct (Map_get _ m) as [[w v]|]; reflexivity.
Qed.

Lemma classMap_received (l : list PortfolioPosition) :
  Js.classMap (map received l) = map presentSums (classMap l).
Proof.
  unfold Js.classMap, classMap.
  change (@nil (string * (Js.value * Js.value))) with (map presentSums []).
  generalize (@nil (string * (Q * Q))) as m.
  induction l as [|p l IH]; intros m; simpl; [reflexivity|].
  now rewrite classMap_step_received, IH.
Qed.

Lemma notLiquidity_received (l : list PortfolioPosition) :
  List.length (filter Js.notLiquidity (map received l))
  = List.length (filter notLiquidity l).
Proof.
  induction l as [|p l IH]; simpl; [reflexivity|].
  change (Js.notLiquidity (received p)) with (notLiquidity p).
  destruct (notLiquidity p); simpl; now rewrite IH.
Qed.

Lemma find_map {A B : Type} (f : A -> B) (t : B -> bool) (l : list A) :
  Array_find t (map f l) = option_map f (Array_find (fun x => t (f x)) l).
Proof.
  unfold Array_find. induction l as [|x l IH]; simpl; [reflexivity|].
  now destruct (t (f x)).
Qed.

(** *** analytics.service.ts *)

Lemma Js_Analytics_concentration (l : list PortfolioPosition) :
  Js.Analytics.computeConcentrationRisk (map received l)
  = Js.Return (presentConcentration (Analytics.computeConcentrationRisk l)).
Proof.
  rewrite Analytics_top. unfold Js.Analytics.computeConcentrationRisk.
  destruct l as [|p l]; [reflexivity|].
  change (map received (p :: l)) with (received p :: map received l) at 1.
  cbv iota beta.
  change (received p :: map received l) with (map received (p :: l)).
  rewrite sort_received, hhi_received.
  destruct (sort_desc alloc (p :: l)) as [|top rest] eqn:E.
  - apply sort_desc_nil_inv in E. discriminate.
  - simpl. unfold presentConcentration. simpl.
    now rewrite nullish_field.
Qed.

Lemma Js_Analytics_allocation (l : list PortfolioPosition) :
  Js.Analytics.computeAssetAllocation (map received l)
  = map presentEntry (Analytics.computeAssetAllocation l).
Proof.
  unfold Js.Analytics.computeAssetAllocation, Analytics.computeAssetAllocation.
  rewrite classMap_received, map_map.
  rewrite (map_ext _ (fun kv => presentEntry (Analytics.toEntry kv)))
    by (now intros [k [w v]]).
  rewrite <- map_map. apply Js_sort_map.
  intros x y. apply gt_sub.
Qed.

Lemma Js_Analytics_counted (a : list Analytics.AssetAllocationEntry) :
  filter Js.Analytics.counted (map presentEntry a)
  = map presentEntry (filter Analytics.counted a).
Proof.
  induction a as [|e a IH]; simpl; [reflexivity|].
  change (Js.Analytics.counted (presentEntry e)) with (Analytics.counted e).
  destruct (Analytics.counted e); simpl; now rewrite IH.
Qed.

Lemma Js_Analytics_classHhi (a : list Analytics.AssetAllocationEntry) :
  Js.Analytics.classHhi (map presentEntry a) = Js.Num (Analytics.classHhi a).
Proof.
  unfold Js.Analytics.classHhi, Analytics.classHhi.
  rewrite Js_Analytics_counted.
  assert (G : forall r s,
    fold_left
      (fun sum a0 =>
         Js.add sum (Js.mul (Js.Analytics.weight a0) (Js.Analytics.weight a0)))
      (map presentEntry r) (Js.Num s)
    = Js.Num (fold_left
                (fun sum a0 => sum + Analytics.weight a0 * Analytics.weight a0)
                r s)).
  { induction r as [|e r IH]; intros s; simpl; [reflexivity|]. apply IH. }
  apply G.
Qed.

Lemma Js_Analytics_diversification (l : list PortfolioPosition)
  (a : list Analytics.AssetAllocationEntry) :
  Js.Analytics.computeDiversification (map received l) (map presentEntry a)
  = presentDiversification (Analytics.computeDiversification l a).
Proof.
  unfold Js.Analytics.computeDiversification, Analytics.computeDiversification.
  rewrite notLiquidity_received, Js_Analytics_counted, length_map,
    Js_Analytics_classHhi.
  destruct a as [|e a]; reflexivity.
Qed.

Lemma Js_Analytics_insights c d a :
  Js.Analytics.generateInsights (presentConcentration c)
    (presentDiversification d) (map presentEntry a)
  = Js.Return (Analytics.generateInsights c d a).
Proof.
  unfold Js.Analytics.generateInsights, Analytics.generateInsights.
  assert (E1 : Js.Analytics.concentrationInsight (presentConcentration c)
               = Js.Return (Analytics.concentrationInsight c)).
  { unfold Js.Analytics.concentrationInsight, Analytics.concentrationInsight.
    destruct c as [s n w h f]. simpl.
    destruct f; [reflexivity|]. now destruct (gtb w (15 # 100)). }
  assert (E2 : Js.Analytics.diversificationInsight (presentDiversification d)
               = Js.Return (Analytics.diversificationInsight d)).
  { unfold Js.Analytics.diversificationInsight,
      Analytics.diversificationInsight.
    destruct d as [s n h t w]. cbn [presentDiversification Analytics.score
      Analytics.assetClassCount Analytics.holdingsCount Analytics.topAssetClass
      Analytics.topAssetClassWeight Js.Analytics.score
      Js.Analytics.assetClassCount Js.Analytics.holdingsCount
      Js.Analytics.topAssetClass Js.Analytics.topAssetClassWeight].
    change (Js.Num 70) with (Js.Num (inject_Z 70)).
    change (Js.Num 40) with (Js.Num (inject_Z 40)).
    rewrite (ge_integer s 70), (ge_integer s 40), render_integer.
    destruct (s >=? 70)%Z; [reflexivity|].
    now destruct (s >=? 40)%Z. }
  assert (E3 : Js.Analytics.equityInsight (map presentEntry a)
               = Js.Return (Analytics.equityInsight a)).
  { unfold Js.Analytics.equityInsight, Analytics.equityInsight.
    rewrite find_map.
    change (fun x => String.eqb (Js.Analytics.entryAssetClass (presentEntry x))
                       "EQUITY")
      with (fun x => String.eqb (Analytics.entryAssetClass x) "EQUITY").
    destruct (Array_find _ a) as [e|]; [|reflexivity]. simpl.
    now destruct (gtb (Analytics.weight e) (8 # 10)). }
  assert (E4 : Js.Analytics.fixedIncomeInsight (map presentEntry a)
               = Js.Return (Analytics.fixedIncomeInsight a)).
  { unfold Js.Analytics.fixedIncomeInsight, Analytics.fixedIncomeInsight.
    rewrite find_map.
    change (fun x => String.eqb (Js.Analytics.entryAssetClass (presentEntry x))
                       "FIXED_INCOME")
      with (fun x => String.eqb (Analytics.entryAssetClass x) "FIXED_INCOME").
    destruct (Array_find _ a) as [e|]; [|reflexivity]. simpl.
    now destruct (ltb (Analytics.weight e) (5 # 100)). }
  rewrite E1, E2, E3, E4. reflexivity.
Qed.

Lemma Js_getAnalytics (now : string) (l : list PortfolioPosition) :
  Js.Analytics.getAnalytics now (map received l)
  = Js.Return (presentAnalytics (Analytics.getAnalytics now l)).
Proof.
  unfold Js.Analytics.getAnalytics.
  rewrite Js_Analytics_concentration. cbn [Js.bind].
  rewrite Js_Analytics_allocation, Js_Analytics_diversification,
    Js_Analytics_insights.
  reflexivity.
Qed.

(** *** ai/ai.service.ts *)

Lemma Js_Ai_holdings (userCurrency : string) (l : list PortfolioPosition) :
  map (Js.Ai.toHolding userCurrency) (map received l)
  = map presentHolding (map (Ai.toHolding userCurrency) l).
Proof.
  rewrite !map_map. apply map_ext. intros p.
  unfold Js.Ai.toHolding, Ai.toHolding, presentHolding, received. simpl.
  now rewrite !nullish_field.
Qed.

Lemma Js_Ai_concentration (l : list PortfolioPosition) :
  Js.Ai.computeConcentration (map received l)
  = Js.Return (presentAiConcentration (Ai.computeConcentration l)).
Proof.
  rewrite Ai_top. unfold Js.Ai.computeConcentration.
  destruct l as [|p l]; [reflexivity|].
  change (map received (p :: l)) with (received p :: map received l) at 1.
  cbv iota beta.
  change (received p :: map received l) with (map received (p :: l)).
  rewrite sort_received, hhi_received.
  destruct (sort_desc alloc (p :: l)) as [|top rest] eqn:E.
  - apply sort_desc_nil_inv in E. discriminate.
  - simpl. unfold presentAiConcentration. simpl.
    now rewrite nullish_field.
Qed.

Lemma Js_Ai_allocation (l : list PortfolioPosition) :
  Js.Ai.computeAssetAllocation (map received l)
  = map presentAiEntry (Ai.computeAssetAllocation l).
Proof.
  unfold Js.Ai.computeAssetAllocation, Ai.computeAssetAllocation.
  rewrite classMap_received, map_map.
  rewrite (map_ext _ (fun kv => presentAiEntry (Ai.toEntry kv)))
    by (now intros [k [w v]]).
  rewrite <- map_map. apply Js_sort_map.
  intros x y. apply gt_sub.
Qed.

Lemma Js_Ai_counted (a : list Ai.AiSummaryAssetAllocation) :
  filter Js.Ai.counted (map presentAiEntry a)
  = map presentAiEntry (filter Ai.counted a).
Proof.
  induction a as [|e a IH]; simpl; [reflexivity|].
  change (Js.Ai.counted (presentAiEntry e)) with (Ai.counted e).
  destruct (Ai.counted e); simpl; now rewrite IH.
Qed.

Lemma Js_Ai_classHhi (a : list Ai.AiSummaryAssetAllocation) :
  Js.Ai.classHhi (map presentAiEntry a) = Js.Num (Ai.classHhi a).
Proof.
  unfold Js.Ai.classHhi, Ai.classHhi, Js.Ai.classWeightsAsFraction,
    Ai.classWeightsAsFraction.
  rewrite Js_Ai_counted, map_map.
  assert (G : forall r s,
    fold_left (fun sum w => Js.add sum (Js.mul w w))
      (map (fun x => Js.div (Js.Ai.weight (presentAiEntry x)) (Js.Num 100)) r)
      (Js.Num s)
    = Js.Num (fold_left (fun sum w => sum + w * w)
                (map (fun x => Ai.weight x / 100) r) s)).
  { induction r as [|e r IH]; intros s; simpl; [reflexivity|]. apply IH. }
  apply G.
Qed.

Lemma Js_Ai_diversification (l : list PortfolioPosition)
  (a : list Ai.AiSummaryAssetAllocation) :
  Js.Ai.computeDiversification (map received l) (map presentAiEntry a)
  = presentAiDiversification (Ai.computeDiversification l a).
Proof.
  unfold Js.Ai.computeDiversification, Ai.computeDiversification.
  rewrite notLiquidity_received, Js_Ai_counted, length_map, Js_Ai_classHhi.
  destruct a as [|e a]; reflexivity.
Qed.

Lemma Js_Ai_insights c d a :
  Js.Ai.generateInsights (presentAiConcentration c)
    (presentAiDiversification d) (map presentAiEntry a)
  = Js.Return (Ai.generateInsights c d a).
Proof.
  unfold Js.Ai.generateInsights, Ai.generateInsights.
  assert (E1 : Js.Ai.concentrationInsight (presentAiConcentration c)
               = Js.Return (Ai.concentrationInsight c)).
  { unfold Js.Ai.concentrationInsight, Ai.concentrationInsight.
    destruct c as [s n w h f]. simpl.
    destruct f; [reflexivity|]. now destruct (gtb w 15). }
  assert (E2 : Js.Ai.diversificationInsight (presentAiDiversification d)
               = Js.Return (Ai.diversificationInsight d)).
  { unfold Js.Ai.diversificationInsight, Ai.diversificationInsight.
    destruct d as [s n h t w]. cbn [presentAiDiversification Ai.score
      Ai.assetClassCount Ai.holdingsCount Ai.topAssetClass
      Ai.topAssetClassWeight Js.Ai.score Js.Ai.assetClassCount
      Js.Ai.holdingsCount Js.Ai.topAssetClass Js.Ai.topAssetClassWeight].
    change (Js.Num 70) with (Js.Num (inject_Z 70)).
    change (Js.Num 40) with (Js.Num (inject_Z 40)).
    rewrite (ge_integer s 70), (ge_integer s 40), render_integer.
    destruct (s >=? 70)%Z; [reflexivity|].
    now destruct (s >=? 40)%Z. }
  assert (E3 : Js.Ai.equityInsight (map presentAiEntry a)
               = Js.Return (Ai.equityInsight a)).
  { unfold Js.Ai.equityInsight, Ai.equityInsight.
    rewrite find_map.
    change (fun x => String.eqb (Js.Ai.entryAssetClass (presentAiEntry x))
                       "EQUITY")
      with (fun x => String.eqb (Ai.entryAssetClass x) "EQUITY").
    destruct (Array_find _ a) as [e|]; [|reflexivity]. simpl.
    now destruct (gtb (Ai.weight e) 80). }
  assert (E4 : Js.Ai.fixedIncomeInsight (map presentAiEntry a)
               = Js.Return (Ai.fixedIncomeInsight a)).
  { unfold Js.Ai.fixedIncomeInsight, Ai.fixedIncomeInsight.
    rewrite find_map.
    change (fun x => String.eqb (Js.Ai.entryAssetClass (presentAiEntry x))
                       "FIXED_INCOME")
      with (fun x => String.eqb (Ai.entryAssetClass x) "FIXED_INCOME").
    destruct (Array_find _ a) as [e|]; [|reflexivity]. simpl.
    now destruct (ltb (Ai.weight e) 5). }
  rewrite E1, E2, E3, E4. reflexivity.
Qed.

Lemma Js_getSummary (now userCurrency : string)
  (l : list PortfolioPosition) :
  Js.Ai.getSummary now userCurrency (map received l)
  = Js.Return (presentSummary (Ai.getSummary now userCurrency l)).
Proof.
  unfold Js.Ai.getSummary. rewrite sort_received.
  rewrite Js_Ai_concentration. cbn [Js.bind].
  rewrite Js_Ai_allocation, Js_Ai_diversification, Js_Ai_insights,
    Js_Ai_holdings.
  reflexivity.
Qed.

(** *** No exception, whatever the fields hold *)

Lemma pct1_returns (x : Js.value) :
  exists s, Js.Analytics.pct1 x = Js.Return s.
Proof. apply toFixed_returns, lift2_defined. Qed.

Lemma Js_Analytics_concentration_returns
  (positions : list Js.PortfolioPosition) :
  exists c,
    Js.Analytics.computeConcentrationRisk positions = Js.Return c
    /\ Js.Analytics.herfindahlIndex c <> Js.Undefined.
Proof.
  unfold Js.Analytics.computeConcentrationRisk.
  destruct positions as [|p l].
  - eexists. split; [reflexivity|]. discriminate.
  - destruct (Js_sort_hd Js.byAllocation (p :: l)) as [top ->];
      [discriminate|].
    eexists. split; [reflexivity|]. apply lift2_defined.
Qed.

Lemma Js_Analytics_insights_return c d a :
  Js.Analytics.herfindahlIndex c <> Js.Undefined ->
  exists i, Js.Analytics.generateInsights c d a = Js.Return i.
Proof.
  intros H. unfold Js.Analytics.generateInsights.
  assert (E1 : exists i, Js.Analytics.concentrationInsight c = Js.Return i).
  { unfold Js.Analytics.concentrationInsight.
    destruct (pct1_returns (Js.Analytics.topHoldingWeight c)) as [w ->].
    destruct (toFixed_returns 4 _ H) as [h ->].
    destruct (Js.Analytics.isHighlyConcentrated c); [simpl; eauto|].
    destruct (Js.gt _ _); simpl; eauto. }
  assert (E2 : exists i, Js.Analytics.diversificationInsight d = Js.Return i).
  { unfold Js.Analytics.diversificationInsight.
    destruct (pct1_returns (Js.Analytics.topAssetClassWeight d)) as [w ->].
    destruct (Js.ge _ (Js.Num 70)); [eauto|].
    destruct (Js.ge _ (Js.Num 40)); simpl; eauto. }
  assert (E3 : exists i, Js.Analytics.equityInsight a = Js.Return i).
  { unfold Js.Analytics.equityInsight.
    destruct (Array_find _ a) as [e|]; [|eauto].
    destruct (pct1_returns (Js.Analytics.weight e)) as [w ->].
    destruct (Js.gt _ _); simpl; eauto. }
  assert (E4 : exists i, Js.Analytics.fixedIncomeInsight a = Js.Return i).
  { unfold Js.Analytics.fixedIncomeInsight.
    destruct (Array_find _ a) as [e|]; [|eauto].
    destruct (Js.lt _ _); eauto. }
  destruct E1 as [i1 ->], E2 as [i2 ->], E3 as [i3 ->], E4 as [i4 ->].
  simpl. eauto.
Qed.

Lemma Js_getAnalytics_returns (now : string)
  (positions : list Js.PortfolioPosition) :
  exists r, Js.Analytics.getAnalytics now positions = Js.Return r.
Proof.
  unfold Js.Analytics.getAnalytics.
  destruct (Js_Analytics_concentration_returns positions) as (c & -> & H).
  cbn [Js.bind].
  destruct (Js_Analytics_insights_return c
              (Js.Analytics.computeDiversification positions
                 (Js.Analytics.computeAssetAllocation positions))
              (Js.Analytics.computeAssetAllocation positions) H) as [i ->].
  simpl. eauto.
Qed.

Lemma Js_Ai_concentration_returns (positions : list Js.PortfolioPosition) :
  exists c,
    Js.Ai.computeConcentration positions = Js.Return c
    /\ Js.Ai.topHoldingWeight c <> Js.Undefined
    /\ Js.Ai.herfindahlIndex c <> Js.Undefined.
Proof.
  unfold Js.Ai.computeConcentration.
  destruct positions as [|p l].
  - eexists. split; [reflexivity|]. split; discriminate.
  - destruct (Js_sort_hd Js.byAllocation (p :: l)) as [top ->];
      [discriminate|].
    eexists. split; [reflexivity|]. split; apply lift2_defined.
Qed.

Lemma Js_Ai_allocation_defined (positions : list Js.PortfolioPosition) :
  Forall (fun a => Js.Ai.weight a <> Js.Undefined)
    (Js.Ai.computeAssetAllocation positions).
Proof.
  apply Forall_forall. intros a I.
  unfold Js.Ai.computeAssetAllocation in I. apply Js_sort_In in I.
  apply in_map_iff in I as [[k [w v]] [<- _]]. apply lift2_defined.
Qed.

Lemma Js_Ai_insights_return c d a :
  Js.Ai.topHoldingWeight c <> Js.Undefined ->
  Js.Ai.herfindahlIndex c <> Js.Undefined ->
  Js.Ai.topAssetClassWeight d <> Js.Undefined ->
  Forall (fun e => Js.Ai.weight e <> Js.Undefined) a ->
  exists i, Js.Ai.generateInsights c d a = Js.Return i.
Proof.
  intros Hw Hh Ht Ha. unfold Js.Ai.generateInsights.
  assert (E1 : exists i, Js.Ai.concentrationInsight c = Js.Return i).
  { unfold Js.Ai.concentrationInsight.
    destruct (toFixed_returns 1 _ Hw) as [w ->].
    destruct (toFixed_returns 4 _ Hh) as [h ->].
    destruct (Js.Ai.isHighlyConcentrated c); [simpl; eauto|].
    destruct (Js.gt _ _); simpl; eauto. }
  assert (E2 : exists i, Js.Ai.diversificationInsight d = Js.Return i).
  { unfold Js.Ai.diversificationInsight.
    destruct (toFixed_returns 1 _ Ht) as [w ->].
    destruct (Js.ge _ (Js.Num 70)); [eauto|].
    destruct (Js.ge _ (Js.Num 40)); simpl; eauto. }
  assert (E3 : exists i, Js.Ai.equityInsight a = Js.Return i).
  { unfold Js.Ai.equityInsight.
    destruct (Array_find _ a) as [e|] eqn:F; [|eauto].
    apply find_some in F as [I _]. rewrite Forall_forall in Ha.
    destruct (toFixed_returns 1 _ (Ha _ I)) as [w ->].
    destruct (Js.gt _ _); simpl; eauto. }
  assert (E4 : exists i, Js.Ai.fixedIncomeInsight a = Js.Return i).
  { unfold Js.Ai.fixedIncomeInsight.
    destruct (Array_find _ a) as [e|]; [|eauto].
    destruct (Js.lt _ _); eauto. }
  destruct E1 as [i1 ->], E2 as [i2 ->], E3 as [i3 ->], E4 as [i4 ->].
  simpl. eauto.
Qed.

Lemma Js_getSummary_returns (now userCurrency : string)
  (positions : list Js.PortfolioPosition) :
  exists s, Js.Ai.getSummary now userCurrency positions = Js.Return s.
Proof.
  unfold Js.Ai.getSummary.
  destruct (Js_Ai_concentration_returns
              (Js.sort Js.byAllocation positions)) as (c & -> & Hw & Hh).
  cbn [Js.bind].
  destruct (Js_Ai_insights_return c
              (Js.Ai.computeDiversification
                 (Js.sort Js.byAllocation positions)
                 (Js.Ai.computeAssetAllocation
                    (Js.sort Js.byAllocation positions)))
              (Js.Ai.computeAssetAllocation
                 (Js.sort Js.byAllocation positions)) Hw Hh) as [i ->].
  - unfold Js.Ai.computeDiversification. cbn [Js.Ai.topAssetClassWeight].
    apply nullish_defined. discriminate.
  - apply Js_Ai_allocation_defined.
  - simpl. eauto.
Qed.

(** C9, as stated, fails: of a holding that has a symbol and nothing else,
    the missing name comes out as the symbol and the missing currency as
    the user's currency, neither of them the empty string or UNKNOWN. *)
Lemma missing_name_and_currency :
  name symbol_only = None /\ currency symbol_only = None
  /\ ~ In (Analytics.topHoldingName
             (Analytics.concentrationRisk
                (Analytics.getAnalytics "" [symbol_only])))
          [""; "UNKNOWN"]
  /\ ~ Forall (fun h => In (Ai.holdingCurrency h) [""; "UNKNOWN"])
         (Ai.holdings (Ai.getSummary "" "USD" [symbol_only])).
Proof.
  repeat split.
  - simpl. intros [H|[H|[]]]; discriminate H.
  - intros H. inversion H as [|? ? Hh _]; subst.
    simpl in Hh. destruct Hh as [E|[E|[]]]; discriminate E.
Qed.

(** An allocation that is present but [NaN] is not a missing field: no
    default replaces it, and the index and the score come out as [NaN]. *)
Lemma nan_allocation_is_kept :
  exists r,
    Js.Analytics.getAnalytics "" [nan_holding] = Js.Return r
    /\ Js.Analytics.herfindahlIndex (Js.Analytics.concentrationRisk r)
       = Js.NaN
    /\ Js.Analytics.score (Js.Analytics.diversification r) = Js.NaN.
Proof. eexists. split; [reflexivity|]. split; reflexivity. Qed.

(** C9, amended.  Neither service throws, whatever the fields of the
    holdings hold.  On holdings with absent fields, the response is the
    one computed after every absent field has been filled in (0 for a
    number, the empty string for the symbol, the symbol or else the empty
    string for the name, UNKNOWN for the asset class and sub-class, the
    user's currency for the currency), and every field of it is present:
    each string is there and each number is a number, so no [undefined]
    reaches the arithmetic or the output. *)
Theorem absent_fields_as_defaults (now userCurrency : string) :
  (forall positions : list Js.PortfolioPosition,
     (exists r, Js.Analytics.getAnalytics now positions = Js.Return r)
     /\ (exists s,
           Js.Ai.getSummary now userCurrency positions = Js.Return s))
  /\ (forall positions : list PortfolioPosition,
        Js.Analytics.getAnalytics now (map received positions)
        = Js.Return
            (presentAnalytics
               (Analytics.getAnalytics now
                  (map (withDefaults userCurrency) positions)))
        /\ Js.Ai.getSummary now userCurrency (map received positions)
           = Js.Return
               (presentSummary
                  (Ai.getSummary now userCurrency
                     (map (withDefaults userCurrency) positions)))).
Proof.
  split.
  - intros positions. split.
    + apply Js_getAnalytics_returns.
    + apply Js_getSummary_returns.
  - intros positions.
    rewrite Analytics_getAnalytics_fill, Ai_getSummary_fill.
    split; [apply Js_getAnalytics|apply Js_getSummary].
Qed.

(** ** The arrays of a call *)

Lemma assign_last (s : Store.store) (v w : list PortfolioPosition) :
  Store.assign (List.length s) w (s ++ [v])%list = (s ++ [w])%list.
Proof. induction s as [|x s IH]; simpl; [reflexivity|]. now rewrite IH. Qed.

Lemma nth_last (s : Store.store) (v : list PortfolioPosition) :
  nth (List.length s) (s ++ [v])%list [] = v.
Proof. induction s as [|x s IH]; simpl; [reflexivity|exact IH]. Qed.

Lemma nth_made (s made : Store.store) (a : Store.ref) :
  (a < List.length s)%nat -> nth a (s ++ made)%list [] = nth a s [].
Proof. intros H. now apply app_nth1. Qed.

Lemma nth_nonempty (s : Store.store) (a : Store.ref) p ps :
  nth a s [] = p :: ps -> (a < List.length s)%nat.
Proof.
  intros E. destruct (Nat.lt_ge_cases a (List.length s)) as [L|G]; [exact L|].
  rewrite (nth_overflow s [] G) in E. discriminate.
Qed.

Lemma grows_refl (s : Store.store) : grows s s.
Proof. exists []. now rewrite app_nil_r. Qed.

Lemma grows_nth (s s' : Store.store) (a : Store.ref) :
  grows s s' -> (a < List.length s)%nat -> nth a s' [] = nth a s [].
Proof. intros [m ->]. apply nth_made. Qed.

(** The helpers sort a copy: the array they are given stays as it is. *)
Lemma run_computeConcentrationRisk (positions : Store.ref)
  (s : Store.store) :
  exists s',
    Store.AnalyticsService.computeConcentrationRisk positions s
    = (Analytics.computeConcentrationRisk (nth positions s []), s')
    /\ grows s s'.
Proof.
  unfold Store.AnalyticsService.computeConcentrationRisk.
  cbv [Store.bind Store.elements Store.spread Store.newArray Store.sort
       Store.ret].
  destruct (nth positions s []) as [|p0 ps] eqn:E.
  - exists s. split; [reflexivity|apply grows_refl].
  - pose proof (nth_nonempty _ _ _ _ E) as L.
    rewrite nth_last, assign_last, nth_last, (nth_made s _ _ L), E.
    eexists. split; [reflexivity|]. now exists [sort_desc alloc (p0 :: ps)].
Qed.

Lemma run_computeConcentration (positions : Store.ref) (s : Store.store) :
  exists s',
    Store.AiService.computeConcentration positions s
    = (Ai.computeConcentration (nth positions s []), s')
    /\ grows s s'.
Proof.
  unfold Store.AiService.computeConcentration.
  cbv [Store.bind Store.elements Store.spread Store.newArray Store.sort
       Store.ret].
  destruct (nth positions s []) as [|p0 ps] eqn:E.
  - exists s. split; [reflexivity|apply grows_refl].
  - pose proof (nth_nonempty _ _ _ _ E) as L.
    rewrite nth_last, assign_last, nth_last, (nth_made s _ _ L), E.
    eexists. split; [reflexivity|]. now exists [sort_desc alloc (p0 :: ps)].
Qed.

(** The dashboard works on a new array with the holdings in their order. *)
Lemma run_getAnalytics (now : string) (holdings : Store.ref)
  (s : Store.store) :
  exists s',
    Store.AnalyticsService.getAnalytics now holdings s
    = (Analytics.getAnalytics now (nth holdings s []), s')
    /\ grows s s'.
Proof.
  unfold Store.AnalyticsService.getAnalytics, Store.Object_values.
  unfold Store.bind at 1 2. unfold Store.elements at 1.
  unfold Store.newArray at 1. unfold Store.bind at 1.
  destruct (run_computeConcentrationRisk (List.length s)
              (s ++ [nth holdings s []])%list) as (s1 & E & [made ->]).
  rewrite E, nth_last.
  cbv [Store.bind Store.AnalyticsService.computeAssetAllocation
       Store.AnalyticsService.computeDiversification Store.elements
       Store.ret].
  assert (N : nth (List.length s) ((s ++ [nth holdings s []]) ++ made)%list []
              = nth holdings s []).
  { rewrite nth_made by (rewrite length_app; simpl; lia). apply nth_last. }
  rewrite N. eexists. split; [reflexivity|].
  exists (nth holdings s [] :: made). now rewrite <- app_assoc.
Qed.

(** The summary sorts its new array in place; what its helpers are given
    afterwards is the sorted array. *)
Lemma run_getSummary (now userCurrency : string) (holdings : Store.ref)
  (s : Store.store) :
  exists s',
    Store.AiService.getSummary now userCurrency holdings s
    = (Ai.getSummary now userCurrency (nth holdings s []), s')
    /\ grows s s'.
Proof.
  unfold Store.AiService.getSummary, Store.Object_values.
  unfold Store.bind at 1 2. unfold Store.elements at 1.
  unfold Store.newArray at 1. unfold Store.bind at 1.
  unfold Store.sort at 1. rewrite nth_last, assign_last.
  unfold Store.bind at 1. unfold Store.elements at 1. rewrite nth_last.
  unfold Store.bind at 1.
  destruct (run_computeConcentration (List.length s)
              (s ++ [sort_desc alloc (nth holdings s [])])%list)
    as (s1 & E & [made ->]).
  rewrite E, nth_last.
  cbv [Store.bind Store.AiService.computeAssetAllocation
       Store.AiService.computeDiversification Store.elements Store.ret].
  assert (N : nth (List.length s)
                ((s ++ [sort_desc alloc (nth holdings s [])]) ++ made)%list []
              = sort_desc alloc (nth holdings s [])).
  { rewrite nth_made by (rewrite length_app; simpl; lia). apply nth_last. }
  rewrite N. eexists. split; [reflexivity|].
  exists (sort_desc alloc (nth holdings s []) :: made).
  now rewrite <- app_assoc.
Qed.

(** C7, as stated, fails: two calls on the same (empty) holdings list at
    different clock readings return different response objects. *)
Lemma two_calls_differ :
  Analytics.getAnalytics "2026-01-01T00:00:00.000Z" []
  <> Analytics.getAnalytics "2026-01-01T00:00:00.001Z" [].
Proof.
  intros E. apply (f_equal Analytics.computedAt) in E. discriminate E.
Qed.

(** C7, amended.  A call of either service leaves every array it found
    as it was, the holdings among them: what it sorts are arrays it has
    made itself.  So a second call finds the same holdings and returns the
    response of the first with [computedAt] replaced by its own clock
    reading, and the complete responses are equal if and only if the two
    clock readings are.  Each response is the one computed from the
    elements of the holdings, the summary's from their sorted order; the
    insight list is computed from the three returned metric values. *)
Theorem repeated_calls (t1 t2 userCurrency : string) (holdings : Store.ref)
  (s : Store.store) :
  (holdings < List.length s)%nat ->
  let first := Store.AnalyticsService.getAnalytics t1 holdings s in
  let second := Store.AnalyticsService.getAnalytics t2 holdings (snd first) in
  let first' := Store.AiService.getSummary t1 userCurrency holdings s in
  let second' :=
    Store.AiService.getSummary t2 userCurrency holdings (snd first') in
  (grows s (snd first)
   /\ nth holdings (snd first) [] = nth holdings s []
   /\ fst first = Analytics.getAnalytics t1 (nth holdings s [])
   /\ fst second
      = Analytics.mkPortfolioAnalyticsResponse
          (Analytics.assetAllocation (fst first))
          (Analytics.concentrationRisk (fst first))
          (Analytics.diversification (fst first))
          (Analytics.insights (fst first)) t2
   /\ (fst first = fst second <-> t1 = t2)
   /\ Analytics.insights (fst first)
      = Analytics.generateInsights (Analytics.concentrationRisk (fst first))
          (Analytics.diversification (fst first))
          (Analytics.assetAllocation (fst first)))
  /\ (grows s (snd first')
      /\ nth holdings (snd first') [] = nth holdings s []
      /\ fst first' = Ai.getSummary t1 userCurrency (nth holdings s [])
      /\ fst second'
         = Ai.mkAiSummaryResponse userCurrency (Ai.holdings (fst first'))
             (Ai.concentration (fst first')) (Ai.diversification (fst first'))
             (Ai.assetAllocation (fst first')) (Ai.insights (fst first')) t2
      /\ (fst first' = fst second' <-> t1 = t2)
      /\ Ai.insights (fst first')
         = Ai.generateInsights (Ai.concentration (fst first'))
             (Ai.diversification (fst first'))
             (Ai.assetAllocation (fst first'))).
Proof.
  intros L. cbv zeta. split.
  - destruct (run_getAnalytics t1 holdings s) as (s1 & E1 & G1).
    rewrite E1. cbn [fst snd].
    destruct (run_getAnalytics t2 holdings s1) as (s2 & E2 & G2).
    rewrite E2. cbn [fst snd]. rewrite (grows_nth _ _ _ G1 L).
    repeat split; trivial.
    + intros E. now apply (f_equal Analytics.computedAt) in E.
    + now intros ->.
  - destruct (run_getSummary t1 userCurrency holdings s) as (s1 & E1 & G1).
    rewrite E1. cbn [fst snd].
    destruct (run_getSummary t2 userCurrency holdings s1) as (s2 & E2 & G2).
    rewrite E2. cbn [fst snd]. rewrite (grows_nth _ _ _ G1 L).
    repeat split; trivial.
    + intros E. now apply (f_equal Ai.computedAt) in E.
    + now intros ->.
Qed.

Lemma repeated_calls_witness :
  (0 < List.length sixty_forty_store)%nat
  /\ fst (Store.AnalyticsService.getAnalytics "t2" 0%nat
            (snd (Store.AnalyticsService.getAnalytics "t1" 0%nat
                    sixty_forty_store)))
     = Analytics.mkPortfolioAnalyticsResponse
         (Analytics.assetAllocation
            (fst (Store.AnalyticsService.getAnalytics "t1" 0%nat
                    sixty_forty_store)))
         (Analytics.concentrationRisk
            (fst (Store.AnalyticsService.getAnalytics "t1" 0%nat
                    sixty_forty_store)))
         (Analytics.diversification
            (fst (Store.AnalyticsService.getAnalytics "t1" 0%nat
                    sixty_forty_store)))
         (Analytics.insights
            (fst (Store.AnalyticsService.getAnalytics "t1" 0%nat
                    sixty_forty_store))) "t2".
Proof.
  assert (L : (0 < List.length sixty_forty_store)%nat) by (simpl; lia).
  split; [exact L|].
  exact (proj1 (proj2 (proj2 (proj2 (proj1
           (repeated_calls "t1" "t2" "USD" 0%nat sixty_forty_store L)))))).
Defined.

(** * Further properties of the two services *)

(** ** The allocation list *)

Lemma classMap_step_keys m p c :
  In c (map fst (classMap_step m p)) <-> c = classOf p \/ In c (map fst m).
Proof. unfold classMap_step. fold (classOf p). apply Map_set_keys. Qed.

Lemma classMap_keys positions c :
  In c (map fst (classMap positions))
  <-> exists p, In p positions /\ classOf p = c.
Proof.
  unfold classMap.
  assert (G : forall m,
    In c (map fst (fold_left classMap_step positions m))
    <-> In c (map fst m) \/ exists p, In p positions /\ classOf p = c).
  { induction positions as [|q l IH]; intros m; simpl.
    - split; [tauto|]. intros [H|[p [[] _]]]. exact H.
    - rewrite IH, classMap_step_keys. split.
      + intros [[->|H]|[p [Hp E]]]; eauto.
      + intros [H|[p [[->|Hp] E]]]; eauto. }
  rewrite G. simpl. split; [intros [[]|H]; exact H|tauto].
Qed.

(** X1.  The allocation list of either service is sorted by descending
    weight, has one entry per asset class, and its classes are exactly the
    classes of the holdings (UNKNOWN standing for an absent class). *)
Theorem allocation_structure (positions : list PortfolioPosition) :
  let a := Analytics.computeAssetAllocation positions in
  let a' := Ai.computeAssetAllocation positions in
  (sorted_desc Analytics.weight a
   /\ NoDup (map Analytics.entryAssetClass a)
   /\ forall c, In c (map Analytics.entryAssetClass a)
                <-> exists p, In p positions
                              /\ assetClass p ?? "UNKNOWN" = c)
  /\ (sorted_desc Ai.weight a'
   /\ NoDup (map Ai.entryAssetClass a')
   /\ forall c, In c (map Ai.entryAssetClass a')
                <-> exists p, In p positions
                              /\ assetClass p ?? "UNKNOWN" = c).
Proof.
  cbv zeta.
  unfold Analytics.computeAssetAllocation, Ai.computeAssetAllocation.
  pose proof (classMap_NoDup positions) as ND.
  split; (split; [apply sort_desc_sorted|split]).
  - eapply Permutation_NoDup;
      [apply Permutation_map; symmetry; apply sort_desc_perm|].
    now rewrite Analytics_entries_keys.
  - intros c. rewrite <- (classMap_keys positions c).
    rewrite <- Analytics_entries_keys.
    split; apply Permutation_in, Permutation_map;
      [|symmetry]; apply sort_desc_perm.
  - eapply Permutation_NoDup;
      [apply Permutation_map; symmetry; apply sort_desc_perm|].
    now rewrite Ai_entries_keys.
  - intros c. rewrite <- (classMap_keys positions c).
    rewrite <- Ai_entries_keys.
    split; apply Permutation_in, Permutation_map;
      [|symmetry]; apply sort_desc_perm.
Qed.

Lemma existsb_false_filter {A : Type} (f : A -> bool) (l : list A) :
  existsb f l = false -> filter f l = [].
Proof.
  induction l as [|x l IH]; simpl; [reflexivity|].
  destruct (f x); simpl; [discriminate|exact IH].
Qed.

Lemma fold_upd_sums c positions o :
  oeq (fold_left (upd c) positions o)
    (if existsb (inClass c) positions
     then Some (fst (o ?? (0, 0)) + classWeight c positions,
                snd (o ?? (0, 0)) + classValue c positions)
     else o).
Proof.
  unfold classWeight, classValue.
  revert o. induction positions as [|p l IH]; intros o.
  - apply oeq_refl.
  - cbn [fold_left existsb filter].
    eapply oeq_trans; [apply IH|].
    unfold upd. change (String.eqb (classOf p) c) with (inClass c p).
    destruct (inClass c p); cbn [orb]; [|apply oeq_refl].
    destruct (existsb (inClass c) l) eqn:E;
      [|rewrite (existsb_false_filter _ _ E)];
      cbn [oeq map sumQ fold_right from_option fst snd]; unfold veq;
      cbn [fst snd]; unfold sumQ; split; lra.
Qed.

Lemma Map_get_classMap_sums c positions :
  oeq (Map_get c (classMap positions))
    (if existsb (inClass c) positions
     then Some (classWeight c positions, classValue c positions)
     else None).
Proof.
  unfold classMap. rewrite Map_get_fold. simpl Map_get.
  eapply oeq_trans; [apply fold_upd_sums|].
  destruct (existsb (inClass c) positions); simpl; [|exact I].
  unfold veq; simpl; split; lra.
Qed.


(** ** The top holding *)

(** The first element of the sorted array is the first element of the
    input that attains the largest key. *)
Lemma sort_desc_head {A : Type} (key : A -> Q) (l : list A) (top : A)
  (rest : list A) :
  sort_desc key l = top :: rest ->
  exists l1 l2,
    l = (l1 ++ top :: l2)%list
    /\ Forall (fun x => key x < key top) l1
    /\ Forall (fun x => key x <= key top) l2.
Proof.
  revert top rest. induction l as [|x l IH]; intros top rest E;
    [discriminate|].
  simpl in E. destruct (sort_desc key l) as [|y r] eqn:S.
  - apply sort_desc_nil_inv in S. subst l. injection E as <- <-.
    exists [], []. repeat split; constructor.
  - destruct (IH y r eq_refl) as (l1 & l2 & -> & H1 & H2).
    simpl in E. destruct (gtb (key y) (key x)) eqn:G.
    + injection E as <- <-. apply gtb_true in G.
      exists (x :: l1), l2. repeat split; trivial. now constructor.
    + injection E as <- <-. apply gtb_false in G.
      exists [], (l1 ++ y :: l2)%list. repeat split; [constructor|].
      apply Forall_app. split.
      * eapply Forall_impl; [|exact H1]. simpl. intros z Hz. lra.
      * constructor; [exact G|].
        eapply Forall_impl; [|exact H2]. simpl. intros z Hz. lra.
Qed.

(** X3.  For a non-empty holdings list, the top holding of either service
    is the first holding, in input order, whose allocation (absent: 0) is
    the largest: every earlier holding has a strictly smaller allocation
    and no later one has a larger one.  Its symbol, name (falling back to
    the symbol) and weight are what the response carries. *)
Theorem top_holding_is_first_maximum (positions : list PortfolioPosition) :
  positions <> [] ->
  exists l1 top l2,
    positions = (l1 ++ top :: l2)%list
    /\ Forall (fun p => alloc p < alloc top) l1
    /\ Forall (fun p => alloc p <= alloc top) l2
    /\ (let c := Analytics.computeConcentrationRisk positions in
        Analytics.topHoldingSymbol c = symbol top ?? ""
        /\ Analytics.topHoldingName c
           = or_else (name top) (symbol top) ?? ""
        /\ Analytics.topHoldingWeight c = alloc top)
    /\ (let c := Ai.computeConcentration positions in
        Ai.topHoldingSymbol c = symbol top ?? ""
        /\ Ai.topHoldingName c = or_else (name top) (symbol top) ?? ""
        /\ Ai.topHoldingWeight c = round_pct (alloc top)).
Proof.
  intros Hne. rewrite Analytics_top, Ai_top.
  destruct (sort_desc alloc positions) as [|top rest] eqn:S.
  - apply sort_desc_nil_inv in S. contradiction.
  - destruct (sort_desc_head alloc positions top rest S)
      as (l1 & l2 & E & H1 & H2).
    exists l1, top, l2. repeat split; trivial.
Qed.

Lemma top_holding_is_first_maximum_witness :
  tied_classes <> []
  /\ exists l1 top l2,
       tied_classes = (l1 ++ top :: l2)%list
       /\ Forall (fun p => alloc p < alloc top) l1
       /\ Analytics.topHoldingWeight
            (Analytics.computeConcentrationRisk tied_classes) = alloc top.
Proof.
  assert (Hne : tied_classes <> []) by discriminate.
  split; [exact Hne|].
  destruct (top_holding_is_first_maximum tied_classes Hne)
    as (l1 & top & l2 & E & H1 & _ & (_ & _ & W) & _).
  exists l1, top, l2. repeat split; assumption.
Defined.

(** ** The counts of the diversification score *)

Lemma mapCount_set k v m :
  (mapCount (Map_set k v m)
   <= mapCount m + (if countedClass k then 1 else 0))%nat.
Proof.
  unfold mapCount. induction m as [|[k' v'] m IH].
  - cbn [Map_set filter].
    change (countedKey (k, v)) with (countedClass k).
    destruct (countedClass k); simpl; lia.
  - cbn [Map_set]. destruct (String.eqb k' k) eqn:E; cbn [filter].
    + change (countedKey (k', v)) with (countedClass k').
      change (countedKey (k', v')) with (countedClass k').
      destruct (countedClass k'), (countedClass k); cbn [List.length]; lia.
    + change (countedKey (k', v')) with (countedClass k').
      destruct (countedClass k'); cbn [List.length]; lia.
Qed.

Lemma counted_notLiquidity p :
  countedClass (classOf p) = true -> notLiquidity p = true.
Proof.
  unfold countedClass, classOf, notLiquidity.
  destruct (assetClass p) as [c|]; simpl.
  - intros H. now apply andb_true_iff in H.
  - discriminate.
Qed.

Lemma mapCount_classMap positions :
  (mapCount (classMap positions)
   <= List.length (filter notLiquidity positions))%nat.
Proof.
  unfold classMap.
  assert (G : forall m,
    (mapCount (fold_left classMap_step positions m)
     <= mapCount m + List.length (filter notLiquidity positions))%nat).
  { induction positions as [|p l IH]; intros m; simpl; [lia|].
    eapply Nat.le_trans; [apply IH|].
    pose proof (mapCount_set (classOf p)
                  (fst (Map_get (classOf p) m ?? (0, 0)) + alloc p,
                   snd (Map_get (classOf p) m ?? (0, 0))
                   + (valueInBaseCurrency p ?? 0)) m) as S.
    change (Map_set (classOf p) _ m) with (classMap_step m p) in S.
    pose proof (counted_notLiquidity p) as C.
    destruct (countedClass (classOf p)).
    - rewrite (C eq_refl). simpl. lia.
    - destruct (notLiquidity p); simpl; lia. }
  apply (G []).
Qed.

Lemma Map_set_length {V : Type} k (v : V) m :
  (List.length (Map_set k v m) <= S (List.length m))%nat.
Proof.
  induction m as [|[k' v'] m IH]; simpl; [lia|].
  destruct (String.eqb k' k); simpl; lia.
Qed.

Lemma classMap_length positions :
  (List.length (classMap positions) <= List.length positions)%nat.
Proof.
  unfold classMap.
  assert (G : forall m,
    (List.length (fold_left classMap_step positions m)
     <= List.length m + List.length positions)%nat).
  { induction positions as [|p l IH]; intros m; simpl; [lia|].
    eapply Nat.le_trans; [apply IH|].
    pose proof (Map_set_length (classOf p)
                  (fst (Map_get (classOf p) m ?? (0, 0)) + alloc p,
                   snd (Map_get (classOf p) m ?? (0, 0))
                   + (valueInBaseCurrency p ?? 0)) m) as S.
    change (Map_set (classOf p) _ m) with (classMap_step m p) in S. lia. }
  apply (G []).
Qed.

(** X4.  In the response of either service the number of counted asset
    classes is at most the number of counted holdings, which is at most the
    number of holdings; and there are at least as many allocation entries
    as counted classes and at most as many as holdings. *)
Theorem diversification_counts (now userCurrency : string)
  (positions : list PortfolioPosition) :
  let r := Analytics.getAnalytics now positions in
  let s := Ai.getSummary now userCurrency positions in
  (Analytics.assetClassCount (Analytics.diversification r)
   <= Analytics.holdingsCount (Analytics.diversification r)
   <= List.length positions
   /\ Analytics.assetClassCount (Analytics.diversification r)
      <= List.length (Analytics.assetAllocation r)
      <= List.length positions)%nat
  /\ (Ai.assetClassCount (Ai.diversification s)
      <= Ai.holdingsCount (Ai.diversification s)
      <= List.length positions
      /\ Ai.assetClassCount (Ai.diversification s)
         <= List.length (Ai.assetAllocation s)
         <= List.length positions)%nat.
Proof.
  cbv zeta. unfold Analytics.getAnalytics, Ai.getSummary.
  cbn [Analytics.diversification Analytics.assetAllocation
       Ai.diversification Ai.assetAllocation
       Analytics.computeDiversification Ai.computeDiversification
       Analytics.assetClassCount Analytics.holdingsCount
       Ai.assetClassCount Ai.holdingsCount].
  rewrite Analytics_count_allocation, Ai_count_allocation.
  rewrite Analytics_allocation_length, Ai_allocation_length.
  pose proof (mapCount_classMap positions).
  pose proof (mapCount_classMap (sort_desc alloc positions)).
  pose proof (classMap_length positions).
  pose proof (classMap_length (sort_desc alloc positions)).
  pose proof (filter_length_le notLiquidity positions).
  pose proof (filter_length_le notLiquidity (sort_desc alloc positions)).
  pose proof (filter_length_le countedKey (classMap positions)).
  pose proof (filter_length_le countedKey
                (classMap (sort_desc alloc positions))).
  pose proof (sort_desc_length alloc positions).
  unfold mapCount in *. lia.
Qed.

(** ** The dominant asset class *)

Lemma round4_idem (x : Q) : round4 (round4 x) == round4 x.
Proof.
  unfold round4 at 1.
  assert (E : round4 x * 10000 == inject_Z (Math_round (x * 10000))).
  { unfold round4. rewrite div_10000. lra. }
  rewrite (Math_round_comp _ _ E), Math_round_inject. reflexivity.
Qed.

Lemma sorted_desc_head_max {A : Type} (key : A -> Q) (x : A) (l : list A) :
  sorted_desc key (x :: l) -> Forall (fun y => key y <= key x) (x :: l).
Proof.
  intros S. inversion S as [|? ? H _]; subst. constructor; [lra|exact H].
Qed.

Lemma classMap_nil_inv positions : classMap positions = [] -> positions = [].
Proof.
  destruct positions as [|p l]; [reflexivity|]. intros E. exfalso.
  assert (H : In (classOf p) (map fst (classMap (p :: l)))).
  { apply classMap_keys. exists p. split; [now left|reflexivity]. }
  rewrite E in H. exact H.
Qed.

(** X5.  The dominant asset class reported with the score is the first
    entry of the allocation list, and its weight is the largest weight of
    the list; rounding that weight once more, as the dashboard does, does
    not change it.  With no holdings the class is UNKNOWN at weight 0, and
    only then is the allocation list empty. *)
Theorem top_asset_class_is_largest_entry (now userCurrency : string)
  (positions : list PortfolioPosition) :
  let r := Analytics.getAnalytics now positions in
  let s := Ai.getSummary now userCurrency positions in
  match Analytics.assetAllocation r with
  | [] =>
      positions = []
      /\ Analytics.topAssetClass (Analytics.diversification r) = "UNKNOWN"
      /\ Analytics.topAssetClassWeight (Analytics.diversification r) == 0
  | e :: _ =>
      Analytics.topAssetClass (Analytics.diversification r)
      = Analytics.entryAssetClass e
      /\ Analytics.topAssetClassWeight (Analytics.diversification r)
         == Analytics.weight e
      /\ Forall (fun e' => Analytics.weight e' <= Analytics.weight e)
           (Analytics.assetAllocation r)
  end
  /\ match Ai.assetAllocation s with
     | [] =>
         positions = []
         /\ Ai.topAssetClass (Ai.diversification s) = "UNKNOWN"
         /\ Ai.topAssetClassWeight (Ai.diversification s) = 0
     | e :: _ =>
         Ai.topAssetClass (Ai.diversification s) = Ai.entryAssetClass e
         /\ Ai.topAssetClassWeight (Ai.diversification s) = Ai.weight e
         /\ Forall (fun e' => Ai.weight e' <= Ai.weight e)
              (Ai.assetAllocation s)
     end.
Proof.
  cbv zeta. unfold Analytics.getAnalytics, Ai.getSummary.
  cbn [Analytics.diversification Analytics.assetAllocation
       Ai.diversification Ai.assetAllocation].
  split.
  - pose proof (sort_desc_sorted Analytics.weight
                  (map Analytics.toEntry (classMap positions))) as S.
    fold (Analytics.computeAssetAllocation positions) in S.
    destruct (Analytics.computeAssetAllocation positions) as [|e a] eqn:E.
    + repeat split. unfold Analytics.computeAssetAllocation in E.
      apply sort_desc_nil_inv, map_eq_nil in E.
      now apply classMap_nil_inv.
    + unfold Analytics.computeDiversification. simpl.
      pose proof (sorted_desc_head_max _ _ _ S) as M.
      assert (R : round4 (Analytics.weight e) == Analytics.weight e).
      { assert (I : In e (map Analytics.toEntry (classMap positions))).
        { apply (Permutation_in e (sort_desc_perm Analytics.weight _)).
          unfold Analytics.computeAssetAllocation in E. rewrite E.
          now left. }
        apply in_map_iff in I as [[k [w v]] [<- _]]. simpl.
        apply round4_idem. }
      repeat split; trivial.
  - pose proof (sort_desc_sorted Ai.weight
                  (map Ai.toEntry
                     (classMap (sort_desc alloc positions)))) as S.
    fold (Ai.computeAssetAllocation (sort_desc alloc positions)) in S.
    destruct (Ai.computeAssetAllocation (sort_desc alloc positions))
      as [|e a] eqn:E.
    + repeat split. unfold Ai.computeAssetAllocation in E.
      apply sort_desc_nil_inv, map_eq_nil in E.
      apply classMap_nil_inv in E. now apply sort_desc_nil_inv in E.
    + unfold Ai.computeDiversification. simpl.
      pose proof (sorted_desc_head_max _ _ _ S) as M.
      repeat split; trivial.
Qed.

(** ** Independence of the order of the holdings *)

Lemma top_weight_perm (l l' : list PortfolioPosition) :
  Permutation l l' ->
  option_map alloc (hd_error (sort_desc alloc l)) = None
  /\ option_map alloc (hd_error (sort_desc alloc l')) = None
  \/ exists t t',
       hd_error (sort_desc alloc l) = Some t
       /\ hd_error (sort_desc alloc l') = Some t'
       /\ alloc t == alloc t'.
Proof.
  intros P.
  destruct (sort_desc alloc l) as [|t r] eqn:S,
           (sort_desc alloc l') as [|t' r'] eqn:S'.
  - now left.
  - apply sort_desc_nil_inv in S. subst l.
    apply Permutation_nil in P. subst l'. discriminate.
  - apply sort_desc_nil_inv in S'. subst l'.
    apply Permutation_sym, Permutation_nil in P. subst l. discriminate.
  - right. exists t, t'. repeat split.
    pose proof (sort_desc_sorted alloc l) as M. rewrite S in M.
    pose proof (sort_desc_sorted alloc l') as M'. rewrite S' in M'.
    apply sorted_desc_head_max in M, M'.
    rewrite Forall_forall in M, M'.
    assert (I : In t' (t :: r)).
    { rewrite <- S.
      apply (Permutation_in t' (Permutation_sym (sort_desc_perm alloc l))).
      apply (Permutation_in t' (Permutation_sym P)).
      apply (Permutation_in t' (sort_desc_perm alloc l')).
      rewrite S'. now left. }
    assert (I' : In t (t' :: r')).
    { rewrite <- S'.
      apply (Permutation_in t (Permutation_sym (sort_desc_perm alloc l'))).
      apply (Permutation_in t P).
      apply (Permutation_in t (sort_desc_perm alloc l)).
      rewrite S. now left. }
    specialize (M _ I). specialize (M' _ I'). lra.
Qed.

(** Two sorted arrays with the same elements are the same array when no
    two different elements share a key. *)
Lemma sorted_desc_unique {A : Type} (key : A -> Q) (l l' : list A) :
  sorted_desc key l -> sorted_desc key l' -> Permutation l l' ->
  (forall x y, In x l -> In y l -> key x == key y -> x = y) ->
  l = l'.
Proof.
  intros S. revert l'. induction S as [|x l Hx S IH]; intros l' S' P D.
  - apply Permutation_nil in P. now subst.
  - destruct l' as [|y l'].
    + apply Permutation_sym, Permutation_nil in P. discriminate.
    + pose proof (sorted_desc_head_max _ _ _ S') as M'.
      assert (M : Forall (fun z => key z <= key x) (x :: l))
        by (constructor; [lra|exact Hx]).
      rewrite Forall_forall in M, M'.
      assert (Iy : In y (x :: l))
        by (apply (Permutation_in y (Permutation_sym P)); now left).
      assert (Ix : In x (y :: l'))
        by (apply (Permutation_in x P); now left).
      assert (E : x = y).
      { apply D; [now left|exact Iy|].
        specialize (M _ Iy). specialize (M' _ Ix). lra. }
      subst y. f_equal. apply Permutation_cons_inv in P.
      inversion S' as [|? ? _ S'']; subst.
      apply IH; trivial.
      intros a b Ia Ib. apply D; now right.
Qed.

(** X6.  What does not depend on the order in which the holdings are
    listed.  For two lists with the same holdings in a different order,
    the dashboard returns the same holdings count and asset-class count,
    the same top-holding weight and the same asset classes; and when no
    two different holdings have the same allocation, the summary, which
    sorts the holdings before it computes anything, returns the same
    response. *)
Theorem analytics_order_independent (now userCurrency : string)
  (positions positions' : list PortfolioPosition) :
  Permutation positions positions' ->
  let r := Analytics.getAnalytics now positions in
  let r' := Analytics.getAnalytics now positions' in
  Analytics.assetClassCount (Analytics.diversification r)
  = Analytics.assetClassCount (Analytics.diversification r')
  /\ Analytics.holdingsCount (Analytics.diversification r)
     = Analytics.holdingsCount (Analytics.diversification r')
  /\ Analytics.topHoldingWeight (Analytics.concentrationRisk r)
     == Analytics.topHoldingWeight (Analytics.concentrationRisk r')
  /\ Permutation
       (map Analytics.entryAssetClass (Analytics.assetAllocation r))
       (map Analytics.entryAssetClass (Analytics.assetAllocation r'))
  /\ ((forall p q, In p positions -> In q positions ->
                   alloc p == alloc q -> p = q) ->
      Ai.getSummary now userCurrency positions
      = Ai.getSummary now userCurrency positions').
Proof.
  intros P. cbv zeta. unfold Analytics.getAnalytics.
  cbn [Analytics.diversification Analytics.concentrationRisk
       Analytics.assetAllocation].
  split; [|split; [|split; [|split]]].
  - cbn [Analytics.computeDiversification Analytics.assetClassCount].
    rewrite !Analytics_count_allocation. now apply mapCount_perm.
  - cbn [Analytics.computeDiversification Analytics.holdingsCount].
    apply Permutation_length, filter_perm, P.
  - rewrite !Analytics_top.
    destruct (top_weight_perm _ _ P) as [[N N']|(t & t' & T & T' & E)].
    + destruct (sort_desc alloc positions), (sort_desc alloc positions');
        try discriminate.
      reflexivity.
    + destruct (sort_desc alloc positions), (sort_desc alloc positions');
        try discriminate.
      injection T as ->. injection T' as ->. exact E.
  - apply Permutation_map. unfold Analytics.computeAssetAllocation.
    rewrite !sort_desc_perm. now apply Analytics_entries_perm.
  - intros D.
    assert (E : sort_desc alloc positions = sort_desc alloc positions').
    { apply (sorted_desc_unique alloc); try apply sort_desc_sorted.
      - rewrite !sort_desc_perm. exact P.
      - intros x y Ix Iy. apply D.
        + exact (Permutation_in x (sort_desc_perm alloc positions) Ix).
        + exact (Permutation_in y (sort_desc_perm alloc positions) Iy). }
    unfold Ai.getSummary. now rewrite E.
Qed.

Lemma analytics_order_independent_witness :
  Permutation sixty_forty (rev sixty_forty)
  /\ (forall p q, In p sixty_forty -> In q sixty_forty ->
                  alloc p == alloc q -> p = q)
  /\ Ai.getSummary "" "USD" sixty_forty
     = Ai.getSummary "" "USD" (rev sixty_forty).
Proof.
  assert (P : Permutation sixty_forty (rev sixty_forty)) by apply perm_swap.
  assert (D : forall p q, In p sixty_forty -> In q sixty_forty ->
                          alloc p == alloc q -> p = q).
  { intros p q [<-|[<-|[]]] [<-|[<-|[]]] E; try reflexivity;
      vm_compute in E; discriminate E. }
  split; [exact P|split; [exact D|]].
  exact (proj2 (proj2 (proj2 (proj2
           (analytics_order_independent "" "USD" _ _ P)))) D).
Defined.

(** ** The holdings list of the summary *)

Lemma sorted_desc_map {A B : Type} (key : A -> Q) (key' : B -> Q)
  (f : A -> B) (l : list A) :
  (forall x y, key y <= key x -> key' (f y) <= key' (f x)) ->
  sorted_desc key l -> sorted_desc key' (map f l).
Proof.
  intros M. induction 1 as [|x l H S IH]; simpl; constructor; trivial.
  apply Forall_map. eapply Forall_impl; [|exact H]. intros y. apply M.
Qed.

Lemma round_pct_mono (x y : Q) : y <= x -> round_pct y <= round_pct x.
Proof.
  intros H. unfold round_pct. rewrite !div_100.
  assert (Z : (Math_round (y * 10000) <= Math_round (x * 10000))%Z)
    by (apply Math_round_mono; lra).
  rewrite Zle_Qle in Z. lra.
Qed.

(** X7.  The holdings list of the summary lists every holding once, in
    descending order of its percentage; its first row is the top holding of
    the concentration object: same symbol, same name, same weight. *)
Theorem summary_holdings_list (now userCurrency : string)
  (positions : list PortfolioPosition) :
  let s := Ai.getSummary now userCurrency positions in
  Permutation (Ai.holdings s) (map (Ai.toHolding userCurrency) positions)
  /\ sorted_desc Ai.allocationPercentage (Ai.holdings s)
  /\ match Ai.holdings s with
     | [] => positions = []
     | h :: _ =>
         Ai.holdingSymbol h = Ai.topHoldingSymbol (Ai.concentration s)
         /\ Ai.holdingName h = Ai.topHoldingName (Ai.concentration s)
         /\ Ai.allocationPercentage h
            = Ai.topHoldingWeight (Ai.concentration s)
     end.
Proof.
  cbv zeta. unfold Ai.getSummary. cbn [Ai.holdings Ai.concentration].
  split; [|split].
  - apply Permutation_map, sort_desc_perm.
  - apply (sorted_desc_map alloc); [|apply sort_desc_sorted].
    intros x y H. now apply round_pct_mono.
  - rewrite Ai_top, sort_desc_idem.
    destruct (sort_desc alloc positions) as [|t r] eqn:S; simpl.
    + now apply sort_desc_nil_inv in S.
    + repeat split.
Qed.

(** * Properties of the news service *)

(** ** Sentiment classification *)

Lemma lowerAscii_idem (c : ascii) :
  News.lowerAscii (News.lowerAscii c) = News.lowerAscii c.
Proof.
  destruct c as [[] [] [] [] [] [] [] []]; reflexivity.
Qed.

Lemma toLowerCase_idem (s : string) :
  News.toLowerCase (News.toLowerCase s) = News.toLowerCase s.
Proof.
  induction s as [|c s IH]; simpl; [reflexivity|].
  now rewrite lowerAscii_idem, IH.
Qed.

Lemma toLowerCase_app (s t : string) :
  News.toLowerCase (s ++ t) = News.toLowerCase s ++ News.toLowerCase t.
Proof.
  induction s as [|c s IH]; simpl; [reflexivity|]. now rewrite IH.
Qed.

Lemma truthy_idem (x : option string) :
  News.truthy (News.truthy x) = News.truthy x.
Proof. destruct x as [[|c s]|]; reflexivity. Qed.

Lemma truthy_lower (x : option string) :
  News.truthy (option_map News.toLowerCase x) ?? ""
  = News.toLowerCase (News.truthy x ?? "").
Proof. destruct x as [[|c s]|]; reflexivity. Qed.

Lemma classifySentiment_text h s h' s' :
  News.sentimentText h s = News.sentimentText h' s' ->
  News.classifySentiment h s = News.classifySentiment h' s'.
Proof. intros E. unfold News.classifySentiment. now rewrite E. Qed.

(** X9.  The classification does not depend on letter case, and an absent
    summary and an empty one are classified alike. *)
Theorem sentiment_ignores_case (headline : string) (summary : option string) :
  News.classifySentiment headline summary
  = News.classifySentiment (News.toLowerCase headline)
      (option_map News.toLowerCase summary)
  /\ News.classifySentiment headline None
     = News.classifySentiment headline (Some "").
Proof.
  split; apply classifySentiment_text; [|reflexivity].
  unfold News.sentimentText.
  rewrite truthy_lower, !toLowerCase_app, !toLowerCase_idem. reflexivity.
Qed.

Lemma prefix_app_space (w a b : string) :
  noSpace w = true ->
  String.prefix w (a ++ " " ++ b) = String.prefix w a.
Proof.
  revert w. induction a as [|x a IH]; intros w N.
  - destruct w as [|c w]; [reflexivity|].
    simpl in N. apply andb_true_iff in N as [N _].
    apply negb_true_iff, Ascii.eqb_neq in N.
    simpl. destruct (ascii_dec c " "); [contradiction|reflexivity].
  - destruct w as [|c w]; [reflexivity|].
    simpl in N. apply andb_true_iff in N as [_ N].
    simpl. destruct (ascii_dec c x); [now apply IH|reflexivity].
Qed.

Lemma prefix_nil_r (w : string) :
  w <> "" -> String.prefix w "" = false.
Proof. destruct w; [congruence|reflexivity]. Qed.

(** A word without blanks occurs in two texts joined by a blank exactly
    when it occurs in one of them. *)
Lemma includes_app_space (w a b : string) :
  noSpace w = true -> w <> "" ->
  News.includes (a ++ " " ++ b) w = News.includes a w || News.includes b w.
Proof.
  intros N E. induction a as [|x a IH].
  - change ("" ++ " " ++ b) with (String " " b).
    cbn [News.includes]. rewrite (prefix_nil_r w E).
    change (String " " b) with ("" ++ " " ++ b).
    rewrite (prefix_app_space w "" b N), (prefix_nil_r w E).
    reflexivity.
  - change (String x a ++ " " ++ b) with (String x (a ++ " " ++ b)).
    cbn [News.includes]. rewrite IH.
    change (String x (a ++ " " ++ b)) with (String x a ++ " " ++ b).
    rewrite (prefix_app_space w (String x a) b N).
    now rewrite orb_assoc.
Qed.

Lemma keywords_without_space :
  Forall (fun w => noSpace w = true /\ w <> "")
    (News.positive ++ News.negative).
Proof. repeat constructor; discriminate. Qed.

Lemma filter_length_ext {A : Type} (f g : A -> bool) (l : list A) :
  Forall (fun x => f x = g x) l ->
  List.length (filter f l) = List.length (filter g l).
Proof.
  induction 1 as [|x l E _ IH]; simpl; [reflexivity|].
  rewrite E. destruct (g x); simpl; now rewrite IH.
Qed.

(** X10.  A keyword counts when it occurs in the headline or in the
    summary, never across the two; so the classification stays the same
    when headline and summary are exchanged. *)
Theorem sentiment_headline_summary_symmetric (headline summary : string) :
  (forall w, In w (News.positive ++ News.negative) ->
     News.includes (News.sentimentText headline (Some summary)) w
     = News.includes (News.toLowerCase headline) w
       || News.includes (News.toLowerCase summary) w)
  /\ News.classifySentiment headline (Some summary)
     = News.classifySentiment summary (Some headline).
Proof.
  assert (T : forall h s, News.sentimentText h (Some s)
                          = News.toLowerCase h ++ " " ++ News.toLowerCase s).
  { intros h s. unfold News.sentimentText.
    rewrite !toLowerCase_app. now destruct s. }
  assert (I : forall h s w, In w (News.positive ++ News.negative) ->
    News.includes (News.sentimentText h (Some s)) w
    = News.includes (News.toLowerCase h) w
      || News.includes (News.toLowerCase s) w).
  { intros h s w Hw. rewrite T.
    pose proof keywords_without_space as K. rewrite Forall_forall in K.
    destruct (K w Hw) as [N E]. now apply includes_app_space. }
  split; [apply I|].
  unfold News.classifySentiment, News.posCount, News.negCount.
  assert (P : List.length
                (filter (fun w => News.includes
                                    (News.sentimentText headline
                                       (Some summary)) w) News.positive)
              = List.length
                  (filter (fun w => News.includes
                                      (News.sentimentText summary
                                         (Some headline)) w) News.positive)).
  { apply filter_length_ext, Forall_forall. intros w Hw.
    rewrite !I by (apply in_or_app; now left). apply orb_comm. }
  assert (N : List.length
                (filter (fun w => News.includes
                                    (News.sentimentText headline
                                       (Some summary)) w) News.negative)
              = List.length
                  (filter (fun w => News.includes
                                      (News.sentimentText summary
                                         (Some headline)) w) News.negative)).
  { apply filter_length_ext, Forall_forall. intros w Hw.
    rewrite !I by (apply in_or_app; now right). apply orb_comm. }
  now rewrite P, N.
Qed.

Lemma prefix_trans (u w t : string) :
  String.prefix u w = true -> String.prefix w t = true ->
  String.prefix u t = true.
Proof.
  revert u w. induction t as [|x t IH]; intros u w Huw Hwt.
  - destruct w; [|discriminate]. destruct u; [reflexivity|discriminate].
  - destruct u as [|a u]; [reflexivity|].
    destruct w as [|b w]; [discriminate|].
    simpl in *. destruct (ascii_dec a b) as [->|]; [|discriminate].
    destruct (ascii_dec b x); [|discriminate]. now apply (IH u w).
Qed.

(** Where a word occurs, each of its prefixes occurs. *)
Lemma includes_prefix (u w text : string) :
  String.prefix u w = true ->
  News.includes text w = true -> News.includes text u = true.
Proof.
  intros P. induction text as [|x text IH]; cbn [News.includes]; intros H.
  - rewrite orb_false_r in *. now apply (prefix_trans u w).
  - apply orb_true_iff in H as [H|H]; apply orb_true_iff.
    + left. now apply (prefix_trans u w).
    + right. now apply IH.
Qed.

(** X11.  Keywords are matched as substrings, so "upgrade" always counts
    twice on the positive side (as "up" and as "upgrade") and "downgrade"
    twice on the negative side (as "down" and as "downgrade"): a text with
    "downgrade" and at most one positive keyword is negative, one with
    "upgrade" and at most one negative keyword is positive. *)
Theorem sentiment_grade_counts_twice (headline : string)
  (summary : option string) :
  let text := News.sentimentText headline summary in
  (News.includes text "upgrade" = true -> (2 <= News.posCount text)%nat)
  /\ (News.includes text "downgrade" = true -> (2 <= News.negCount text)%nat)
  /\ (News.includes text "downgrade" = true ->
      (News.posCount text <= 1)%nat ->
      News.classifySentiment headline summary = "negative")
  /\ (News.includes text "upgrade" = true ->
      (News.negCount text <= 1)%nat ->
      News.classifySentiment headline summary = "positive").
Proof.
  cbv zeta. set (text := News.sentimentText headline summary).
  assert (U : News.includes text "upgrade" = true ->
              (2 <= News.posCount text)%nat).
  { intros H. pose proof (includes_prefix "up" "upgrade" text eq_refl H) as H'.
    unfold News.posCount.
    change News.positive
      with (["surge"; "gain"; "rise"] ++ ["up"]
            ++ ["high"; "growth"; "profit"; "beat"] ++ ["upgrade"]
            ++ ["rally"; "bullish"; "record"])%list.
    rewrite !filter_app, !length_app. cbn [filter]. rewrite H, H'.
    cbn [List.length]. lia. }
  assert (D : News.includes text "downgrade" = true ->
              (2 <= News.negCount text)%nat).
  { intros H.
    pose proof (includes_prefix "down" "downgrade" text eq_refl H) as H'.
    unfold News.negCount.
    change News.negative
      with (["drop"; "fall"; "decline"] ++ ["down"]
            ++ ["low"; "loss"; "miss"] ++ ["downgrade"]
            ++ ["crash"; "bearish"; "cut"; "warning"])%list.
    rewrite !filter_app, !length_app. cbn [filter]. rewrite H, H'.
    cbn [List.length]. lia. }
  repeat split; trivial.
  - intros H L. specialize (D H). unfold News.classifySentiment.
    fold text.
    destruct (Nat.ltb_spec (News.negCount text) (News.posCount text));
      [lia|].
    destruct (Nat.ltb_spec (News.posCount text) (News.negCount text));
      [reflexivity|lia].
  - intros H L. specialize (U H). unfold News.classifySentiment.
    fold text.
    destruct (Nat.ltb_spec (News.negCount text) (News.posCount text));
      [reflexivity|lia].
Qed.

Lemma sentiment_grade_counts_twice_witness :
  News.includes
    (News.sentimentText "Analyst Downgrade after record quarter" None)
    "downgrade" = true
  /\ (News.posCount
        (News.sentimentText "Analyst Downgrade after record quarter" None)
      <= 1)%nat
  /\ News.classifySentiment "Analyst Downgrade after record quarter" None
     = "negative".
Proof.
  assert (H : News.includes
                (News.sentimentText
                   "Analyst Downgrade after record quarter" None)
                "downgrade" = true) by reflexivity.
  assert (L : (News.posCount
                 (News.sentimentText
                    "Analyst Downgrade after record quarter" None)
               <= 1)%nat) by (vm_compute; lia).
  split; [exact H|split; [exact L|]].
  exact (proj1 (proj2 (proj2
           (sentiment_grade_counts_twice
              "Analyst Downgrade after record quarter" None))) H L).
Defined.

(** ** Articles fetched from Finnhub *)

Lemma classifySentiment_labels h s :
  In (Some (News.classifySentiment h s))
    [Some "positive"; Some "negative"; Some "neutral"].
Proof.
  unfold News.classifySentiment.
  destruct (_ <? _)%nat; [now left|].
  destruct (_ <? _)%nat; [right; now left|right; right; now left].
Qed.

Lemma classifySentiment_truthy h s :
  News.classifySentiment h s = News.classifySentiment h (News.truthy s).
Proof.
  apply classifySentiment_text. unfold News.sentimentText.
  now rewrite truthy_idem.
Qed.

Lemma truthy_not_empty (x : option string) : News.truthy x <> Some "".
Proof. destruct x as [[|c s]|]; discriminate. Qed.

Lemma toArticle_Some toISOString sym t item a :
  News.toArticle toISOString sym t item = Some a ->
  fetchedArticle sym a /\ News.timeValue (itemMs item) <> None.
Proof.
  unfold News.toArticle. fold (itemMs item).
  destruct (News.timeValue (itemMs item)) as [tv|]; [|discriminate].
  intros [= <-]. split; [|discriminate].
  unfold fetchedArticle. cbn [News.id News.symbol News.summary News.source
                               News.sentiment News.headline].
  repeat split.
  - apply truthy_not_empty.
  - destruct (News.itemSource item) as [[|c s]|]; discriminate.
  - f_equal. apply classifySentiment_truthy.
  - apply classifySentiment_labels.
Qed.

Lemma toArticles_Some toISOString sym clock items :
  forall i l,
    News.toArticles toISOString sym clock i items = Some l ->
    List.length l = List.length items
    /\ Forall (fetchedArticle sym) l
    /\ Forall (fun item => News.timeValue (itemMs item) <> None) items.
Proof.
  induction items as [|item items IH]; intros i l; simpl.
  - intros [= <-]. repeat split; constructor.
  - destruct (News.toArticle toISOString sym (clock i) item) as [a|] eqn:A;
      [|discriminate].
    destruct (News.toArticles toISOString sym clock (S i) items) as [l'|]
      eqn:R; [|discriminate].
    intros [= <-]. destruct (IH _ _ R) as (L & F & V).
    destruct (toArticle_Some _ _ _ _ _ A) as [W T].
    simpl. repeat split; [now rewrite L| |]; now constructor.
Qed.

(** X12.  Whatever Finnhub answers, [fetchFromFinnhub] returns at most 20
    articles, each for the requested symbol and with an empty id; a
    summary is absent rather than empty, a source is never empty, and the
    sentiment is one of the three labels, namely the classification of the
    article's own headline and summary. *)
Theorem fetched_articles_well_formed (finnhubApiKey : string)
  (toISOString : Z -> string) (clock : nat -> string)
  (outcome : News.FetchOutcome) (sym : string) :
  let l :=
    News.fetchFromFinnhub finnhubApiKey toISOString clock outcome sym in
  (List.length l <= 20)%nat /\ Forall (fetchedArticle sym) l.
Proof.
  cbv zeta. unfold News.fetchFromFinnhub.
  destruct (String.eqb finnhubApiKey ""); [simpl; split; [lia|constructor]|].
  destruct outcome as [|[] [data|]];
    try (simpl; split; [lia|constructor]).
  destruct (News.toArticles toISOString sym clock 0 (firstn 20 data))
    as [l|] eqn:R; simpl; [|split; [lia|constructor]].
  destruct (toArticles_Some _ _ _ _ _ _ R) as (L & F & _).
  split; [|exact F]. rewrite L, length_firstn. lia.
Qed.

Lemma toArticles_None toISOString sym clock items :
  forall i,
    News.toArticles toISOString sym clock i items = None ->
    Exists (fun item => News.timeValue (itemMs item) = None) items.
Proof.
  induction items as [|item items IH]; intros i; simpl; [discriminate|].
  destruct (News.toArticle toISOString sym (clock i) item) as [a|] eqn:A.
  - destruct (News.toArticles toISOString sym clock (S i) items) eqn:R;
      [discriminate|].
    intros _. right. now apply (IH (S i)).
  - intros _. left. unfold News.toArticle in A. fold (itemMs item) in A.
    now destruct (News.timeValue (itemMs item)).
Qed.

(** X13.  [fetchFromFinnhub] is all or nothing.  It returns one article
    for each of the first 20 items when the API key is set, the request is
    answered with an OK status and a readable body, and every one of those
    items has a representable date; in every other case (no key, a
    rejected request, an error status, an unreadable body, or a single
    item among the first 20 whose date is out of range) it returns the
    empty list.  Items after the twentieth are never looked at. *)
Theorem fetch_all_or_nothing (finnhubApiKey : string)
  (toISOString : Z -> string) (clock : nat -> string)
  (outcome : News.FetchOutcome) (sym : string) :
  let l :=
    News.fetchFromFinnhub finnhubApiKey toISOString clock outcome sym in
  match outcome with
  | News.FetchResponse true (Some data) =>
      if String.eqb finnhubApiKey "" then l = []
      else
        (Forall (fun item => News.timeValue (itemMs item) <> None)
           (firstn 20 data)
         /\ List.length l = Nat.min 20 (List.length data))
        \/ (Exists (fun item => News.timeValue (itemMs item) = None)
              (firstn 20 data)
            /\ l = [])
  | _ => l = []
  end.
Proof.
  cbv zeta. unfold News.fetchFromFinnhub.
  destruct outcome as [|[] [data|]];
    try (destruct (String.eqb finnhubApiKey ""); reflexivity).
  destruct (String.eqb finnhubApiKey ""); [reflexivity|].
  destruct (News.toArticles toISOString sym clock 0 (firstn 20 data))
    as [l|] eqn:R; simpl.
  - left. destruct (toArticles_Some _ _ _ _ _ _ R) as (L & _ & V).
    split; [exact V|]. now rewrite L, length_firstn.
  - right. split; [|reflexivity].
    now apply (toArticles_None toISOString sym clock _ 0).
Qed.

(** ** News for a portfolio *)

Lemma In_firstn {A : Type} (n : nat) (l : list A) (x : A) :
  In x (firstn n l) -> In x l.
Proof.
  revert l. induction n as [|n IH]; intros [|y l]; simpl; try tauto.
  intros [->|H]; [now left|right; now apply IH].
Qed.

Lemma sorted_desc_firstn {A : Type} (key : A -> Q) (n : nat) (l : list A) :
  sorted_desc key l -> sorted_desc key (firstn n l).
Proof.
  intros S. revert n. induction S as [|x l H S IH]; intros [|n]; simpl;
    try constructor.
  - apply Forall_forall. intros y Hy. rewrite Forall_forall in H.
    apply H. now apply (In_firstn n).
  - apply IH.
Qed.

Lemma collectArticles_In getNewsForSymbol syms a :
  In a (News.collectArticles getNewsForSymbol syms) ->
  exists sym result,
    In sym syms /\ getNewsForSymbol sym = Some result
    /\ In a (firstn 5 (News.articles result)).
Proof.
  induction syms as [|sym syms IH]; [simpl; tauto|].
  cbn [News.collectArticles].
  destruct (getNewsForSymbol sym) as [result|] eqn:G.
  - intros H. apply in_app_or in H as [H|H].
    + exists sym, result. repeat split; trivial. now left.
    + destruct (IH H) as (s & r & I & E & J). exists s, r.
      repeat split; trivial. now right.
  - intros H. destruct (IH H) as (s & r & I & E & J). exists s, r.
    repeat split; trivial. now right.
Qed.

Lemma collectArticles_length getNewsForSymbol syms :
  (List.length (News.collectArticles getNewsForSymbol syms)
   <= 5 * List.length syms)%nat.
Proof.
  induction syms as [|sym syms IH]; [simpl; lia|].
  cbn [News.collectArticles]. change (List.length (sym :: syms))
    with (S (List.length syms)).
  destruct (getNewsForSymbol sym) as [result|].
  - rewrite length_app, length_firstn. lia.
  - lia.
Qed.

(** X14.  The portfolio news holds at most 30 articles (and at most five
    per symbol looked up), newest first; every article is one of the first
    five that [getNewsForSymbol] returned for one of the first ten symbols
    of the response, whether or not the lookup of another symbol failed. *)
Theorem portfolio_news_articles
  (getNewsForSymbol : string -> option News.NewsResponse)
  (getTime : string -> Q) (now : string)
  (orderSymbols : list (option string)) :
  let r :=
    News.getNewsForPortfolio getNewsForSymbol getTime now orderSymbols in
  (List.length (News.portfolioArticles r) <= 30)%nat
  /\ (List.length (News.portfolioArticles r)
      <= 5 * List.length (News.symbols r))%nat
  /\ sorted_desc (fun a => getTime (News.published_at a))
       (News.portfolioArticles r)
  /\ Forall
       (fun a =>
          exists sym result,
            In sym (firstn 10 (News.symbols r))
            /\ getNewsForSymbol sym = Some result
            /\ In a (firstn 5 (News.articles result)))
       (News.portfolioArticles r).
Proof.
  cbv zeta. unfold News.getNewsForPortfolio.
  cbn [News.portfolioArticles News.symbols].
  set (syms := News.distinct (News.truthySymbols orderSymbols)).
  set (all := News.collectArticles getNewsForSymbol (firstn 10 syms)).
  repeat split.
  - rewrite length_firstn. lia.
  - rewrite length_firstn, sort_desc_length.
    pose proof (collectArticles_length getNewsForSymbol (firstn 10 syms)).
    fold all in H. rewrite length_firstn in H. lia.
  - apply sorted_desc_firstn, sort_desc_sorted.
  - apply Forall_forall. intros a Ha.
    apply In_firstn in Ha.
    apply (Permutation_in a (sort_desc_perm _ all)) in Ha.
    now apply collectArticles_In.
Qed.

Lemma truthySymbols_In xs s :
  In s (News.truthySymbols xs) <-> In (Some s) xs /\ s <> "".
Proof.
  induction xs as [|x xs IH]; simpl; [tauto|].
  destruct x as [[|c t]|]; simpl.
  - rewrite IH. split; [tauto|]. intros [[E|H] N]; [congruence|tauto].
  - rewrite IH. split.
    + intros [<-|H]; [split; [now left|discriminate]|tauto].
    + intros [[[= <-]|H] N]; [now left|tauto].
  - rewrite IH. split; [tauto|]. intros [[E|H] N]; [discriminate|tauto].
Qed.

Lemma distinct_In xs s : In s (News.distinct xs) <-> In s xs.
Proof.
  induction xs as [|x xs IH]; simpl; [tauto|].
  rewrite filter_In, IH, negb_true_iff, String.eqb_neq.
  destruct (string_dec s x) as [->|N]; [tauto|].
  split; [tauto|]. intros [E|H]; [congruence|tauto].
Qed.

Lemma distinct_NoDup xs : NoDup (News.distinct xs).
Proof.
  induction xs as [|x xs IH]; simpl; constructor.
  - rewrite filter_In, negb_true_iff, String.eqb_neq. tauto.
  - now apply NoDup_filter.
Qed.

(** X15.  The symbols of the portfolio news are the symbols of the user's
    orders, each once, without the absent and the empty ones.  The list is
    not cut to the ten symbols that are looked up. *)
Theorem portfolio_news_symbols
  (getNewsForSymbol : string -> option News.NewsResponse)
  (getTime : string -> Q) (now : string)
  (orderSymbols : list (option string)) :
  let r :=
    News.getNewsForPortfolio getNewsForSymbol getTime now orderSymbols in
  NoDup (News.symbols r)
  /\ forall s, In s (News.symbols r) <-> In (Some s) orderSymbols /\ s <> "".
Proof.
  cbv zeta. unfold News.getNewsForPortfolio. cbn [News.symbols].
  split; [apply distinct_NoDup|].
  intros s. now rewrite distinct_In, truthySymbols_In.
Qed.

(** ** The alerts table *)

Lemma matches_true aid uid row :
  News.matches aid uid row = true
  <-> News.alertId row = aid /\ News.user_id row = uid.
Proof.
  unfold News.matches. now rewrite andb_true_iff, !String.eqb_eq.
Qed.

Lemma filter_nil_iff {A : Type} (f : A -> bool) (l : list A) :
  filter f l = [] <-> Forall (fun x => f x = false) l.
Proof.
  induction l as [|x l IH]; simpl.
  - split; [constructor|reflexivity].
  - destruct (f x) eqn:E.
    + split; [discriminate|]. intros H. inversion H; congruence.
    + rewrite IH. split; [now constructor|]. intros H. now inversion H.
Qed.

Lemma filter_negb_id {A : Type} (f : A -> bool) (l : list A) :
  Forall (fun x => f x = false) l -> filter (fun x => negb (f x)) l = l.
Proof.
  induction 1 as [|x l E _ IH]; simpl; [reflexivity|].
  now rewrite E, IH.
Qed.

Lemma map_if_id {A : Type} (f : A -> bool) (g : A -> A) (l : list A) :
  Forall (fun x => f x = false) l ->
  map (fun x => if f x then g x else x) l = l.
Proof.
  induction 1 as [|x l E _ IH]; simpl; [reflexivity|].
  now rewrite E, IH.
Qed.

(** Under the primary key, the row of an id is the only one that a
    statement on that id selects. *)
Lemma filter_matches_unique aid uid row table :
  primaryKey table -> In row table ->
  News.alertId row = aid -> News.user_id row = uid ->
  filter (News.matches aid uid) table = [row].
Proof.
  unfold primaryKey. intros PK I Ea Eu.
  induction table as [|r t IH]; [contradiction|].
  simpl in PK. inversion PK as [|? ? Hn PK']; subst.
  destruct I as [->|I].
  - simpl. rewrite (proj2 (matches_true _ _ row) (conj eq_refl eq_refl)).
    f_equal. apply filter_nil_iff, Forall_forall. intros r Hr.
    destruct (News.matches (News.alertId row) (News.user_id row) r) eqn:M;
      [|reflexivity].
    apply matches_true in M as [M _]. exfalso. apply Hn. rewrite <- M.
    now apply in_map.
  - simpl. destruct (News.matches (News.alertId row) (News.user_id row) r)
      eqn:M.
    + apply matches_true in M as [M _]. exfalso. apply Hn. rewrite M.
      now apply in_map.
    + now apply IH.
Qed.

(** X16.  Every operation on the alerts table keeps the primary key: if no
    two alerts share an id before, none do after a create (which fails
    rather than reuse an id), an update or a delete. *)
Theorem alerts_primary_key_kept (toUpperCase : string -> string)
  (newId : string) (now : Z) (aid userId sym : string) (kw : option string)
  (data : News.UpdateAlertDto) (table : list News.NewsAlert) :
  primaryKey table ->
  match News.createAlert toUpperCase newId now userId sym kw table with
  | Some (row, table') =>
      ~ In newId (map News.alertId table) /\ primaryKey table'
  | None => In newId (map News.alertId table)
  end
  /\ primaryKey (snd (News.updateAlert now aid userId data table))
  /\ primaryKey (snd (News.deleteAlert aid userId table)).
Proof.
  unfold primaryKey. intros PK. split; [|split].
  - unfold News.createAlert.
    destruct (existsb _ table) eqn:E.
    + apply existsb_exists in E as (row & I & E).
      apply String.eqb_eq in E. rewrite <- E. now apply in_map.
    + assert (N : ~ In newId (map News.alertId table)).
      { intros I. apply in_map_iff in I as (row & E' & I).
        assert (T : existsb (fun r => String.eqb (News.alertId r) newId)
                      table = true).
        { apply existsb_exists. exists row. split; [exact I|].
          now apply String.eqb_eq. }
        congruence. }
      split; [exact N|]. rewrite map_app. simpl.
      apply NoDup_app; [exact PK|repeat constructor; simpl; tauto|].
      intros x Hx [<-|[]]. contradiction.
  - unfold News.updateAlert.
    destruct (filter (News.matches aid userId) table) as [|current rest];
      [exact PK|].
    cbn [snd]. rewrite map_map.
    erewrite map_ext; [exact PK|].
    intros row. simpl. now destruct (News.matches aid userId row).
  - unfold News.deleteAlert. cbn [snd].
    induction table as [|r t IH]; simpl; [constructor|].
    inversion PK as [|? ? Hn PK']; subst.
    destruct (News.matches aid userId r); simpl; [now apply IH|].
    constructor; [|now apply IH].
    intros I. apply Hn. apply in_map_iff in I as (x & E & I).
    apply filter_In in I as [I _]. rewrite <- E. now apply in_map.
Qed.

Lemma alerts_primary_key_kept_witness :
  primaryKey sampleAlerts
  /\ primaryKey
       (snd (News.deleteAlert "a1" "u1" sampleAlerts)).
Proof.
  assert (PK : primaryKey sampleAlerts).
  { unfold primaryKey. simpl. repeat constructor; simpl;
      intros H; repeat destruct H as [H|H]; try discriminate H; exact H. }
  split; [exact PK|].
  exact (proj2 (proj2
           (alerts_primary_key_kept (fun s => s) "a4" 40 "a1" "u1" "TSLA"
              None (News.mkUpdateAlertDto None None) sampleAlerts PK))).
Defined.

Lemma filter_map_fixed {A : Type} (p : A -> bool) (g : A -> A) (l : list A) :
  (forall x, p x = true -> g x = x) -> (forall x, p (g x) = p x) ->
  filter p (map g l) = filter p l.
Proof.
  intros F P. induction l as [|x l IH]; simpl; [reflexivity|].
  rewrite P. destruct (p x) eqn:E; [|exact IH].
  now rewrite (F x E), IH.
Qed.

Lemma filter_filter_implied {A : Type} (p q : A -> bool) (l : list A) :
  (forall x, p x = true -> q x = true) ->
  filter p (filter q l) = filter p l.
Proof.
  intros I. induction l as [|x l IH]; simpl; [reflexivity|].
  destruct (q x) eqn:Q; simpl.
  - destruct (p x); now rewrite IH.
  - destruct (p x) eqn:P; [|exact IH]. rewrite (I x P) in Q. discriminate.
Qed.

(** X17.  No operation of one user changes what another user lists: after
    a create, an update or a delete by [userId], [listAlerts] of every
    other user returns what it returned before. *)
Theorem alerts_of_other_users_untouched (toUpperCase : string -> string)
  (newId : string) (now : Z) (aid userId other sym : string)
  (kw : option string) (data : News.UpdateAlertDto)
  (table : list News.NewsAlert) :
  other <> userId ->
  match News.createAlert toUpperCase newId now userId sym kw table with
  | Some (row, table') =>
      News.listAlerts other table' = News.listAlerts other table
  | None => True
  end
  /\ News.listAlerts other (snd (News.updateAlert now aid userId data table))
     = News.listAlerts other table
  /\ News.listAlerts other (snd (News.deleteAlert aid userId table))
     = News.listAlerts other table.
Proof.
  intros N. unfold News.listAlerts. split; [|split].
  - unfold News.createAlert. destruct (existsb _ table); [exact I|].
    rewrite filter_app. simpl.
    assert (E : String.eqb userId other = false)
      by (apply String.eqb_neq; congruence).
    now rewrite E, app_nil_r.
  - unfold News.updateAlert.
    destruct (filter (News.matches aid userId) table) as [|current rest];
      [reflexivity|].
    cbn [snd]. f_equal. apply filter_map_fixed.
    + intros row U. apply String.eqb_eq in U.
      destruct (News.matches aid userId row) eqn:M; [|reflexivity].
      apply matches_true in M as [_ M]. congruence.
    + intros row. now destruct (News.matches aid userId row).
  - unfold News.deleteAlert. cbn [snd]. f_equal.
    apply filter_filter_implied. intros row U. apply String.eqb_eq in U.
    destruct (News.matches aid userId row) eqn:M; [|reflexivity].
    apply matches_true in M as [_ M]. congruence.
Qed.

Lemma alerts_of_other_users_untouched_witness :
  "u2" <> "u1"
  /\ News.listAlerts "u2" (snd (News.deleteAlert "a1" "u1" sampleAlerts))
     = News.listAlerts "u2" sampleAlerts.
Proof.
  assert (N : "u2" <> "u1") by discriminate.
  split; [exact N|].
  exact (proj2 (proj2
           (alerts_of_other_users_untouched (fun s => s) "a4" 40 "a1" "u1"
              "u2" "TSLA" None (News.mkUpdateAlertDto None None)
              sampleAlerts N))).
Defined.

(** X18.  An alert id that does not exist, or that belongs to another
    user, is treated as not found: the update returns nothing and the
    delete returns false, the controller answers 404 "Alert not found" in
    both cases, and the table is left exactly as it was. *)
Theorem foreign_or_missing_alert_not_found (now : Z) (aid userId : string)
  (data : News.UpdateAlertDto) (table : list News.NewsAlert) :
  Forall (fun row => News.alertId row = aid -> News.user_id row <> userId)
    table ->
  News.updateAlert now aid userId data table = (None, table)
  /\ News.deleteAlert aid userId table = (false, table)
  /\ News.controllerUpdateAlert now userId aid data table
     = (News.HttpException "Alert not found" 404, table)
  /\ News.controllerDeleteAlert userId aid table
     = (News.HttpException "Alert not found" 404, table).
Proof.
  intros F.
  assert (M : Forall (fun row => News.matches aid userId row = false) table).
  { eapply Forall_impl; [|exact F]. intros row H.
    destruct (News.matches aid userId row) eqn:E; [|reflexivity].
    apply matches_true in E as [Ea Eu]. now specialize (H Ea). }
  assert (U : News.updateAlert now aid userId data table = (None, table)).
  { unfold News.updateAlert.
    now rewrite (proj2 (filter_nil_iff _ _) M). }
  assert (D : News.deleteAlert aid userId table = (false, table)).
  { unfold News.deleteAlert.
    now rewrite (proj2 (filter_nil_iff _ _) M), (filter_negb_id _ _ M). }
  repeat split; trivial.
  - unfold News.controllerUpdateAlert. now rewrite U.
  - unfold News.controllerDeleteAlert. now rewrite D.
Qed.

Lemma foreign_or_missing_alert_not_found_witness :
  Forall (fun row => News.alertId row = "a2" -> News.user_id row <> "u1")
    sampleAlerts
  /\ News.controllerDeleteAlert "u1" "a2" sampleAlerts
     = (News.HttpException "Alert not found" 404, sampleAlerts).
Proof.
  assert (F : Forall (fun row => News.alertId row = "a2" ->
                                 News.user_id row <> "u1") sampleAlerts).
  { repeat constructor; simpl; intros; discriminate. }
  split; [exact F|].
  exact (proj2 (proj2 (proj2
           (foreign_or_missing_alert_not_found 0 "a2" "u1"
              (News.mkUpdateAlertDto None None) sampleAlerts F)))).
Defined.

(** X19.  A created alert is listed.  When the insert succeeds, the new
    row has the generated id, the calling user, the upper-cased symbol,
    the keywords (absent when none or empty were given), the active flag
    set and both timestamps at the time of the insert; the user's list
    contains it and is one longer than before. *)
Theorem created_alert_is_listed (toUpperCase : string -> string)
  (newId : string) (now : Z) (userId sym : string) (kw : option string)
  (table : list News.NewsAlert) :
  match News.createAlert toUpperCase newId now userId sym kw table with
  | Some (row, table') =>
      row = News.mkNewsAlert newId userId (toUpperCase sym)
              (News.truthy kw) true now now
      /\ News.keywords row <> Some ""
      /\ In row (News.listAlerts userId table')
      /\ List.length (News.listAlerts userId table')
         = S (List.length (News.listAlerts userId table))
  | None => In newId (map News.alertId table)
  end.
Proof.
  unfold News.createAlert. destruct (existsb _ table) eqn:E.
  - apply existsb_exists in E as (row & I & E).
    apply String.eqb_eq in E. rewrite <- E. now apply in_map.
  - unfold News.listAlerts. repeat split.
    + apply truthy_not_empty.
    + apply (Permutation_in _ (Permutation_sym (sort_desc_perm _ _))).
      apply filter_In. split; [apply in_or_app; right; now left|].
      simpl. apply String.eqb_refl.
    + rewrite !sort_desc_length, filter_app, length_app. simpl.
      rewrite String.eqb_refl. simpl. lia.
Qed.

Lemma primaryKey_same_id row r table :
  primaryKey table -> In row table -> In r table ->
  News.alertId r = News.alertId row -> r = row.
Proof.
  intros PK I J E. now apply (NoDup_map_inj News.alertId table).
Qed.

(** X20.  An update of one's own alert changes what the request gives and
    nothing else: the keywords and the active flag are replaced only when
    the request carries them (an empty keyword string is stored as it is),
    [updated_at] becomes the time of the update, and id, owner, symbol and
    [created_at] stay.  The updated row is returned and takes the place of
    the old one; all other rows stay as they are. *)
Theorem update_changes_only_what_is_given (now : Z) (aid userId : string)
  (data : News.UpdateAlertDto) (row : News.NewsAlert)
  (table : list News.NewsAlert) :
  primaryKey table -> In row table ->
  News.alertId row = aid -> News.user_id row = userId ->
  let row' :=
    News.mkNewsAlert (News.alertId row) (News.user_id row)
      (News.alertSymbol row)
      (match News.dtoKeywords data with
       | Some k => Some k
       | None => News.keywords row
       end)
      (match News.dtoIsActive data with
       | Some b => b
       | None => News.is_active row
       end)
      (News.created_at row) now in
  let table' :=
    map (fun r => if String.eqb (News.alertId r) aid then row' else r)
      table in
  News.updateAlert now aid userId data table = (Some row', table')
  /\ News.controllerUpdateAlert now userId aid data table
     = (News.Ok row', table')
  /\ In row' table'.
Proof.
  intros PK I Ea Eu. cbv zeta.
  assert (U : News.updateAlert now aid userId data table
              = (Some
                   (News.mkNewsAlert (News.alertId row) (News.user_id row)
                      (News.alertSymbol row)
                      (match News.dtoKeywords data with
                       | Some k => Some k
                       | None => News.keywords row
                       end)
                      (match News.dtoIsActive data with
                       | Some b => b
                       | None => News.is_active row
                       end)
                      (News.created_at row) now),
                 map (fun r =>
                        if String.eqb (News.alertId r) aid
                        then News.mkNewsAlert (News.alertId row)
                               (News.user_id row) (News.alertSymbol row)
                               (match News.dtoKeywords data with
                                | Some k => Some k
                                | None => News.keywords row
                                end)
                               (match News.dtoIsActive data with
                                | Some b => b
                                | None => News.is_active row
                                end)
                               (News.created_at row) now
                        else r) table)).
  { unfold News.updateAlert.
    rewrite (filter_matches_unique aid userId row table PK I Ea Eu).
    cbn [map hd_error]. f_equal.
    apply map_ext_in. intros r J.
    destruct (String.eqb (News.alertId r) aid) eqn:E.
    - apply String.eqb_eq in E.
      assert (R : r = row)
        by (apply (primaryKey_same_id row r table); congruence).
      subst r. now rewrite (proj2 (matches_true aid userId row)
                              (conj Ea Eu)).
    - destruct (News.matches aid userId r) eqn:M; [|reflexivity].
      apply matches_true in M as [M _]. apply String.eqb_neq in E.
      contradiction. }
  split; [exact U|split].
  - unfold News.controllerUpdateAlert. now rewrite U.
  - apply in_map_iff. exists row. split; [|exact I].
    now rewrite (proj2 (String.eqb_eq _ _) Ea).
Qed.

Lemma update_changes_only_what_is_given_witness :
  primaryKey sampleAlerts
  /\ fst (News.updateAlert 50 "a3" "u1" (News.mkUpdateAlertDto None (Some true))
            sampleAlerts)
     = Some (News.mkNewsAlert "a3" "u1" "NVDA" None true 30 50).
Proof.
  assert (PK : primaryKey sampleAlerts).
  { unfold primaryKey. simpl. repeat constructor; simpl;
      intros H; repeat destruct H as [H|H]; try discriminate H; exact H. }
  split; [exact PK|].
  assert (I : In (News.mkNewsAlert "a3" "u1" "NVDA" None false 30 35)
                sampleAlerts) by (simpl; tauto).
  exact (f_equal fst
           (proj1 (update_changes_only_what_is_given 50 "a3" "u1"
                     (News.mkUpdateAlertDto None (Some true)) _
                     sampleAlerts PK I eq_refl eq_refl))).
Defined.

(** X21.  A delete reports true exactly when the user has an alert with
    that id; afterwards the table holds the other rows, in their order,
    and the alert is gone for good: a second delete reports false and an
    update finds nothing, both without touching the table. *)
Theorem deleted_alert_is_gone (now : Z) (aid userId : string)
  (data : News.UpdateAlertDto) (table : list News.NewsAlert) :
  let deleted := fst (News.deleteAlert aid userId table) in
  let table' := snd (News.deleteAlert aid userId table) in
  (deleted = true
   <-> exists row, In row table /\ News.alertId row = aid
                   /\ News.user_id row = userId)
  /\ (forall row,
        In row table'
        <-> In row table
            /\ ~ (News.alertId row = aid /\ News.user_id row = userId))
  /\ News.deleteAlert aid userId table' = (false, table')
  /\ News.updateAlert now aid userId data table' = (None, table')
  /\ News.controllerDeleteAlert userId aid table'
     = (News.HttpException "Alert not found" 404, table').
Proof.
  cbv zeta.
  set (table' := filter (fun row => negb (News.matches aid userId row))
                   table).
  change (News.deleteAlert aid userId table)
    with ((0 <? List.length (filter (News.matches aid userId) table))%nat,
          table').
  cbn [fst snd].
  assert (M : Forall (fun row => News.matches aid userId row = false) table').
  { apply Forall_forall. intros row I. apply filter_In in I as [_ I].
    now apply negb_true_iff. }
  assert (D : News.deleteAlert aid userId table' = (false, table')).
  { unfold News.deleteAlert.
    now rewrite (proj2 (filter_nil_iff _ _) M), (filter_negb_id _ _ M). }
  split; [|split; [|split; [|split]]].
  - rewrite Nat.ltb_lt. split.
    + intros L.
      destruct (filter (News.matches aid userId) table) as [|row rest] eqn:F;
        [simpl in L; lia|].
      assert (I : In row (filter (News.matches aid userId) table))
        by (rewrite F; now left).
      apply filter_In in I as [I E]. apply matches_true in E.
      exists row. tauto.
    + intros (row & I & Ea & Eu).
      assert (J : In row (filter (News.matches aid userId) table)).
      { apply filter_In. split; [exact I|]. now apply matches_true. }
      destruct (filter (News.matches aid userId) table); [contradiction|].
      simpl. lia.
  - intros row. unfold table'. rewrite filter_In, negb_true_iff.
    split; intros [I E]; (split; [exact I|]).
    + intros C. apply matches_true in C. congruence.
    + destruct (News.matches aid userId row) eqn:C; [|reflexivity].
      apply matches_true in C. contradiction.
  - exact D.
  - unfold News.updateAlert. now rewrite (proj2 (filter_nil_iff _ _) M).
  - unfold News.controllerDeleteAlert. now rewrite D.
Qed.

(** X22.  [listAlerts] returns the alerts of the user, all of them and no
    others, newest first. *)
Theorem list_alerts_of_user (userId : string) (table : list News.NewsAlert) :
  (forall row,
     In row (News.listAlerts userId table)
     <-> In row table /\ News.user_id row = userId)
  /\ sorted_desc (fun row => inject_Z (News.created_at row))
       (News.listAlerts userId table)
  /\ List.length (News.listAlerts userId table)
     = List.length
         (filter (fun row => String.eqb (News.user_id row) userId) table).
Proof.
  unfold News.listAlerts. split; [|split].
  - intros row. split.
    + intros I. apply (Permutation_in _ (sort_desc_perm _ _)) in I.
      apply filter_In in I as [I E]. now apply String.eqb_eq in E.
    + intros [I E].
      apply (Permutation_in _ (Permutation_sym (sort_desc_perm _ _))).
      apply filter_In. split; [exact I|]. now apply String.eqb_eq.
  - apply sort_desc_sorted.
  - apply sort_desc_length.
Qed.

(** X23.  The three outcomes of [POST /news/alerts].  Without a symbol, or
    with an empty one, the answer is 400 "symbol is required" and nothing
    is stored, whatever else the request holds.  With a symbol, the alert
    is appended for the requesting user, with the symbol upper-cased,
    unless the generated id is taken, when the insert fails and nothing
    is stored. *)
Theorem create_alert_outcomes (toUpperCase : string -> string)
  (newId : string) (now : Z) (requestUserId : string)
  (dto : News.CreateAlertDto) (table : list News.NewsAlert) :
  match News.controllerCreateAlert toUpperCase newId now requestUserId dto
          table with
  | Some (News.HttpException message status, table') =>
      News.truthy (News.dtoSymbol dto) = None
      /\ message = "symbol is required" /\ status = 400%Z /\ table' = table
  | Some (News.Ok row, table') =>
      exists sym,
        News.dtoSymbol dto = Some sym /\ sym <> ""
        /\ ~ In newId (map News.alertId table)
        /\ row = News.mkNewsAlert newId requestUserId (toUpperCase sym)
                   (News.truthy (News.dtoCreateKeywords dto)) true now now
        /\ table' = (table ++ [row])%list
  | None =>
      News.truthy (News.dtoSymbol dto) <> None
      /\ In newId (map News.alertId table)
  end.
Proof.
  unfold News.controllerCreateAlert.
  destruct (News.truthy (News.dtoSymbol dto)) as [sym|] eqn:T.
  - unfold News.createAlert. destruct (existsb _ table) eqn:E.
    + split; [discriminate|].
      apply existsb_exists in E as (row & I & E).
      apply String.eqb_eq in E. rewrite <- E. now apply in_map.
    + exists sym. destruct (News.dtoSymbol dto) as [[|c s]|];
        try discriminate. injection T as <-.
      repeat split; try discriminate.
      intros I. apply in_map_iff in I as (row & E' & I).
      assert (X : existsb (fun r => String.eqb (News.alertId r) newId)
                    table = true).
      { apply existsb_exists. exists row. split; [exact I|].
        now apply String.eqb_eq. }
      congruence.
  - repeat split.
Qed.

(** X24.  Create, update, delete through the controller compose: after an
    alert has been created, its owner can update it, then delete it, which
    puts the table back exactly as it was before the create; deleting it
    once more answers 404. *)
Theorem alert_lifecycle (toUpperCase : string -> string)
  (newId : string) (now now' : Z) (requestUserId : string)
  (dto : News.CreateAlertDto) (data : News.UpdateAlertDto)
  (row : News.NewsAlert) (table table1 : list News.NewsAlert) :
  News.controllerCreateAlert toUpperCase newId now requestUserId dto table
  = Some (News.Ok row, table1) ->
  let row' :=
    News.mkNewsAlert newId requestUserId (News.alertSymbol row)
      (match News.dtoKeywords data with
       | Some k => Some k
       | None => News.keywords row
       end)
      (match News.dtoIsActive data with
       | Some b => b
       | None => News.is_active row
       end)
      now now' in
  News.controllerUpdateAlert now' requestUserId newId data table1
  = (News.Ok row', (table ++ [row'])%list)
  /\ News.controllerDeleteAlert requestUserId newId (table ++ [row'])%list
     = (News.Ok true, table)
  /\ News.controllerDeleteAlert requestUserId newId table
     = (News.HttpException "Alert not found" 404, table).
Proof.
  intros C. cbv zeta.
  pose proof (create_alert_outcomes toUpperCase newId now requestUserId dto
                table) as O.
  rewrite C in O. destruct O as (sym & _ & _ & N & -> & ->).
  cbn [News.alertSymbol News.keywords News.is_active].
  assert (M : Forall (fun r => News.matches newId requestUserId r = false)
                table).
  { apply Forall_forall. intros r I.
    destruct (News.matches newId requestUserId r) eqn:E; [|reflexivity].
    apply matches_true in E as [E _]. exfalso. apply N. rewrite <- E.
    now apply in_map. }
  assert (S : forall s k a c u,
                News.matches newId requestUserId
                  (News.mkNewsAlert newId requestUserId s k a c u) = true).
  { intros. now apply matches_true. }
  repeat split.
  - unfold News.controllerUpdateAlert, News.updateAlert.
    rewrite filter_app, (proj2 (filter_nil_iff _ _) M). cbn [filter app].
    rewrite S. cbn [map hd_error].
    rewrite map_app, (map_if_id _ _ _ M). cbn [map].
    now rewrite S.
  - unfold News.controllerDeleteAlert, News.deleteAlert.
    rewrite !filter_app, (proj2 (filter_nil_iff _ _) M),
      (filter_negb_id _ _ M).
    cbn [filter app]. rewrite S. simpl.
    now rewrite app_nil_r.
  - unfold News.controllerDeleteAlert, News.deleteAlert.
    now rewrite (proj2 (filter_nil_iff _ _) M), (filter_negb_id _ _ M).
Qed.

Lemma alert_lifecycle_witness :
  News.controllerCreateAlert (fun s => s) "a4" 40 "u1"
    (News.mkCreateAlertDto (Some "TSLA") None) sampleAlerts
  = Some (News.Ok (News.mkNewsAlert "a4" "u1" "TSLA" None true 40 40),
          (sampleAlerts
           ++ [News.mkNewsAlert "a4" "u1" "TSLA" None true 40 40])%list)
  /\ News.controllerDeleteAlert "u1" "a4" sampleAlerts
     = (News.HttpException "Alert not found" 404, sampleAlerts).
Proof.
  assert (C : News.controllerCreateAlert (fun s => s) "a4" 40 "u1"
                (News.mkCreateAlertDto (Some "TSLA") None) sampleAlerts
              = Some (News.Ok
                        (News.mkNewsAlert "a4" "u1" "TSLA" None true 40 40),
                      (sampleAlerts
                       ++ [News.mkNewsAlert "a4" "u1" "TSLA" None true 40
                             40])%list)) by reflexivity.
  split; [exact C|].
  exact (proj2 (proj2
           (alert_lifecycle (fun s => s) "a4" 40 50 "u1" _
              (News.mkUpdateAlertDto None None) _ _ _ C))).
Defined.

(** * Cash and concentration *)

(** ** Liquidity does not move the score *)

Lemma Map_get_filter_counted c (m : list (string * (Q * Q))) :
  Map_get c (filter countedKey m)
  = if countedClass c then Map_get c m else None.
Proof.
  induction m as [|[k v] m IH]; simpl.
  - now destruct (countedClass c).
  - change (countedKey (k, v)) with (countedClass k).
    destruct (countedClass k) eqn:K; simpl.
    + destruct (String.eqb k c) eqn:E; [|exact IH].
      apply String.eqb_eq in E. subst. now rewrite K.
    + rewrite IH. destruct (String.eqb k c) eqn:E; [|reflexivity].
      apply String.eqb_eq in E. subst. now rewrite K.
Qed.

(** The counted entries of a class map still have one entry per key. *)
Lemma counted_keys_NoDup (m : list (string * (Q * Q))) :
  NoDup (map fst m) -> NoDup (map fst (filter countedKey m)).
Proof.
  intros ND. induction m as [|[k v] m IH]; [constructor|].
  cbn [map fst] in ND. apply NoDup_cons_iff in ND as [Hn ND].
  cbn [filter]. destruct (countedKey (k, v)); [|now apply IH].
  cbn [map fst]. apply NoDup_cons_iff. split; [|now apply IH].
  intros I. apply Hn. apply in_map_iff in I as (kv & E & I).
  apply filter_In in I as [I _]. rewrite <- E. now apply in_map.
Qed.

Lemma filter_inClass_notLiquidity c positions :
  countedClass c = true ->
  filter (inClass c) (filter notLiquidity positions)
  = filter (inClass c) positions.
Proof.
  intros C. apply filter_filter_implied. intros p I.
  apply counted_notLiquidity. unfold inClass in I.
  apply String.eqb_eq in I. now rewrite I.
Qed.

Lemma existsb_filter {A : Type} (f : A -> bool) (l : list A) :
  existsb f l = negb (Nat.eqb (List.length (filter f l)) 0).
Proof.
  induction l as [|x l IH]; simpl; [reflexivity|].
  destruct (f x); simpl; [reflexivity|exact IH].
Qed.

Lemma counted_lookup_without_liquidity c positions :
  oeq (Map_get c (filter countedKey (classMap positions)))
    (Map_get c (filter countedKey
                  (classMap (filter notLiquidity positions)))).
Proof.
  rewrite !Map_get_filter_counted.
  destruct (countedClass c) eqn:C; [|exact I].
  eapply oeq_trans; [apply Map_get_classMap_sums|].
  apply oeq_sym.
  eapply oeq_trans; [apply Map_get_classMap_sums|].
  unfold classWeight, classValue.
  rewrite !existsb_filter, (filter_inClass_notLiquidity c positions C).
  apply oeq_refl.
Qed.

Lemma mapHhi_entries m :
  mapHhi m
  == sumQ (map (fun e => Analytics.weight e * Analytics.weight e)
             (map Analytics.toEntry (filter countedKey m))).
Proof.
  unfold mapHhi. rewrite map_map.
  apply sumQ_map_ext, Forall_forall. intros [k [w v]] _. reflexivity.
Qed.

Lemma counted_entries_without_liquidity positions :
  Permutation
    (map Analytics.toEntry (filter countedKey (classMap positions)))
    (map Analytics.toEntry
       (filter countedKey (classMap (filter notLiquidity positions)))).
Proof.
  apply (entries_perm Analytics.toEntry Analytics.entryAssetClass).
  - now intros [k [w v]].
  - apply Analytics_toEntry_veq.
  - apply counted_keys_NoDup, classMap_NoDup.
  - apply counted_keys_NoDup, classMap_NoDup.
  - intros c. apply counted_lookup_without_liquidity.
Qed.

Lemma scoreOf_without_liquidity positions :
  scoreOf (filter notLiquidity positions) = scoreOf positions.
Proof.
  unfold scoreOf.
  pose proof (counted_entries_without_liquidity positions) as P.
  assert (F : filter notLiquidity (filter notLiquidity positions)
              = filter notLiquidity positions)
    by (apply filter_filter_implied; auto).
  assert (Cn : mapCount (classMap (filter notLiquidity positions))
               = mapCount (classMap positions)).
  { unfold mapCount.
    rewrite <- (length_map Analytics.toEntry
                  (filter countedKey (classMap positions))).
    rewrite <- (length_map Analytics.toEntry
                  (filter countedKey
                     (classMap (filter notLiquidity positions)))).
    symmetry. now apply Permutation_length. }
  assert (H : mapHhi (classMap (filter notLiquidity positions))
              == mapHhi (classMap positions)).
  { rewrite !mapHhi_entries. symmetry.
    now apply sumQ_perm, Permutation_map. }
  rewrite F, Cn.
  apply Math_round_comp, Math_min_comp; [|reflexivity].
  now rewrite H.
Qed.

(** X25.  Cash does not move the score: leaving the LIQUIDITY holdings
    out of the holdings list changes neither the diversification score nor
    the two counts it is built from, in either service.  (The weights of
    the other holdings are taken as they are, not rescaled.) *)
Theorem liquidity_does_not_move_the_score (now userCurrency : string)
  (positions : list PortfolioPosition) :
  let invested := filter notLiquidity positions in
  let d := Analytics.diversification (Analytics.getAnalytics now positions) in
  let d' := Analytics.diversification (Analytics.getAnalytics now invested) in
  let e := Ai.diversification (Ai.getSummary now userCurrency positions) in
  let e' := Ai.diversification (Ai.getSummary now userCurrency invested) in
  (Analytics.score d' = Analytics.score d
   /\ Analytics.holdingsCount d' = Analytics.holdingsCount d
   /\ Analytics.assetClassCount d' = Analytics.assetClassCount d)
  /\ (Ai.score e' = Ai.score e
   /\ Ai.holdingsCount e' = Ai.holdingsCount e
   /\ Ai.assetClassCount e' = Ai.assetClassCount e).
Proof.
  cbv zeta. unfold Analytics.getAnalytics, Ai.getSummary.
  cbn [Analytics.diversification Ai.diversification].
  assert (F : filter notLiquidity (filter notLiquidity positions)
              = filter notLiquidity positions)
    by (apply filter_filter_implied; auto).
  assert (Cn : mapCount (classMap (filter notLiquidity positions))
               = mapCount (classMap positions)).
  { unfold mapCount.
    rewrite <- (length_map Analytics.toEntry
                  (filter countedKey (classMap positions))).
    rewrite <- (length_map Analytics.toEntry
                  (filter countedKey
                     (classMap (filter notLiquidity positions)))).
    symmetry. apply Permutation_length,
      counted_entries_without_liquidity. }
  split; (split; [|split]).
  - rewrite !Analytics_score. apply scoreOf_without_liquidity.
  - cbn [Analytics.computeDiversification Analytics.holdingsCount].
    now rewrite F.
  - cbn [Analytics.computeDiversification Analytics.assetClassCount].
    now rewrite !Analytics_count_allocation.
  - rewrite !Ai_score.
    rewrite !(scoreOf_perm _ _ (sort_desc_perm alloc _)).
    apply scoreOf_without_liquidity.
  - cbn [Ai.computeDiversification Ai.holdingsCount].
    rewrite !(Permutation_length
                (filter_perm notLiquidity _ _ (sort_desc_perm alloc _))).
    now rewrite F.
  - cbn [Ai.computeDiversification Ai.assetClassCount].
    rewrite !Ai_count_allocation.
    rewrite !(mapCount_perm _ _ (sort_desc_perm alloc _)). exact Cn.
Qed.

(** ** The flag and the weight of the top holding *)

Lemma hhi_ge_square (positions : list PortfolioPosition) p :
  In p positions -> alloc p * alloc p <= hhi positions.
Proof.
  rewrite hhi_sumQ. induction positions as [|q l IH]; simpl; [tauto|].
  pose proof (sumQ_squares_nonneg alloc l) as N.
  intros [->|I]; [lra|]. specialize (IH I). nra.
Qed.

Lemma hhi_le_max (positions : list PortfolioPosition) (t : Q) :
  Forall (fun p => 0 <= alloc p /\ alloc p <= t) positions ->
  hhi positions <= t * sumQ (map alloc positions).
Proof.
  rewrite hhi_sumQ. induction 1 as [|p l [L U] _ IH]; simpl; [lra|]. nra.
Qed.

(** X26.  How the concentration flag follows the top holding.  A top
    holding above 50% always sets the flag.  When no allocation is
    negative and the allocations add up to at most 1, a top holding of at
    most 25% never sets it. *)
Theorem flag_and_top_weight (positions : list PortfolioPosition) :
  let c := Analytics.computeConcentrationRisk positions in
  (1 # 2 < Analytics.topHoldingWeight c ->
   Analytics.isHighlyConcentrated c = true)
  /\ (Forall (fun p => 0 <= alloc p) positions ->
      sumQ (map alloc positions) <= 1 ->
      Analytics.topHoldingWeight c <= 1 # 4 ->
      Analytics.isHighlyConcentrated c = false).
Proof.
  cbv zeta. rewrite Analytics_top.
  destruct (sort_desc alloc positions) as [|top rest] eqn:S; simpl.
  - split; [intros H; vm_compute in H; discriminate|reflexivity].
  - pose proof (sort_desc_sorted alloc positions) as M. rewrite S in M.
    apply sorted_desc_head_max in M.
    assert (P : Permutation (top :: rest) positions)
      by (rewrite <- S; apply sort_desc_perm).
    split.
    + intros H. apply gtb_true.
      assert (I : In top positions)
        by (apply (Permutation_in _ P); now left).
      pose proof (hhi_ge_square positions top I). nra.
    + intros N Sm T. apply gtb_false.
      assert (B : Forall (fun p => 0 <= alloc p /\ alloc p <= 1 # 4)
                    positions).
      { apply Forall_forall. intros p I. rewrite Forall_forall in N, M.
        split; [now apply N|].
        assert (J : In p (top :: rest))
          by (apply (Permutation_in _ (Permutation_sym P)); exact I).
        specialize (M p J). lra. }
      pose proof (hhi_le_max positions (1 # 4) B).
      assert (0 <= sumQ (map alloc positions))
        by (apply sumQ_nonneg, Forall_map; exact N).
      nra.
Qed.

Lemma flag_and_top_weight_witness :
  1 # 2 < Analytics.topHoldingWeight
            (Analytics.computeConcentrationRisk sixty_forty)
  /\ Analytics.isHighlyConcentrated
       (Analytics.computeConcentrationRisk sixty_forty) = true.
Proof.
  assert (H : 1 # 2 < Analytics.topHoldingWeight
                        (Analytics.computeConcentrationRisk sixty_forty))
    by reflexivity.
  split; [exact H|].
  exact (proj1 (flag_and_top_weight sixty_forty) H).
Defined.
